(** * Balance reconciliation of the inventory backend

    A shallow embedding of the sale, payment and customer controllers
    (saleController, paymentController, customerController) together with
    the Mongoose schemas they save through (Sale, Payment, Customer).

    Conventions of the embedding.
    - In the handlers a JavaScript Number is an exact rational ([Q]);
      sums, differences, products, [Math.abs] and [Math.min] are the exact
      operations and equality of amounts is [Qeq] ([==]).  What depends on
      the rounding of the engine is not decided there: the lines that
      derive the payment status are given a second time on IEEE 754
      doubles ([Module Double]), and the statements about the tolerance
      itself are made on those.
    - A collection is a finite map from document ids to documents.  A
      document loaded with [findById] is a copy: it reaches the collection
      again only through [save].
    - A handler is a function from the store to an outcome and a new store.
      An early [return res.status(..)] and a thrown exception both stop the
      handler and keep every write made so far: nothing is rolled back. *)

From Stdlib Require Import QArith Qabs Qminmax Lqa.
From Stdlib Require Import Floats.
From stdpp Require Import gmap strings.

#[local] Set Warnings "-inexact-float".

Local Open Scope Q_scope.

(** ** Money *)

(** The tolerance [0.01] of the controllers. *)
Definition eps : Q := 1 # 100.

(** [x < y] and [x <= y] on numbers, as booleans. *)
Definition ltb (x y : Q) : bool := negb (Qle_bool y x).
Definition leb (x y : Q) : bool := Qle_bool x y.

(** [parseFloat(x) || d]: an absent field and a zero both give [d]. *)
Definition orElse (x : option Q) (d : Q) : Q :=
  match x with
  | Some v => if Qeq_bool v 0 then d else v
  | None => d
  end.

(** [Math.abs(b) < 0.01 ? 0 : b]. *)
Definition snap (b : Q) : Q := if ltb (Qabs b) eps then 0 else b.

(** ** Documents *)

Definition ID := N.

Inductive PaymentStatus := Paid | Partial | Pending | Overpaid.
Inductive Status := Completed | Cancelled | Refunded.

Definition Status_eqb (a b : Status) : bool :=
  match a, b with
  | Completed, Completed | Cancelled, Cancelled | Refunded, Refunded => true
  | _, _ => false
  end.

(** The if-chain that every controller path uses to derive the payment
    status from a balance and a paid amount. *)
Definition paymentStatusOf (balance paid : Q) : PaymentStatus :=
  if ltb balance (- eps) then Overpaid
  else if ltb (Qabs balance) eps then Paid
  else if ltb 0 paid then Partial
  else Pending.

Module Item.
Record t := mk {
  product : ID;
  quantity : Q;
  price : Q;
  discount : Q;
  total : Q
}.

(** Schema validators of a line item. *)
Definition valid (i : t) : bool :=
  leb (1 # 100) (quantity i) && leb 0 (price i) && leb 0 (discount i) && leb 0 (total i).
End Item.

Module Sale.
Record t := mk {
  invoiceNumber : string;
  customer : ID;
  items : list Item.t;
  subtotal : Q;
  discount : Q;
  tax : Q;
  total : Q;
  paid : Q;
  balance : Q;
  paymentStatus : PaymentStatus;
  status : Status
}.

(** Schema validators run by [save] and [create]: the [min] bounds of the
    numeric paths ([balance] has none). *)
Definition valid (s : t) : bool :=
  forallb Item.valid (items s) && leb 0 (subtotal s) && leb 0 (discount s)
  && leb 0 (tax s) && leb 0 (total s) && leb 0 (paid s).

(** The virtual [remainingBalance]. *)
Definition remainingBalance (s : t) : Q := total s - paid s.

Definition set_payment (s : t) (paid' balance' : Q) (ps : PaymentStatus) : t :=
  mk (invoiceNumber s) (customer s) (items s) (subtotal s) (discount s) (tax s)
     (total s) paid' balance' ps (status s).

Definition set_status (s : t) (st : Status) : t :=
  mk (invoiceNumber s) (customer s) (items s) (subtotal s) (discount s) (tax s)
     (total s) (paid s) (balance s) (paymentStatus s) st.
End Sale.

Module Allocation.
Record t := mk { sale : ID; amount : Q }.
End Allocation.

Module Payment.
Record t := mk {
  receiptNumber : string;
  customer : ID;
  amount : Q;
  sales : list Allocation.t;
  totalAllocated : Q
}.

Definition valid (p : t) : bool :=
  leb (1 # 100) (amount p) && forallb (fun a => leb 0 (Allocation.amount a)) (sales p)
  && leb 0 (totalAllocated p).

(** The virtual [remainingAmount]. *)
Definition remainingAmount (p : t) : Q := amount p - totalAllocated p.
End Payment.

Module Customer.
Record t := mk {
  creditLimit : Q;
  outstandingAmount : Q;
  totalPurchase : Q
}.

(** [$inc: { totalPurchase: dp, outstandingAmount: d }]. *)
Definition inc (dp d : Q) (c : t) : t :=
  mk (creditLimit c) (outstandingAmount c + d) (totalPurchase c + dp).
End Customer.

Module Product.
Record t := mk { stock_current : Q }.

(** [$inc: { 'stock.current': d }]. *)
Definition inc (d : Q) (p : t) : t := mk (stock_current p + d).
End Product.

(** ** The store and the handler monad *)

Record Store := mkStore {
  products : gmap ID Product.t;
  customers : gmap ID Customer.t;
  sales : gmap ID Sale.t;
  payments : gmap ID Payment.t;
  (** the next fresh [_id] a created document receives *)
  nextId : ID
}.

Definition with_products (f : gmap ID Product.t -> gmap ID Product.t) (st : Store) : Store :=
  mkStore (f (products st)) (customers st) (sales st) (payments st) (nextId st).
Definition with_customers (f : gmap ID Customer.t -> gmap ID Customer.t) (st : Store) : Store :=
  mkStore (products st) (f (customers st)) (sales st) (payments st) (nextId st).
Definition with_sales (f : gmap ID Sale.t -> gmap ID Sale.t) (st : Store) : Store :=
  mkStore (products st) (customers st) (f (sales st)) (payments st) (nextId st).
Definition with_payments (f : gmap ID Payment.t -> gmap ID Payment.t) (st : Store) : Store :=
  mkStore (products st) (customers st) (sales st) (f (payments st)) (nextId st).

(** Replies of a handler, named after the error taxonomy: 404 is
    [NotFound]; the 400 replies are told apart by their message; 500 is
    [ServerError]. *)
Inductive Reply :=
  | ValidationFailed | NotFound | InvalidState | InsufficientStock | Conflict
  | ServerError.

(** Exceptions thrown by the persistence layer. *)
Inductive Exn := ValidationError | DuplicateKey.

Inductive Outcome (A : Type) :=
  | Ok (a : A)
  | Respond (r : Reply)
  | Throw (e : Exn).
Arguments Ok {A} a.
Arguments Respond {A} r.
Arguments Throw {A} e.

Definition M (A : Type) : Type := Store -> Outcome A * Store.

Definition ret {A} (a : A) : M A := fun st => (Ok a, st).
Definition respond {A} (r : Reply) : M A := fun st => (Respond r, st).
Definition throw {A} (e : Exn) : M A := fun st => (Throw e, st).
Definition bind {A B} (m : M A) (k : A -> M B) : M B :=
  fun st =>
    match m st with
    | (Ok a, st') => k a st'
    | (Respond r, st') => (Respond r, st')
    | (Throw e, st') => (Throw e, st')
    end.
Definition get : M Store := fun st => (Ok st, st).
Definition modify (f : Store -> Store) : M unit := fun st => (Ok tt, f st).

Notation "'let*' x ':=' m 'in' k" := (bind m (fun x => k))
  (at level 10, x name, m at level 100, k at level 200).
Notation "m ';;;' k" := (bind m (fun _ => k))
  (at level 100, k at level 200, right associativity).

(** What the client receives: the handler's [catch] block turns a thrown
    exception into a reply. *)
Inductive Response (A : Type) :=
  | Success (a : A)
  | Failure (r : Reply).
Arguments Success {A} a.
Arguments Failure {A} r.

Definition handle {A} (onThrow : Exn -> Reply) (m : M A) (st : Store) : Response A * Store :=
  match m st with
  | (Ok a, st') => (Success a, st')
  | (Respond r, st') => (Failure r, st')
  | (Throw e, st') => (Failure (onThrow e), st')
  end.

(** ** Model operations *)

(** [Customer.findByIdAndUpdate(id, { $inc })]: no validators run and a
    missing id updates nothing. *)
Definition Customer_findByIdAndUpdate (cid : ID) (dPurchase dOutstanding : Q) : M unit :=
  modify (with_customers (alter (Customer.inc dPurchase dOutstanding) cid)).

(** [Product.findByIdAndUpdate(id, { $inc: { 'stock.current': d } })]. *)
Definition Product_findByIdAndUpdate (pid : ID) (d : Q) : M unit :=
  modify (with_products (alter (Product.inc d) pid)).

Definition Sale_findById (sid : ID) : M (option Sale.t) :=
  fun st => (Ok (sales st !! sid), st).
Definition Customer_findById (cid : ID) : M (option Customer.t) :=
  fun st => (Ok (customers st !! cid), st).
Definition Product_findById (pid : ID) : M (option Product.t) :=
  fun st => (Ok (products st !! pid), st).
Definition Payment_findById (pid : ID) : M (option Payment.t) :=
  fun st => (Ok (payments st !! pid), st).

(** [saleSchema.post('save')]: a completed sale with a positive balance adds
    its balance to the customer's outstanding amount. *)
Definition hookFires (s : Sale.t) : bool :=
  Status_eqb (Sale.status s) Completed && ltb 0 (Sale.balance s).

Definition Sale_postSave (s : Sale.t) : M unit :=
  if hookFires s
  then Customer_findByIdAndUpdate (Sale.customer s) 0 (Sale.balance s)
  else ret tt.

(** [sale.save()] of a loaded document: validate, write, run the hook. *)
Definition Sale_save (sid : ID) (s : Sale.t) : M unit :=
  if Sale.valid s then
    modify (with_sales (insert sid s)) ;;;
    Sale_postSave s
  else throw ValidationError.

Definition invoiceTaken (inv : string) (m : gmap ID Sale.t) : bool :=
  existsb (fun kv => String.eqb (Sale.invoiceNumber (snd kv)) inv) (map_to_list m).

Definition bumpId (st : Store) : Store :=
  mkStore (products st) (customers st) (sales st) (payments st) (N.succ (nextId st)).

(** [Sale.create(data)]: validate, insert under a fresh id unless the unique
    invoice number is taken, run the hook. *)
Definition Sale_create (s : Sale.t) : M (ID * Sale.t) :=
  if Sale.valid s then
    let* st := get in
    if invoiceTaken (Sale.invoiceNumber s) (sales st) then throw DuplicateKey
    else
      let sid := nextId st in
      modify (fun st => bumpId (with_sales (insert sid s) st)) ;;;
      Sale_postSave s ;;;
      ret (sid, s)
  else throw ValidationError.

(** ** saleController *)

Module ItemReq.
(** A line item of a request body; [total] is what the client sent. *)
Record t := mk {
  product : ID;
  quantity : Q;
  price : Q;
  discount : option Q;
  total : option Q
}.

(** [items.*.quantity], [items.*.price], [items.*.discount] of the route. *)
Definition valid (i : t) : bool :=
  leb (1 # 100) (quantity i) && leb 0 (price i)
  && match discount i with Some d => leb 0 d | None => true end.

(** The loop body's conversion: numbers, then
    [item.total = item.price * item.quantity - item.discount]. *)
Definition priced (i : t) : Item.t :=
  let q := orElse (Some (quantity i)) 0 in
  let p := orElse (Some (price i)) 0 in
  let d := orElse (discount i) 0 in
  Item.mk (product i) q p d (p * q - d).
End ItemReq.

Definition optNonneg (x : option Q) : bool :=
  match x with Some v => leb 0 v | None => true end.

Module SaleReq.
Record t := mk {
  customer : ID;
  items : list ItemReq.t;
  discount : option Q;
  tax : option Q;
  paid : option Q
}.
End SaleReq.

(** [createSaleValidation] of the sales route. *)
Definition createSaleValidation (r : SaleReq.t) : bool :=
  negb (Nat.eqb (length (SaleReq.items r)) 0)
  && forallb ItemReq.valid (SaleReq.items r)
  && optNonneg (SaleReq.discount r) && optNonneg (SaleReq.tax r)
  && optNonneg (SaleReq.paid r).

(** The stock-checking loop of [createSale]: every product is looked up and
    compared with the requested quantity (no stock is taken yet); the
    priced items and the running subtotal are returned. *)
Fixpoint checkItems (its : list ItemReq.t) (subtotal : Q) : M (list Item.t * Q) :=
  match its with
  | [] => ret ([], subtotal)
  | item :: rest =>
      let* product := Product_findById (ItemReq.product item) in
      match product with
      | None => respond NotFound
      | Some p =>
          if ltb (Product.stock_current p) (ItemReq.quantity item)
          then respond InsufficientStock
          else
            let it := ItemReq.priced item in
            let* r := checkItems rest (subtotal + Item.total it) in
            ret (it :: fst r, snd r)
      end
  end.

(** [for (let item of items) Product.findByIdAndUpdate(.., $inc: d * quantity)]. *)
Fixpoint adjustStock (sign : Q) (its : list Item.t) : M unit :=
  match its with
  | [] => ret tt
  | item :: rest =>
      Product_findByIdAndUpdate (Item.product item) (sign * Item.quantity item) ;;;
      adjustStock sign rest
  end.

Definition createSale_body (invoiceNumber : string) (req : SaleReq.t) : M (ID * Sale.t) :=
  if negb (createSaleValidation req) then respond ValidationFailed else
  let discountAmount := orElse (SaleReq.discount req) 0 in
  let taxAmount := orElse (SaleReq.tax req) 0 in
  let paidAmount := orElse (SaleReq.paid req) 0 in
  let* customerExists := Customer_findById (SaleReq.customer req) in
  match customerExists with
  | None => respond NotFound
  | Some _ =>
      let* checked := checkItems (SaleReq.items req) 0 in
      let items := fst checked in
      let subtotal := snd checked in
      let total := subtotal - discountAmount + taxAmount in
      let balance := total - paidAmount in
      let paymentStatus := paymentStatusOf balance paidAmount in
      let saleData :=
        Sale.mk invoiceNumber (SaleReq.customer req) items subtotal discountAmount
                taxAmount total paidAmount (snap balance) paymentStatus Completed in
      let* created := Sale_create saleData in
      let sale := snd created in
      adjustStock (-1) items ;;;
      Customer_findByIdAndUpdate (SaleReq.customer req) total (Sale.balance sale) ;;;
      ret created
  end.

Definition createSale_catch (e : Exn) : Reply :=
  match e with
  | DuplicateKey => Conflict
  | ValidationError => ValidationFailed
  end.

(** [POST /api/sales]; the invoice number is the one generated from the
    clock at the time of the call. *)
Definition createSale (invoiceNumber : string) (req : SaleReq.t) (st : Store)
  : Response (ID * Sale.t) * Store :=
  handle createSale_catch (createSale_body invoiceNumber req) st.

(** The [uppercase: true] setter of [invoiceNumber], on ASCII letters. *)
Definition upperAscii (c : Ascii.ascii) : Ascii.ascii :=
  let n := Ascii.nat_of_ascii c in
  if (Nat.leb 97 n && Nat.leb n 122)%bool then Ascii.ascii_of_nat (n - 32) else c.

Fixpoint toUpperCase (s : string) : string :=
  match s with
  | EmptyString => EmptyString
  | String c rest => String (upperAscii c) (toUpperCase rest)
  end.

Module SalePatch.
(** The keys of an update body that are paths of the sale schema held by
    the embedding; an absent key is [None].  The keys [paymentMethod],
    [dueDate] and [notes], which no handler reads, are not held. *)
Record t := mk {
  invoiceNumber : option string;
  customer : option ID;
  items : option (list ItemReq.t);
  subtotal : option Q;
  discount : option Q;
  tax : option Q;
  total : option Q;
  paid : option Q;
  balance : option Q;
  paymentStatus : option PaymentStatus;
  status : option Status
}.
End SalePatch.

(** [updateSaleValidation] of the sales route. *)
Definition updateSaleValidation (p : SalePatch.t) : bool :=
  match SalePatch.items p with
  | Some its => negb (Nat.eqb (length its) 0) && forallb ItemReq.valid its
  | None => true
  end
  && optNonneg (SalePatch.discount p) && optNonneg (SalePatch.tax p)
  && optNonneg (SalePatch.paid p).

(** A line item as the document array casts it when [sale.items] is
    assigned from the body: the client's own [total], which the schema
    requires. *)
Definition castItem (i : ItemReq.t) : option Item.t :=
  match ItemReq.total i with
  | Some t =>
      Some (Item.mk (ItemReq.product i) (ItemReq.quantity i) (ItemReq.price i)
                    (default 0 (ItemReq.discount i)) t)
  | None => None
  end.

Fixpoint castItems (its : list ItemReq.t) : option (list Item.t) :=
  match its with
  | [] => Some []
  | i :: rest =>
      match castItem i, castItems rest with
      | Some x, Some xs => Some (x :: xs)
      | _, _ => None
      end
  end.

(** [Object.keys(req.body).forEach(key => sale[key] = req.body[key])];
    the second component is false when the document cannot pass the
    [required] validators: an assigned item lacks its [total], or the
    assigned [invoiceNumber] is empty. *)
Definition assignBody (p : SalePatch.t) (s : Sale.t) : Sale.t * bool :=
  let its :=
    match SalePatch.items p with
    | Some l => match castItems l with Some l' => (l', true) | None => ([], false) end
    | None => (Sale.items s, true)
    end in
  let inv :=
    match SalePatch.invoiceNumber p with
    | Some n => (toUpperCase n, negb (String.eqb n EmptyString))
    | None => (Sale.invoiceNumber s, true)
    end in
  (Sale.mk (fst inv)
           (default (Sale.customer s) (SalePatch.customer p))
           (fst its)
           (default (Sale.subtotal s) (SalePatch.subtotal p))
           (default (Sale.discount s) (SalePatch.discount p))
           (default (Sale.tax s) (SalePatch.tax p))
           (default (Sale.total s) (SalePatch.total p))
           (default (Sale.paid s) (SalePatch.paid p))
           (default (Sale.balance s) (SalePatch.balance p))
           (default (Sale.paymentStatus s) (SalePatch.paymentStatus p))
           (default (Sale.status s) (SalePatch.status p)),
   snd its && snd inv).

(** The recalculation under [if (req.body.items)]. *)
Definition recalcTotals (p : SalePatch.t) (s : Sale.t) : Sale.t :=
  match SalePatch.items p with
  | Some its =>
      let subtotal := fold_left (fun acc i => acc + Item.total (ItemReq.priced i)) its 0 in
      let discount := orElse (SalePatch.discount p) (Sale.discount s) in
      let tax := orElse (SalePatch.tax p) (Sale.tax s) in
      let total := subtotal - discount + tax in
      let paid := orElse (SalePatch.paid p) (Sale.paid s) in
      Sale.mk (Sale.invoiceNumber s) (Sale.customer s) (Sale.items s) subtotal discount
              tax total paid (Sale.balance s) (Sale.paymentStatus s) (Sale.status s)
  | None => s
  end.

(** "Always recalculate balance and payment status". *)
Definition recalcBalance (s : Sale.t) : Sale.t :=
  let currentBalance := Sale.total s - Sale.paid s in
  let balance := snap currentBalance in
  Sale.set_payment s (Sale.paid s) balance (paymentStatusOf balance (Sale.paid s)).

(** [sale.save()] of the document loaded as [old], whose [invoiceNumber]
    may have been assigned: after the validators, a modified number meets
    the unique index of [invoiceNumber]. *)
Definition Sale_saveRenamed (sid : ID) (old s : Sale.t) : M unit :=
  let* st := get in
  if Sale.valid s
     && negb (String.eqb (Sale.invoiceNumber s) (Sale.invoiceNumber old))
     && invoiceTaken (Sale.invoiceNumber s) (sales st)
  then throw DuplicateKey
  else Sale_save sid s.

Definition updateSale_body (sid : ID) (p : SalePatch.t) : M Sale.t :=
  if negb (updateSaleValidation p) then respond ValidationFailed else
  let* found := Sale_findById sid in
  match found with
  | None => respond NotFound
  | Some sale0 =>
      if Status_eqb (Sale.status sale0) Cancelled then respond InvalidState else
      let oldTotal := Sale.total sale0 in
      let oldBalance := Sale.balance sale0 in
      let assigned := assignBody p sale0 in
      let sale := recalcBalance (recalcTotals p (fst assigned)) in
      (if snd assigned then Sale_saveRenamed sid sale0 sale else throw ValidationError) ;;;
      let totalDiff := Sale.total sale - oldTotal in
      let balanceDiff := Sale.balance sale - oldBalance in
      (if negb (Qeq_bool totalDiff 0) || negb (Qeq_bool balanceDiff 0)
       then Customer_findByIdAndUpdate (Sale.customer sale) totalDiff balanceDiff
       else ret tt) ;;;
      ret sale
  end.

Definition updateSale_catch (e : Exn) : Reply :=
  match e with
  | ValidationError => ValidationFailed
  | DuplicateKey => ServerError
  end.

(** [PUT /api/sales/:id]. *)
Definition updateSale (sid : ID) (p : SalePatch.t) (st : Store) : Response Sale.t * Store :=
  handle updateSale_catch (updateSale_body sid p) st.

Definition deleteSale_body (sid : ID) : M unit :=
  let* found := Sale_findById sid in
  match found with
  | None => respond NotFound
  | Some sale =>
      if Status_eqb (Sale.status sale) Cancelled then respond InvalidState else
      adjustStock 1 (Sale.items sale) ;;;
      Customer_findByIdAndUpdate (Sale.customer sale) (- Sale.total sale) (- Sale.balance sale) ;;;
      Sale_save sid (Sale.set_status sale Cancelled)
  end.

(** [DELETE /api/sales/:id]: the sale is cancelled, never removed. *)
Definition deleteSale (sid : ID) (st : Store) : Response unit * Store :=
  handle (fun _ => ServerError) (deleteSale_body sid) st.

(** ** paymentController *)

Module PaymentReq.
(** Body of a payment request; an absent [sales] array is the empty list
    (both skip the allocation loop), an absent [amount] is [None]. *)
Record t := mk {
  customer : ID;
  amount : option Q;
  sales : list Allocation.t
}.
End PaymentReq.

(** [createPaymentValidation] of the payments route. *)
Definition createPaymentValidation (r : PaymentReq.t) : bool :=
  match PaymentReq.amount r with Some a => leb (1 # 100) a | None => false end
  && forallb (fun a => leb 0 (Allocation.amount a)) (PaymentReq.sales r).

(** [updatePaymentValidation] of the payments route. *)
Definition updatePaymentValidation (r : PaymentReq.t) : bool :=
  match PaymentReq.amount r with Some a => leb (1 # 100) a | None => true end
  && forallb (fun a => leb 0 (Allocation.amount a)) (PaymentReq.sales r).

(** The tail shared by the three allocation loops once the amount [delta]
    to move onto [paid] is known: update [paid] and [balance], derive the
    status, save, then pass the balance change on to the customer. *)
Definition credited (sale : Sale.t) (delta : Q) : Sale.t :=
  let paid := Sale.paid sale + delta in
  let balance := Sale.balance sale - delta in
  Sale.set_payment sale paid balance (paymentStatusOf balance paid).

Definition applyToSale (sid : ID) (sale : Sale.t) (delta : Q) : M unit :=
  let oldBalance := Sale.balance sale in
  let sale' := credited sale delta in
  Sale_save sid sale' ;;;
  let balanceChange := Sale.balance sale' - oldBalance in
  Customer_findByIdAndUpdate (Sale.customer sale') 0 balanceChange.

(** One turn of the allocation loop of [createPayment]; the result is the
    allocation pushed onto [paymentData.sales]. *)
Definition allocate (allocation : Allocation.t) : M Allocation.t :=
  let* found := Sale_findById (Allocation.sale allocation) in
  match found with
  | None => respond NotFound
  | Some sale =>
      if leb (Sale.balance sale) 0 then respond InvalidState else
      let allocationAmount := Qmin (Allocation.amount allocation) (Sale.balance sale) in
      applyToSale (Allocation.sale allocation) sale allocationAmount ;;;
      ret (Allocation.mk (Allocation.sale allocation) allocationAmount)
  end.

(** [for (let allocation of sales)] with the accumulators
    [paymentData.sales] and [totalAllocated]. *)
Fixpoint allocateAll (allocs recorded : list Allocation.t) (totalAllocated : Q)
  : M (list Allocation.t * Q) :=
  match allocs with
  | [] => ret (recorded, totalAllocated)
  | allocation :: rest =>
      let* a := allocate allocation in
      allocateAll rest (recorded ++ [a]) (totalAllocated + Allocation.amount a)
  end.

Definition receiptTaken (rec : string) (m : gmap ID Payment.t) : bool :=
  existsb (fun kv => String.eqb (Payment.receiptNumber (snd kv)) rec) (map_to_list m).

(** [Payment.create(data)]. *)
Definition Payment_create (p : Payment.t) : M (ID * Payment.t) :=
  if Payment.valid p then
    let* st := get in
    if receiptTaken (Payment.receiptNumber p) (payments st) then throw DuplicateKey
    else
      let pid := nextId st in
      modify (fun st => bumpId (with_payments (insert pid p) st)) ;;;
      ret (pid, p)
  else throw ValidationError.

(** [payment.save()] of a loaded document. *)
Definition Payment_save (pid : ID) (p : Payment.t) : M unit :=
  if Payment.valid p then modify (with_payments (insert pid p))
  else throw ValidationError.

Definition createPayment_body (receiptNumber : string) (req : PaymentReq.t)
  : M (ID * Payment.t) :=
  if negb (createPaymentValidation req) then respond ValidationFailed else
  let* customerExists := Customer_findById (PaymentReq.customer req) in
  match customerExists with
  | None => respond NotFound
  | Some _ =>
      let* r := allocateAll (PaymentReq.sales req) [] 0 in
      Payment_create
        (Payment.mk receiptNumber (PaymentReq.customer req)
                    (default 0 (PaymentReq.amount req)) (fst r) (snd r))
  end.

Definition createPayment_catch (e : Exn) : Reply :=
  match e with
  | DuplicateKey => Conflict
  | ValidationError => ServerError
  end.

(** [POST /api/payments]; the receipt number is the one generated from the
    clock at the time of the call. *)
Definition createPayment (receiptNumber : string) (req : PaymentReq.t) (st : Store)
  : Response (ID * Payment.t) * Store :=
  handle createPayment_catch (createPayment_body receiptNumber req) st.

(** One turn of the reversal loop of [updatePayment]: a sale that no longer
    exists is skipped. *)
Definition reverseAllocation (oldAllocation : Allocation.t) : M unit :=
  let* found := Sale_findById (Allocation.sale oldAllocation) in
  match found with
  | None => ret tt
  | Some sale => applyToSale (Allocation.sale oldAllocation) sale (- Allocation.amount oldAllocation)
  end.

Fixpoint reverseAll (oldSales : list Allocation.t) : M unit :=
  match oldSales with
  | [] => ret tt
  | oldAllocation :: rest => reverseAllocation oldAllocation ;;; reverseAll rest
  end.

(** One turn of the second loop of [updatePayment]: the requested amount is
    applied as it is. *)
Definition reallocate (allocation : Allocation.t) : M Allocation.t :=
  let* found := Sale_findById (Allocation.sale allocation) in
  match found with
  | None => respond NotFound
  | Some sale =>
      let allocationAmount := Allocation.amount allocation in
      applyToSale (Allocation.sale allocation) sale allocationAmount ;;;
      ret (Allocation.mk (Allocation.sale allocation) allocationAmount)
  end.

Fixpoint reallocateAll (allocs recorded : list Allocation.t) (totalAllocated : Q)
  : M (list Allocation.t * Q) :=
  match allocs with
  | [] => ret (recorded, totalAllocated)
  | allocation :: rest =>
      let* a := reallocate allocation in
      reallocateAll rest (recorded ++ [a]) (totalAllocated + Allocation.amount a)
  end.

Definition updatePayment_body (pid : ID) (req : PaymentReq.t) : M Payment.t :=
  if negb (updatePaymentValidation req) then respond ValidationFailed else
  let* found := Payment_findById pid in
  match found with
  | None => respond NotFound
  | Some payment =>
      let oldSales := Payment.sales payment in
      reverseAll oldSales ;;;
      let amount := orElse (PaymentReq.amount req) (Payment.amount payment) in
      let* r := reallocateAll (PaymentReq.sales req) [] 0 in
      let payment' :=
        Payment.mk (Payment.receiptNumber payment) (Payment.customer payment) amount
                   (fst r) (snd r) in
      Payment_save pid payment' ;;;
      ret payment'
  end.

(** [PUT /api/payments/:id]. *)
Definition updatePayment (pid : ID) (req : PaymentReq.t) (st : Store)
  : Response Payment.t * Store :=
  handle (fun _ => ServerError) (updatePayment_body pid req) st.

(** ** customerController *)

Module CustomerObj.
(** An entry of the customer list response. *)
Record t := mk {
  _id : ID;
  creditLimit : Q;
  calculatedOutstanding : Q;
  outstandingAmount : Q;
  totalPurchase : Q
}.
End CustomerObj.

(** [Sale.find({ customer: cid, status: { $ne: 'cancelled' } })]. *)
Definition Sale_findActiveOf (cid : ID) (st : Store) : list Sale.t :=
  List.filter (fun s => N.eqb (Sale.customer s) cid && negb (Status_eqb (Sale.status s) Cancelled))
         (map snd (map_to_list (sales st))).

(** [sales.reduce((sum, sale) => sum + f(sale), 0)]. *)
Definition reduceSum (f : Sale.t -> Q) (l : list Sale.t) : Q :=
  fold_left (fun sum sale => sum + f sale) l 0.

(** The callback of [customers.map] in [getCustomers]. *)
Definition withCalculatedOutstanding (st : Store) (entry : ID * Customer.t) : CustomerObj.t :=
  let sales := Sale_findActiveOf (fst entry) st in
  let calculatedOutstanding := reduceSum Sale.balance sales in
  let calculatedTotalPurchase := reduceSum Sale.total sales in
  CustomerObj.mk (fst entry) (Customer.creditLimit (snd entry))
                 calculatedOutstanding calculatedOutstanding calculatedTotalPurchase.

Section GetCustomers.
(** [Customer.find(query).sort(..).skip(..).limit(..)]: the page of
    customers the query selects from the collection. *)
Variable find : gmap ID Customer.t -> list (ID * Customer.t).

Definition getCustomers_body : M (list CustomerObj.t) :=
  let* st := get in
  let customers := find (customers st) in
  ret (map (withCalculatedOutstanding st) customers).

(** [GET /api/customers]. *)
Definition getCustomers (st : Store) : Response (list CustomerObj.t) * Store :=
  handle (fun _ => ServerError) getCustomers_body st.
End GetCustomers.

(** ** The payment status on doubles *)

Module Double.
(** The numbers of the engine: IEEE 754 binary64, operations rounded to
    nearest, a decimal literal read as the nearest double. *)

(** The literal [0.01]. *)
Definition eps : float := 0.01%float.

(** The if-chain of the controllers ([balance < -0.01],
    [Math.abs(balance) < 0.01], [paid > 0]). *)
Definition paymentStatusOf (balance paid : float) : PaymentStatus :=
  if PrimFloat.ltb balance (PrimFloat.opp eps) then Overpaid
  else if PrimFloat.ltb (PrimFloat.abs balance) eps then Paid
  else if PrimFloat.ltb 0%float paid then Partial
  else Pending.

(** [Math.abs(b) < 0.01 ? 0 : b]. *)
Definition snap (b : float) : float :=
  if PrimFloat.ltb (PrimFloat.abs b) eps then 0%float else b.

(** [createSale], from the computed [total] and [paidAmount]: the status is
    derived from [total - paidAmount], the balance stored is that
    difference snapped.  The result is the stored balance and the status. *)
Definition createSale_amounts (total paidAmount : float) : float * PaymentStatus :=
  let balance := PrimFloat.sub total paidAmount in
  (snap balance, paymentStatusOf balance paidAmount).

(** [updateSale], "always recalculate balance and payment status": the
    difference is snapped first and the status derived from the snapped
    balance. *)
Definition updateSale_amounts (total paid : float) : float * PaymentStatus :=
  let currentBalance := PrimFloat.sub total paid in
  let balance := snap currentBalance in
  (balance, paymentStatusOf balance paid).

(** The rule the chain implements, on the computed balance [b]. *)
Definition FollowsRule (b p : float) (s : PaymentStatus) : Prop :=
  (PrimFloat.ltb b (PrimFloat.opp eps) = true -> s = Overpaid)
  /\ (PrimFloat.ltb (PrimFloat.abs b) eps = true -> s = Paid)
  /\ (PrimFloat.leb eps b = true -> PrimFloat.ltb 0%float p = true -> s = Partial)
  /\ (PrimFloat.leb eps b = true -> PrimFloat.ltb 0%float p = false -> s = Pending).

(** The rule with the tolerance included in the [Paid] band,
    [|balance| <= 0.01], for comparison with the chain. *)
Definition closedBandStatus (total paid : float) : PaymentStatus :=
  let balance := PrimFloat.sub total paid in
  if PrimFloat.ltb balance (PrimFloat.opp eps) then Overpaid
  else if PrimFloat.leb (PrimFloat.abs balance) eps then Paid
  else if PrimFloat.ltb 0%float paid then Partial
  else Pending.
End Double.

(** ** Notions used in the statements *)

(** The rule the if-chain implements; the single point [b == - eps] is left
    to the chain's fall-through. *)
Definition FollowsRule (b p : Q) (s : PaymentStatus) : Prop :=
  (b < - eps -> s = Overpaid)
  /\ (Qabs b < eps -> s = Paid)
  /\ (eps <= b -> 0 < p -> s = Partial)
  /\ (eps <= b -> p <= 0 -> s = Pending).

(** The customers after the post-save hook of [s] has run. *)
Definition afterHook (s : Sale.t) (m : gmap ID Customer.t) : gmap ID Customer.t :=
  if hookFires s then alter (Customer.inc 0 (Sale.balance s)) (Sale.customer s) m else m.

(** What the hook adds to the outstanding amount. *)
Definition hookAmount (s : Sale.t) : Q := if hookFires s then Sale.balance s else 0.

(** The totals [createSale] computes from a request and a subtotal. *)
Definition totalOf (req : SaleReq.t) (subtotal : Q) : Q :=
  subtotal - orElse (SaleReq.discount req) 0 + orElse (SaleReq.tax req) 0.
Definition paidOf (req : SaleReq.t) : Q := orElse (SaleReq.paid req) 0.

(** ** A small shop, used to run the handlers *)

(** One product with 50 in stock, one customer with nothing outstanding. *)
Definition shop : Store :=
  mkStore {[ 1%N := Product.mk 50 ]} {[ 1%N := Customer.mk 0 0 0 ]} ∅ ∅ 10%N.

(** A sale of two units at 500 to customer 1, with the amount paid at the
    counter. *)
Definition saleOf1000 (paid : option Q) : SaleReq.t :=
  SaleReq.mk 1%N [ItemReq.mk 1%N 2 500 None None] None None paid.

(** The shop after the unpaid sale of 1000 (document 10). *)
Definition shopWithSale : Store := snd (createSale "INV-1" (saleOf1000 None) shop).

(** ... and after a payment of 600 allocated to it (document 11). *)
Definition shopWithPayment : Store :=
  snd (createPayment "REC-1" (PaymentReq.mk 1%N (Some 600) [Allocation.mk 10%N 600])
                     shopWithSale).

(** The store after [applyToSale sid sale delta] went through: the credited
    sale is written, its hook has run, and the customer has received the
    balance change. *)
Definition storeAfterApply (sid : ID) (sale : Sale.t) (delta : Q) (st : Store) : Store :=
  mkStore (products st)
          (alter (Customer.inc 0 (Sale.balance (credited sale delta) - Sale.balance sale))
                 (Sale.customer sale)
                 (afterHook (credited sale delta) (customers st)))
          (<[sid:=credited sale delta]> (sales st)) (payments st) (nextId st).

(** The shop after a sale of 1000 paid in full at the counter (document 10)
    and a payment of 50 that is not allocated to any sale (document 11). *)
Definition shopSettled : Store :=
  snd (createPayment "REC-1" (PaymentReq.mk 1%N (Some 50) [])
         (snd (createSale "INV-1" (saleOf1000 (Some 1000)) shop))).

(** The sum of the amounts of a list of allocations. *)
Fixpoint sumAmounts (l : list Allocation.t) : Q :=
  match l with
  | [] => 0
  | a :: rest => Allocation.amount a + sumAmounts rest
  end.

(** The quantity the items of a sale hold of product [pid]. *)
Fixpoint quantityOf (pid : ID) (its : list Item.t) : Q :=
  match its with
  | [] => 0
  | it :: rest =>
      (if N.eqb (Item.product it) pid then Item.quantity it else 0) + quantityOf pid rest
  end.

(** A sale counts for customer [cid] when it is theirs and not cancelled. *)
Definition countsFor (cid : ID) (s : Sale.t) : bool :=
  N.eqb (Sale.customer s) cid && negb (Status_eqb (Sale.status s) Cancelled).

(** The sum of [f] over the sale documents that count for [cid], one term
    per document of the collection. *)
Fixpoint sumWhere (cid : ID) (f : Sale.t -> Q) (docs : list (ID * Sale.t)) : Q :=
  match docs with
  | [] => 0
  | (_, s) :: rest => (if countsFor cid s then f s else 0) + sumWhere cid f rest
  end.

Definition sumOverSales (cid : ID) (f : Sale.t -> Q) (st : Store) : Q :=
  sumWhere cid f (map_to_list (sales st)).

(** ** Further handlers of the controllers *)

(** The virtual [creditStatus] of the Customer model. *)
Inductive CreditStatus := CreditClear | OverLimit | WithinLimit.

Definition Customer_creditStatus (c : Customer.t) : CreditStatus :=
  if leb (Customer.outstandingAmount c) 0 then CreditClear
  else if ltb 0 (Customer.creditLimit c)
          && ltb (Customer.creditLimit c) (Customer.outstandingAmount c)
       then OverLimit
       else WithinLimit.

(** The values of [req.query.creditStatus] that [getCustomers] turns into a
    query on the stored fields. *)
Inductive CreditFilter := over_limit | clear | within_limit.

(** Whether a customer document matches the query built for the filter. *)
Definition matchesCreditFilter (f : CreditFilter) (c : Customer.t) : bool :=
  match f with
  | over_limit =>
      ltb 0 (Customer.outstandingAmount c)
      && ltb (Customer.creditLimit c) (Customer.outstandingAmount c)
  | clear => Qeq_bool (Customer.outstandingAmount c) 0
  | within_limit =>
      ltb 0 (Customer.outstandingAmount c)
      && leb (Customer.outstandingAmount c) (Customer.creditLimit c)
  end.

Definition deleteCustomer_body (cid : ID) : M unit :=
  let* found := Customer_findById cid in
  match found with
  | None => respond NotFound
  | Some customer =>
      if ltb 0 (Customer.outstandingAmount customer) then respond InvalidState
      else modify (with_customers (delete cid))
  end.

(** [DELETE /api/customers/:id]: refused (400) while the stored outstanding
    amount is positive, else the customer document is removed. *)
Definition deleteCustomer (cid : ID) (st : Store) : Response unit * Store :=
  handle (fun _ => ServerError) (deleteCustomer_body cid) st.

Module SalesStats.
Record t := mk {
  totalSales : nat;
  totalAmount : Q;
  totalPaid : Q;
  totalOutstanding : Q;
  paidSales : nat;
  pendingSales : nat;
  overpaidAmount : Q;
  unpaidAmount : Q
}.
End SalesStats.

Definition isSettled (s : Sale.t) : bool :=
  match Sale.paymentStatus s with Paid | Overpaid => true | _ => false end.
Definition isOpen (s : Sale.t) : bool :=
  match Sale.paymentStatus s with Pending | Partial => true | _ => false end.

(** The [salesStats] object of [getCustomer]. *)
Definition salesStatsOf (allSales : list Sale.t) : SalesStats.t :=
  SalesStats.mk
    (length allSales)
    (reduceSum Sale.total allSales)
    (reduceSum Sale.paid allSales)
    (reduceSum Sale.balance allSales)
    (length (List.filter isSettled allSales))
    (length (List.filter isOpen allSales))
    (reduceSum (fun sale => Qabs (Sale.balance sale))
               (List.filter (fun s => ltb (Sale.balance s) 0) allSales))
    (reduceSum Sale.balance (List.filter (fun s => ltb 0 (Sale.balance s)) allSales)).

Inductive OverallStatus := StatusClear | StatusOutstanding | StatusCredit.

Definition overallStatusOf (stats : SalesStats.t) : OverallStatus :=
  if ltb eps (SalesStats.totalOutstanding stats) then StatusOutstanding
  else if ltb (SalesStats.totalOutstanding stats) (- eps) then StatusCredit
  else StatusClear.

Module CustomerDetail.
(** The [data] of the [getCustomer] response, without the message text. *)
Record t := mk {
  customer : Customer.t;
  sales : list Sale.t;
  payments : list Payment.t;
  salesStats : SalesStats.t;
  totalPayments : nat;
  paymentsTotalAmount : Q;
  overallStatus : OverallStatus
}.
End CustomerDetail.

(** [Payment.find({ customer: cid })], with the document ids. *)
Definition Payment_findOf (cid : ID) (st : Store) : list (ID * Payment.t) :=
  List.filter (fun kv => N.eqb (Payment.customer (snd kv)) cid) (map_to_list (payments st)).


Section ReadPaths.
(** The [.sort(..)] of the read queries, by dates the documents of the
    embedding do not carry: some function on the found documents. *)
Variable sortSales : list Sale.t -> list Sale.t.
Variable sortSaleDocs : list (ID * Sale.t) -> list (ID * Sale.t).
Variable sortPaymentDocs : list (ID * Payment.t) -> list (ID * Payment.t).

Definition getCustomer_body (cid : ID) : M CustomerDetail.t :=
  let* found := Customer_findById cid in
  match found with
  | None => respond NotFound
  | Some customer =>
      let* st := get in
      let allSales := sortSales (Sale_findActiveOf cid st) in
      let allPayments := map snd (sortPaymentDocs (Payment_findOf cid st)) in
      let salesStats := salesStatsOf allSales in
      ret (CustomerDetail.mk customer allSales allPayments salesStats
             (length allPayments)
             (fold_left (fun sum payment => sum + Payment.amount payment) allPayments 0)
             (overallStatusOf salesStats))
  end.

(** [GET /api/customers/:id]. *)
Definition getCustomer (cid : ID) (st : Store) : Response CustomerDetail.t * Store :=
  handle (fun _ => ServerError) (getCustomer_body cid) st.


(** [GET /api/payments/unallocated/:customerId]: the customer's payments
    whose [remainingAmount] is positive. *)
Definition getUnallocatedPayments (cid : ID) (st : Store)
  : Response (list (ID * Payment.t)) * Store :=
  handle (fun _ => ServerError)
         (let* st := get in
          let payments := sortPaymentDocs (Payment_findOf cid st) in
          ret (List.filter (fun kv => ltb 0 (Payment.remainingAmount (snd kv))) payments)) st.
End ReadPaths.

(** The sum of [f] over a list of sales, term by term. *)
Fixpoint sumOf (f : Sale.t -> Q) (l : list Sale.t) : Q :=
  match l with
  | [] => 0
  | s :: rest => f s + sumOf f rest
  end.

(** A customer who owes 100 with no credit limit set. *)
Definition debtorWithoutLimit : Customer.t := Customer.mk 0 100 0.

(** The subtotal the stock-checking loop of [createSale] accumulates. *)
Definition subtotalOf (its : list ItemReq.t) : Q :=
  fold_left (fun acc i => acc + Item.total (ItemReq.priced i)) its 0.

(** The document [createSale] hands to [Sale.create]. *)
Definition saleDataOf (inv : string) (req : SaleReq.t) : Sale.t :=
  let subtotal := subtotalOf (SaleReq.items req) in
  Sale.mk inv (SaleReq.customer req) (map ItemReq.priced (SaleReq.items req)) subtotal
          (orElse (SaleReq.discount req) 0) (orElse (SaleReq.tax req) 0)
          (totalOf req subtotal) (paidOf req)
          (snap (totalOf req subtotal - paidOf req))
          (paymentStatusOf (totalOf req subtotal - paidOf req) (paidOf req))
          Completed.

(** A line passes the stock check: its product is there with at least the
    line's quantity. *)
Definition inStock (st : Store) (i : ItemReq.t) : bool :=
  match products st !! ItemReq.product i with
  | Some p => negb (ltb (Product.stock_current p) (ItemReq.quantity i))
  | None => false
  end.

(** The products after the stock loop has gone over the items. *)
Definition restocked (sign : Q) (its : list Item.t) (m : gmap ID Product.t)
  : gmap ID Product.t :=
  fold_left (fun m it => alter (Product.inc (sign * Item.quantity it)) (Item.product it) m)
            its m.

(** The store a successful [createSale] leaves. *)
Definition storeAfterSale (inv : string) (req : SaleReq.t) (st : Store) : Store :=
  let data := saleDataOf inv req in
  mkStore (restocked (-1) (Sale.items data) (products st))
          (alter (Customer.inc (Sale.total data) (Sale.balance data)) (SaleReq.customer req)
                 (afterHook data (customers st)))
          (<[nextId st:=data]> (sales st)) (payments st) (N.succ (nextId st)).

(** A sale of 30 units on one line and 30 on another, of the product the
    shop has 50 of. *)
Definition saleOfTwoLines : SaleReq.t :=
  SaleReq.mk 1%N [ItemReq.mk 1%N 30 10 None None; ItemReq.mk 1%N 30 10 None None]
             None None None.

(** The reply of the stock check: that of the first line that does not
    pass. *)
Fixpoint stockReply (st : Store) (its : list ItemReq.t) : Reply :=
  match its with
  | [] => NotFound
  | i :: rest =>
      match products st !! ItemReq.product i with
      | None => NotFound
      | Some p =>
          if ltb (Product.stock_current p) (ItemReq.quantity i) then InsufficientStock
          else stockReply st rest
      end
  end.

(** A sale of 1000 with a discount of 2000. *)
Definition saleOverDiscounted : SaleReq.t :=
  SaleReq.mk 1%N [ItemReq.mk 1%N 2 500 None None] (Some 2000) None None.



(** Two collections with the same documents ids, the documents related key
    by key. *)
Definition keeps {A} (R : A -> A -> Prop) (m m' : gmap ID A) : Prop :=
  forall k,
    match m !! k, m' !! k with
    | Some x, Some y => R x y
    | None, None => True
    | _, _ => False
    end.

(** A sale document after payments have been applied to it: only [paid],
    [balance] and the status may differ, [paid] has not gone down, [balance]
    has not gone up and has not become negative, and the status has not
    become [Overpaid]. *)
Definition paidDown (s s' : Sale.t) : Prop :=
  Sale.invoiceNumber s' = Sale.invoiceNumber s
  /\ Sale.customer s' = Sale.customer s
  /\ Sale.items s' = Sale.items s
  /\ Sale.subtotal s' = Sale.subtotal s
  /\ Sale.discount s' = Sale.discount s
  /\ Sale.tax s' = Sale.tax s
  /\ Sale.total s' = Sale.total s
  /\ Sale.status s' = Sale.status s
  /\ Sale.paid s <= Sale.paid s'
  /\ Sale.balance s' <= Sale.balance s
  /\ (0 <= Sale.balance s -> 0 <= Sale.balance s')
  /\ (Sale.paymentStatus s' = Sale.paymentStatus s \/ Sale.paymentStatus s' <> Overpaid).

(** A customer document whose credit limit and total purchase are as
    before. *)
Definition samePurchases (c c' : Customer.t) : Prop :=
  Customer.creditLimit c' = Customer.creditLimit c
  /\ Customer.totalPurchase c' == Customer.totalPurchase c.

(** What the allocation loop of [createPayment] may do to a store. *)
Definition paysDown (st st' : Store) : Prop :=
  products st' = products st
  /\ payments st' = payments st
  /\ nextId st' = nextId st
  /\ keeps paidDown (sales st) (sales st')
  /\ keeps samePurchases (customers st) (customers st').

(** What a list of allocations holds for the sale [k]. *)
Fixpoint allocatedTo (k : ID) (l : list Allocation.t) : Q :=
  match l with
  | [] => 0
  | a :: rest =>
      (if N.eqb (Allocation.sale a) k then Allocation.amount a else 0) + allocatedTo k rest
  end.

(** A sale document after the amount [d] has moved from its [balance] to
    its [paid], whatever the payment status has become. *)
Definition movedBy (d : Q) (s s' : Sale.t) : Prop :=
  Sale.invoiceNumber s' = Sale.invoiceNumber s
  /\ Sale.customer s' = Sale.customer s
  /\ Sale.items s' = Sale.items s
  /\ Sale.subtotal s' = Sale.subtotal s
  /\ Sale.discount s' = Sale.discount s
  /\ Sale.tax s' = Sale.tax s
  /\ Sale.total s' = Sale.total s
  /\ Sale.status s' = Sale.status s
  /\ Sale.paid s' == Sale.paid s + d
  /\ Sale.balance s' == Sale.balance s - d.

(** Two collections of sales with the same ids, the sale [k] moved by
    [delta k]. *)
Definition shifted (delta : ID -> Q) (m m' : gmap ID Sale.t) : Prop :=
  forall k,
    match m !! k, m' !! k with
    | Some s, Some s' => movedBy (delta k) s s'
    | None, None => True
    | _, _ => False
    end.



(** * Properties *)

(** ** Comparisons and the status rule *)

Lemma ltb_lt x y : ltb x y = true <-> x < y.
Proof.
  unfold ltb. rewrite negb_true_iff, <- not_true_iff_false, Qle_bool_iff.
  split; [apply Qnot_le_lt | apply Qlt_not_le].
Qed.

Lemma ltb_ge x y : ltb x y = false <-> y <= x.
Proof. unfold ltb. rewrite negb_false_iff. apply Qle_bool_iff. Qed.

Lemma leb_le x y : leb x y = true <-> x <= y.
Proof. apply Qle_bool_iff. Qed.

Lemma leb_gt x y : leb x y = false <-> y < x.
Proof.
  unfold leb. rewrite <- not_true_iff_false, Qle_bool_iff.
  split; [apply Qnot_le_lt | apply Qlt_not_le].
Qed.

Lemma Qabs_lt_iff x y : Qabs x < y <-> - y < x /\ x < y.
Proof. apply Qabs_Qlt_condition. Qed.

(** Turn the boolean tests of the embedding into order facts. *)
Ltac qbool :=
  repeat match goal with
  | H : ltb _ _ = true |- _ => apply ltb_lt in H
  | H : ltb _ _ = false |- _ => apply ltb_ge in H
  | H : leb _ _ = true |- _ => apply leb_le in H
  | H : leb _ _ = false |- _ => apply leb_gt in H
  | H : Qabs _ < _ |- _ => apply Qabs_lt_iff in H; destruct H
  end.

Ltac case_ltb x y := let E := fresh "E" in destruct (ltb x y) eqn:E.

#[global] Instance ltb_proper : Proper (Qeq ==> Qeq ==> eq) ltb.
Proof.
  intros x x' Hx y y' Hy.
  destruct (ltb x y) eqn:E, (ltb x' y') eqn:E'; trivial; qbool; lra.
Qed.

#[global] Instance leb_proper : Proper (Qeq ==> Qeq ==> eq) leb.
Proof.
  intros x x' Hx y y' Hy.
  destruct (leb x y) eqn:E, (leb x' y') eqn:E'; trivial; qbool; lra.
Qed.

(** The status depends on the amounts only up to [==]. *)
#[global] Instance paymentStatusOf_proper : Proper (Qeq ==> Qeq ==> eq) paymentStatusOf.
Proof.
  intros b b' Hb p p' Hp. unfold paymentStatusOf.
  rewrite (ltb_proper b b' Hb (- eps) (- eps) (Qeq_refl _)).
  rewrite (ltb_proper _ _ (Qabs_wd b b' Hb) eps eps (Qeq_refl _)).
  rewrite (ltb_proper 0 0 (Qeq_refl _) p p' Hp).
  reflexivity.
Qed.

(** The balance a snap stores differs from the exact one by less than the
    tolerance. *)
Lemma snap_close b : Qabs (snap b - b) < eps.
Proof.
  unfold snap. case_ltb (Qabs b) eps; qbool; apply Qabs_lt_iff.
  - unfold eps in *. lra.
  - unfold eps. lra.
Qed.

(** Deriving the status from the snapped balance or from the exact one is
    the same. *)
Lemma paymentStatusOf_snap b p : paymentStatusOf (snap b) p = paymentStatusOf b p.
Proof.
  unfold snap. case_ltb (Qabs b) eps; [|reflexivity].
  unfold paymentStatusOf. rewrite E.
  assert (H := E). qbool.
  assert (ltb b (- eps) = false) as -> by (apply ltb_ge; lra).
  assert (ltb 0 (- eps) = false) as -> by (apply ltb_ge; unfold eps; lra).
  assert (ltb (Qabs 0) eps = true) as -> by reflexivity.
  reflexivity.
Qed.


Lemma paymentStatusOf_rule b p : FollowsRule b p (paymentStatusOf b p).
Proof.
  unfold FollowsRule, paymentStatusOf.
  case_ltb b (- eps); [|case_ltb (Qabs b) eps; [|case_ltb 0 p]];
    repeat split; intros; trivial; qbool; unfold eps in *;
    try lra; exfalso;
    try (assert (Qabs b < 1 # 100) by (apply Qabs_lt_iff; lra));
    try (assert (b <= Qabs b) by apply Qle_Qabs); lra.
Qed.

(** ** What the persistence operations do to the store *)


Lemma hookFires_iff s :
  hookFires s = true <-> Sale.status s = Completed /\ 0 < Sale.balance s.
Proof.
  unfold hookFires. rewrite andb_true_iff, ltb_lt.
  destruct (Sale.status s); simpl; intuition congruence.
Qed.

Lemma hookAmount_nonneg s : 0 <= hookAmount s.
Proof.
  unfold hookAmount. destruct (hookFires s) eqn:E; [|lra].
  apply hookFires_iff in E. lra.
Qed.

Lemma Sale_save_run sid s st :
  Sale_save sid s st =
  if Sale.valid s
  then (Ok tt, mkStore (products st) (afterHook s (customers st))
                       (<[sid:=s]> (sales st)) (payments st) (nextId st))
  else (Throw ValidationError, st).
Proof.
  unfold Sale_save, Sale_postSave, afterHook.
  destruct (Sale.valid s); [|reflexivity].
  destruct (hookFires s); reflexivity.
Qed.

Lemma Sale_saveRenamed_run sid old s st :
  Sale_saveRenamed sid old s st =
  if Sale.valid s
  then if negb (String.eqb (Sale.invoiceNumber s) (Sale.invoiceNumber old))
          && invoiceTaken (Sale.invoiceNumber s) (sales st)
       then (Throw DuplicateKey, st)
       else (Ok tt, mkStore (products st) (afterHook s (customers st))
                            (<[sid:=s]> (sales st)) (payments st) (nextId st))
  else (Throw ValidationError, st).
Proof.
  unfold Sale_saveRenamed, bind, get. cbv beta iota.
  destruct (Sale.valid s) eqn:Hv; cbn [andb].
  - destruct (negb _ && invoiceTaken _ _); [reflexivity|].
    rewrite Sale_save_run, Hv. reflexivity.
  - rewrite Sale_save_run, Hv. reflexivity.
Qed.

Lemma applyToSale_run sid sale d st :
  applyToSale sid sale d st =
  if Sale.valid (credited sale d)
  then (Ok tt, storeAfterApply sid sale d st)
  else (Throw ValidationError, st).
Proof.
  unfold applyToSale, bind. rewrite Sale_save_run.
  destruct (Sale.valid (credited sale d)); reflexivity.
Qed.

(** The customer [cid] after the hook of [s]: the outstanding amount grows
    by the hook's amount when [s] is a sale of [cid]. *)
Lemma afterHook_lookup s m cid c :
  m !! cid = Some c ->
  exists c', afterHook s m !! cid = Some c'
    /\ Customer.totalPurchase c' == Customer.totalPurchase c
    /\ Customer.outstandingAmount c' ==
       Customer.outstandingAmount c + (if N.eqb (Sale.customer s) cid then hookAmount s else 0).
Proof.
  intros Hc. unfold afterHook, hookAmount.
  destruct (hookFires s).
  - destruct (N.eqb_spec (Sale.customer s) cid) as [->|Hne].
    + rewrite lookup_alter_eq, Hc. eexists; split; [reflexivity|]. simpl. split; lra.
    + rewrite lookup_alter_ne, Hc by exact Hne. eexists; split; [reflexivity|]. split; lra.
  - exists c. split; [exact Hc|]. destruct (N.eqb _ _); split; lra.
Qed.

(** The customer [cid] after [$inc] on [target]. *)
Lemma inc_lookup dp d target (m : gmap ID Customer.t) cid c :
  m !! cid = Some c ->
  exists c', alter (Customer.inc dp d) target m !! cid = Some c'
    /\ Customer.totalPurchase c' ==
       Customer.totalPurchase c + (if N.eqb target cid then dp else 0)
    /\ Customer.outstandingAmount c' ==
       Customer.outstandingAmount c + (if N.eqb target cid then d else 0).
Proof.
  intros Hc. destruct (N.eqb_spec target cid) as [->|Hne].
  - rewrite lookup_alter_eq, Hc. eexists; split; [reflexivity|]. simpl. split; lra.
  - rewrite lookup_alter_ne, Hc by exact Hne. eexists; split; [reflexivity|]. split; lra.
Qed.

(** The stock loops only write to the products. *)
Lemma adjustStock_run sign its st :
  adjustStock sign its st =
  (Ok tt,
   with_products
     (fun m => fold_left (fun m it => alter (Product.inc (sign * Item.quantity it))
                                            (Item.product it) m) its m) st).
Proof.
  revert st. induction its as [|it its IH]; intros st; simpl.
  - destruct st; reflexivity.
  - unfold bind. simpl. rewrite IH. destruct st; reflexivity.
Qed.

(** The stock check reads the store and leaves it as it is. *)
Lemma checkItems_store its acc st : snd (checkItems its acc st) = st.
Proof.
  revert acc. induction its as [|it its IH]; intros acc; simpl; [reflexivity|].
  unfold bind. simpl.
  destruct (products st !! ItemReq.product it) as [p|]; [|reflexivity].
  destruct (ltb _ _); [reflexivity|].
  specialize (IH (acc + Item.total (ItemReq.priced it))).
  destruct (checkItems its _ st) as [[r|r|e] st1]; simpl in *; congruence.
Qed.

(** ** Sale creation *)


(** A successful [createSale], taken apart: the document it stored and the
    customers it left. *)
Lemma createSale_success inv req st sid sale st' :
  createSale inv req st = (Success (sid, sale), st') ->
  exists items subtotal,
    checkItems (SaleReq.items req) 0 st = (Ok (items, subtotal), st)
    /\ sale = Sale.mk inv (SaleReq.customer req) items subtotal
                      (orElse (SaleReq.discount req) 0) (orElse (SaleReq.tax req) 0)
                      (totalOf req subtotal) (paidOf req)
                      (snap (totalOf req subtotal - paidOf req))
                      (paymentStatusOf (totalOf req subtotal - paidOf req) (paidOf req))
                      Completed
    /\ Sale.valid sale = true
    /\ sid = nextId st
    /\ sales st' = <[sid:=sale]> (sales st)
    /\ customers st' =
       alter (Customer.inc (Sale.total sale) (Sale.balance sale)) (SaleReq.customer req)
             (afterHook sale (customers st))
    /\ payments st' = payments st.
Proof.
  unfold createSale, handle, createSale_body.
  destruct (createSaleValidation req); simpl; [|discriminate].
  unfold bind at 1. unfold Customer_findById.
  destruct (customers st !! SaleReq.customer req) as [c|]; [|discriminate].
  unfold bind at 1.
  pose proof (checkItems_store (SaleReq.items req) 0 st) as Hst.
  destruct (checkItems (SaleReq.items req) 0 st) as [[[items subtotal]|r|e] st1];
    simpl in Hst; subst st1; try discriminate.
  simpl fst; simpl snd.
  fold (totalOf req subtotal). fold (paidOf req).
  set (data := Sale.mk _ _ _ _ _ _ _ _ _ _ _).
  unfold bind at 1. unfold Sale_create.
  destruct (Sale.valid data) eqn:Hvalid; [|discriminate].
  unfold bind at 1. unfold get.
  destruct (invoiceTaken _ _); [discriminate|].
  unfold bind at 1. unfold modify.
  unfold bind at 1. unfold Sale_postSave.
  fold (afterHook data).
  intros H. exists items, subtotal.
  assert (forall stx,
    (if hookFires data
     then Customer_findByIdAndUpdate (Sale.customer data) 0 (Sale.balance data)
     else ret tt) stx = (Ok tt, with_customers (afterHook data) stx)) as Hhook.
  { intros stx. unfold afterHook. destruct (hookFires data); destruct stx; reflexivity. }
  rewrite Hhook in H. unfold ret at 1 in H. simpl snd in H.
  unfold bind in H. rewrite adjustStock_run in H.
  unfold Customer_findByIdAndUpdate, modify, ret in H. simpl in H.
  injection H as <- <- <-.
  repeat split; try reflexivity. exact Hvalid.
Qed.

(** The customer of a created sale: the purchase total grows by the sale's
    total, the outstanding amount by the sale's balance and, once more, by
    what the post-save hook adds. *)
Lemma createSale_customer inv req st sid sale st' c :
  createSale inv req st = (Success (sid, sale), st') ->
  customers st !! SaleReq.customer req = Some c ->
  exists c', customers st' !! SaleReq.customer req = Some c'
    /\ Customer.totalPurchase c' == Customer.totalPurchase c + Sale.total sale
    /\ Customer.outstandingAmount c' ==
       Customer.outstandingAmount c + Sale.balance sale + hookAmount sale.
Proof.
  intros H Hc.
  destruct (createSale_success _ _ _ _ _ _ H)
    as (items & subtotal & _ & Hsale & _ & _ & _ & Hcust & _).
  destruct (afterHook_lookup sale _ _ _ Hc) as (c1 & Hc1 & Hp1 & Ho1).
  destruct (inc_lookup (Sale.total sale) (Sale.balance sale) (SaleReq.customer req)
              _ _ _ Hc1) as (c2 & Hc2 & Hp2 & Ho2).
  exists c2. rewrite Hcust. split; [exact Hc2|].
  rewrite N.eqb_refl in Hp2, Ho2.
  assert (Sale.customer sale = SaleReq.customer req) as Hsc by (subst sale; reflexivity).
  rewrite Hsc, N.eqb_refl in Ho1.
  split; lra.
Qed.

(** C1 (what the code does).  A successful [createSale] that computes total
    T and balance B for an existing customer adds T to the stored total
    purchase, and adds to the stored outstanding amount B when B is not
    positive but 2 * B when B is positive: the balance is then added once
    by the post-save hook of the Sale model and once by the controller. *)
Theorem C1_createSale_outstanding_delta inv req st sid sale st' c :
  createSale inv req st = (Success (sid, sale), st') ->
  customers st !! SaleReq.customer req = Some c ->
  exists c', customers st' !! SaleReq.customer req = Some c'
    /\ Sale.total sale == totalOf req (Sale.subtotal sale)
    /\ Sale.balance sale == snap (Sale.total sale - Sale.paid sale)
    /\ Customer.totalPurchase c' == Customer.totalPurchase c + Sale.total sale
    /\ Customer.outstandingAmount c' ==
       Customer.outstandingAmount c
       + (if ltb 0 (Sale.balance sale) then 2 * Sale.balance sale else Sale.balance sale).
Proof.
  intros H Hc.
  destruct (createSale_customer _ _ _ _ _ _ _ H Hc) as (c' & Hc' & Hp & Ho).
  destruct (createSale_success _ _ _ _ _ _ H) as (items & subtotal & _ & Hsale & _).
  exists c'. split; [exact Hc'|].
  split; [subst sale; reflexivity|].
  split; [subst sale; reflexivity|].
  split; [exact Hp|].
  rewrite Ho. unfold hookAmount, hookFires.
  replace (Sale.status sale) with Completed by (subst sale; reflexivity).
  simpl. destruct (ltb 0 (Sale.balance sale)); lra.
Qed.

(** The unpaid sale of 1000 in the shop: 2000 outstanding afterwards. *)
Lemma C1_createSale_outstanding_delta_witness :
  exists c', customers shopWithSale !! 1%N = Some c'
    /\ 1000 == totalOf (saleOf1000 None) 1000
    /\ 1000 == snap (1000 - 0)
    /\ Customer.totalPurchase c' == 0 + 1000
    /\ Customer.outstandingAmount c' == 0 + (if ltb 0 1000 then 2 * 1000 else 1000).
Proof.
  apply (C1_createSale_outstanding_delta "INV-1" (saleOf1000 None) shop 10%N
           (Sale.mk "INV-1" 1%N [Item.mk 1%N 2 500 0 1000] 1000 0 0 1000 0 1000
                    Pending Completed)
           shopWithSale (Customer.mk 0 0 0)).
  - vm_compute. reflexivity.
  - vm_compute. reflexivity.
Defined.

(** ** Sale update *)

Lemma recalcBalance_fields s :
  Sale.total (recalcBalance s) = Sale.total s
  /\ Sale.paid (recalcBalance s) = Sale.paid s
  /\ Sale.balance (recalcBalance s) = snap (Sale.total s - Sale.paid s)
  /\ Sale.paymentStatus (recalcBalance s)
     = paymentStatusOf (snap (Sale.total s - Sale.paid s)) (Sale.paid s)
  /\ Sale.customer (recalcBalance s) = Sale.customer s
  /\ Sale.status (recalcBalance s) = Sale.status s.
Proof. repeat split. Qed.

(** A successful [updateSale], taken apart. *)
Lemma updateSale_success sid p st sale st' :
  updateSale sid p st = (Success sale, st') ->
  exists sale0,
    sales st !! sid = Some sale0
    /\ Sale.status sale0 <> Cancelled
    /\ sale = recalcBalance (recalcTotals p (fst (assignBody p sale0)))
    /\ Sale.valid sale = true
    /\ sales st' = <[sid:=sale]> (sales st)
    /\ payments st' = payments st
    /\ customers st' =
       if negb (Qeq_bool (Sale.total sale - Sale.total sale0) 0)
          || negb (Qeq_bool (Sale.balance sale - Sale.balance sale0) 0)
       then alter (Customer.inc (Sale.total sale - Sale.total sale0)
                                (Sale.balance sale - Sale.balance sale0))
                  (Sale.customer sale) (afterHook sale (customers st))
       else afterHook sale (customers st).
Proof.
  unfold updateSale, handle, updateSale_body.
  destruct (updateSaleValidation p); cbn [negb]; [|discriminate].
  unfold bind at 1. unfold Sale_findById.
  destruct (sales st !! sid) as [sale0|]; [|discriminate].
  destruct (Status_eqb (Sale.status sale0) Cancelled) eqn:Hst; [discriminate|].
  set (s1 := recalcBalance _).
  unfold bind at 1.
  destruct (snd (assignBody p sale0)); [|discriminate].
  rewrite Sale_saveRenamed_run.
  destruct (Sale.valid s1) eqn:Hvalid; [|discriminate].
  destruct (negb _ && invoiceTaken _ _); [discriminate|].
  unfold bind at 1.
  intros H. exists sale0.
  split; [reflexivity|].
  split; [intros E; rewrite E in Hst; discriminate|].
  destruct (negb (Qeq_bool (Sale.total s1 - Sale.total sale0) 0)
            || negb (Qeq_bool (Sale.balance s1 - Sale.balance sale0) 0)) eqn:Hdiff;
    unfold Customer_findByIdAndUpdate, modify, ret in H; cbv beta iota zeta in H;
    injection H as <- <-; rewrite Hdiff; repeat split; assumption.
Qed.

(** The customer of an updated sale: the differences the controller
    computes, and what the post-save hook adds on top of them. *)
Lemma updateSale_customer sid p st sale st' sale0 c :
  updateSale sid p st = (Success sale, st') ->
  sales st !! sid = Some sale0 ->
  customers st !! Sale.customer sale = Some c ->
  exists c', customers st' !! Sale.customer sale = Some c'
    /\ Customer.totalPurchase c' ==
       Customer.totalPurchase c + (Sale.total sale - Sale.total sale0)
    /\ Customer.outstandingAmount c' ==
       Customer.outstandingAmount c + (Sale.balance sale - Sale.balance sale0)
       + hookAmount sale.
Proof.
  intros H Hs Hc.
  destruct (updateSale_success _ _ _ _ _ H) as (s0 & Hs0 & _ & _ & _ & _ & _ & Hcust).
  rewrite Hs in Hs0. injection Hs0 as <-.
  destruct (afterHook_lookup sale _ _ _ Hc) as (c1 & Hc1 & Hp1 & Ho1).
  rewrite N.eqb_refl in Ho1.
  rewrite Hcust.
  destruct (Qeq_bool (Sale.total sale - Sale.total sale0) 0) eqn:Et;
    destruct (Qeq_bool (Sale.balance sale - Sale.balance sale0) 0) eqn:Eb; simpl.
  - apply Qeq_bool_eq in Et, Eb. exists c1. split; [exact Hc1|]. split; lra.
  - destruct (inc_lookup (Sale.total sale - Sale.total sale0)
                (Sale.balance sale - Sale.balance sale0) (Sale.customer sale) _ _ _ Hc1)
      as (c2 & Hc2 & Hp2 & Ho2).
    rewrite N.eqb_refl in Hp2, Ho2. exists c2. split; [exact Hc2|]. split; lra.
  - destruct (inc_lookup (Sale.total sale - Sale.total sale0)
                (Sale.balance sale - Sale.balance sale0) (Sale.customer sale) _ _ _ Hc1)
      as (c2 & Hc2 & Hp2 & Ho2).
    rewrite N.eqb_refl in Hp2, Ho2. exists c2. split; [exact Hc2|]. split; lra.
  - destruct (inc_lookup (Sale.total sale - Sale.total sale0)
                (Sale.balance sale - Sale.balance sale0) (Sale.customer sale) _ _ _ Hc1)
      as (c2 & Hc2 & Hp2 & Ho2).
    rewrite N.eqb_refl in Hp2, Ho2. exists c2. split; [exact Hc2|]. split; lra.
Qed.

(** ** Payment allocation *)

Lemma allocate_run a st :
  allocate a st =
  match sales st !! Allocation.sale a with
  | None => (Respond NotFound, st)
  | Some sale =>
      if leb (Sale.balance sale) 0 then (Respond InvalidState, st)
      else
        let applied := Qmin (Allocation.amount a) (Sale.balance sale) in
        if Sale.valid (credited sale applied)
        then (Ok (Allocation.mk (Allocation.sale a) applied),
              storeAfterApply (Allocation.sale a) sale applied st)
        else (Throw ValidationError, st)
  end.
Proof.
  unfold allocate, bind at 1, Sale_findById.
  destruct (sales st !! Allocation.sale a) as [sale|]; [|reflexivity].
  destruct (leb (Sale.balance sale) 0); [reflexivity|].
  unfold bind. rewrite applyToSale_run. simpl.
  destruct (Sale.valid _); reflexivity.
Qed.

Lemma reverseAllocation_run a st :
  reverseAllocation a st =
  match sales st !! Allocation.sale a with
  | None => (Ok tt, st)
  | Some sale =>
      if Sale.valid (credited sale (- Allocation.amount a))
      then (Ok tt, storeAfterApply (Allocation.sale a) sale (- Allocation.amount a) st)
      else (Throw ValidationError, st)
  end.
Proof.
  unfold reverseAllocation, bind at 1, Sale_findById.
  destruct (sales st !! Allocation.sale a) as [sale|]; [|reflexivity].
  apply applyToSale_run.
Qed.

Lemma reallocate_run a st :
  reallocate a st =
  match sales st !! Allocation.sale a with
  | None => (Respond NotFound, st)
  | Some sale =>
      if Sale.valid (credited sale (Allocation.amount a))
      then (Ok (Allocation.mk (Allocation.sale a) (Allocation.amount a)),
            storeAfterApply (Allocation.sale a) sale (Allocation.amount a) st)
      else (Throw ValidationError, st)
  end.
Proof.
  unfold reallocate, bind at 1, Sale_findById.
  destruct (sales st !! Allocation.sale a) as [sale|]; [|reflexivity].
  unfold bind. rewrite applyToSale_run.
  destruct (Sale.valid _); reflexivity.
Qed.

(** The customer of a sale after [applyToSale]: the balance change, and what
    the post-save hook adds on top of it. *)
Lemma storeAfterApply_customer sid sale d st c :
  customers st !! Sale.customer sale = Some c ->
  exists c', customers (storeAfterApply sid sale d st) !! Sale.customer sale = Some c'
    /\ Customer.totalPurchase c' == Customer.totalPurchase c
    /\ Customer.outstandingAmount c' ==
       Customer.outstandingAmount c + (Sale.balance (credited sale d) - Sale.balance sale)
       + hookAmount (credited sale d).
Proof.
  intros Hc. unfold storeAfterApply. cbn [customers].
  destruct (afterHook_lookup (credited sale d) _ _ _ Hc) as (c1 & Hc1 & Hp1 & Ho1).
  change (Sale.customer (credited sale d)) with (Sale.customer sale) in Ho1.
  rewrite N.eqb_refl in Ho1.
  destruct (inc_lookup 0 (Sale.balance (credited sale d) - Sale.balance sale)
              (Sale.customer sale) _ _ _ Hc1) as (c2 & Hc2 & Hp2 & Ho2).
  rewrite N.eqb_refl in Hp2, Ho2.
  exists c2. split; [exact Hc2|]. split; lra.
Qed.

Lemma storeAfterApply_sale sid sale d st :
  sales (storeAfterApply sid sale d st) !! sid = Some (credited sale d).
Proof. simpl. apply lookup_insert_eq. Qed.

Lemma allocate_success a st r st' :
  allocate a st = (Ok r, st') ->
  exists sale,
    sales st !! Allocation.sale a = Some sale
    /\ 0 < Sale.balance sale
    /\ Sale.valid (credited sale (Qmin (Allocation.amount a) (Sale.balance sale))) = true
    /\ r = Allocation.mk (Allocation.sale a) (Qmin (Allocation.amount a) (Sale.balance sale))
    /\ st' = storeAfterApply (Allocation.sale a) sale
                             (Qmin (Allocation.amount a) (Sale.balance sale)) st.
Proof.
  rewrite allocate_run.
  destruct (sales st !! Allocation.sale a) as [sale|]; [|discriminate].
  destruct (leb (Sale.balance sale) 0) eqn:Hb; [discriminate|].
  cbv zeta.
  destruct (Sale.valid _) eqn:Hv; [|discriminate].
  intros H. injection H as <- <-.
  exists sale. qbool. repeat split; assumption.
Qed.

Lemma reverseAllocation_success a st st' sale :
  reverseAllocation a st = (Ok tt, st') ->
  sales st !! Allocation.sale a = Some sale ->
  Sale.valid (credited sale (- Allocation.amount a)) = true
  /\ st' = storeAfterApply (Allocation.sale a) sale (- Allocation.amount a) st.
Proof.
  rewrite reverseAllocation_run. intros H Hs. rewrite Hs in H.
  destruct (Sale.valid _); [|discriminate].
  injection H as <-. split; reflexivity.
Qed.

Lemma reallocate_success a st r st' :
  reallocate a st = (Ok r, st') ->
  exists sale,
    sales st !! Allocation.sale a = Some sale
    /\ Sale.valid (credited sale (Allocation.amount a)) = true
    /\ r = Allocation.mk (Allocation.sale a) (Allocation.amount a)
    /\ st' = storeAfterApply (Allocation.sale a) sale (Allocation.amount a) st.
Proof.
  rewrite reallocate_run.
  destruct (sales st !! Allocation.sale a) as [sale|]; [|discriminate].
  destruct (Sale.valid _) eqn:Hv; [|discriminate].
  intros H. injection H as <- <-.
  exists sale. repeat split; assumption.
Qed.

(** A save of a completed sale with a positive balance: the hook adds the
    whole balance. *)
Lemma hookAmount_fires s :
  Sale.status s = Completed -> 0 < Sale.balance s -> hookAmount s = Sale.balance s.
Proof.
  intros Hs Hb. unfold hookAmount.
  assert (hookFires s = true) as -> by (apply hookFires_iff; split; assumption).
  reflexivity.
Qed.

(** The step shared by the three allocation loops, seen from the customer:
    when the saved sale is completed with a positive balance, the stored
    outstanding amount moves by the balance change plus the new balance. *)
Lemma storeAfterApply_hooked sid sale d st c :
  customers st !! Sale.customer sale = Some c ->
  Sale.status sale = Completed ->
  0 < Sale.balance (credited sale d) ->
  exists c', customers (storeAfterApply sid sale d st) !! Sale.customer sale = Some c'
    /\ Customer.outstandingAmount c' ==
       Customer.outstandingAmount c + (Sale.balance (credited sale d) - Sale.balance sale)
       + Sale.balance (credited sale d)
    /\ Customer.outstandingAmount c + (Sale.balance (credited sale d) - Sale.balance sale)
       < Customer.outstandingAmount c'.
Proof.
  intros Hc Hs Hb.
  destruct (storeAfterApply_customer sid sale d st c Hc) as (c' & Hc' & _ & Ho).
  rewrite (hookAmount_fires (credited sale d) Hs Hb) in Ho.
  exists c'. split; [exact Hc'|]. split; [exact Ho|]. rewrite Ho. lra.
Qed.

(** C10.  Every save of a completed sale with a strictly positive balance
    adds that whole balance to the stored outstanding amount of the sale's
    customer, on top of the delta the calling operation applies: the bare
    [save], the turn of the allocation loop of [createPayment], the
    reversal and the re-application turns of [updatePayment], [updateSale]
    and [createSale].  In each operation the stored outstanding amount
    therefore moves by strictly more than the operation's own delta. *)
Theorem C10_save_adds_balance_on_top :
  (forall sid s st c,
      Sale.valid s = true -> Sale.status s = Completed -> 0 < Sale.balance s ->
      customers st !! Sale.customer s = Some c ->
      exists c', fst (Sale_save sid s st) = Ok tt
        /\ customers (snd (Sale_save sid s st)) !! Sale.customer s = Some c'
        /\ Customer.outstandingAmount c' == Customer.outstandingAmount c + Sale.balance s)
  /\ (forall a st r st' s c,
      allocate a st = (Ok r, st') ->
      sales st !! Allocation.sale a = Some s ->
      customers st !! Sale.customer s = Some c ->
      exists s', sales st' !! Allocation.sale a = Some s'
        /\ (Sale.status s' = Completed -> 0 < Sale.balance s' ->
            exists c', customers st' !! Sale.customer s = Some c'
              /\ Customer.outstandingAmount c' ==
                 Customer.outstandingAmount c + (Sale.balance s' - Sale.balance s)
                 + Sale.balance s'
              /\ Customer.outstandingAmount c + (Sale.balance s' - Sale.balance s)
                 < Customer.outstandingAmount c'))
  /\ (forall a st st' s c,
      reverseAllocation a st = (Ok tt, st') ->
      sales st !! Allocation.sale a = Some s ->
      customers st !! Sale.customer s = Some c ->
      exists s', sales st' !! Allocation.sale a = Some s'
        /\ (Sale.status s' = Completed -> 0 < Sale.balance s' ->
            exists c', customers st' !! Sale.customer s = Some c'
              /\ Customer.outstandingAmount c' ==
                 Customer.outstandingAmount c + (Sale.balance s' - Sale.balance s)
                 + Sale.balance s'
              /\ Customer.outstandingAmount c + (Sale.balance s' - Sale.balance s)
                 < Customer.outstandingAmount c'))
  /\ (forall a st r st' s c,
      reallocate a st = (Ok r, st') ->
      sales st !! Allocation.sale a = Some s ->
      customers st !! Sale.customer s = Some c ->
      exists s', sales st' !! Allocation.sale a = Some s'
        /\ (Sale.status s' = Completed -> 0 < Sale.balance s' ->
            exists c', customers st' !! Sale.customer s = Some c'
              /\ Customer.outstandingAmount c' ==
                 Customer.outstandingAmount c + (Sale.balance s' - Sale.balance s)
                 + Sale.balance s'
              /\ Customer.outstandingAmount c + (Sale.balance s' - Sale.balance s)
                 < Customer.outstandingAmount c'))
  /\ (forall sid p st sale st' sale0 c,
      updateSale sid p st = (Success sale, st') ->
      sales st !! sid = Some sale0 ->
      customers st !! Sale.customer sale = Some c ->
      Sale.status sale = Completed -> 0 < Sale.balance sale ->
      exists c', customers st' !! Sale.customer sale = Some c'
        /\ Customer.outstandingAmount c' ==
           Customer.outstandingAmount c + (Sale.balance sale - Sale.balance sale0)
           + Sale.balance sale
        /\ Customer.outstandingAmount c + (Sale.balance sale - Sale.balance sale0)
           < Customer.outstandingAmount c')
  /\ (forall inv req st sid sale st' c,
      createSale inv req st = (Success (sid, sale), st') ->
      customers st !! SaleReq.customer req = Some c ->
      0 < Sale.balance sale ->
      exists c', customers st' !! SaleReq.customer req = Some c'
        /\ Customer.outstandingAmount c' ==
           Customer.outstandingAmount c + Sale.balance sale + Sale.balance sale
        /\ Customer.outstandingAmount c + Sale.balance sale
           < Customer.outstandingAmount c').
Proof.
  repeat apply conj.
  - intros sid s st c Hv Hs Hb Hc.
    rewrite Sale_save_run, Hv. cbn [fst snd customers].
    destruct (afterHook_lookup s _ _ _ Hc) as (c' & Hc' & _ & Ho).
    rewrite N.eqb_refl, (hookAmount_fires s Hs Hb) in Ho.
    exists c'. repeat split; assumption.
  - intros a st r st' s c H Hs Hc.
    destruct (allocate_success _ _ _ _ H) as (s0 & Hs0 & _ & _ & _ & ->).
    rewrite Hs in Hs0. injection Hs0 as <-.
    eexists. split; [apply storeAfterApply_sale|].
    intros Hst Hb. apply storeAfterApply_hooked; assumption.
  - intros a st st' s c H Hs Hc.
    destruct (reverseAllocation_success _ _ _ _ H Hs) as (_ & ->).
    eexists. split; [apply storeAfterApply_sale|].
    intros Hst Hb. apply storeAfterApply_hooked; assumption.
  - intros a st r st' s c H Hs Hc.
    destruct (reallocate_success _ _ _ _ H) as (s0 & Hs0 & _ & _ & ->).
    rewrite Hs in Hs0. injection Hs0 as <-.
    eexists. split; [apply storeAfterApply_sale|].
    intros Hst Hb. apply storeAfterApply_hooked; assumption.
  - intros sid p st sale st' sale0 c H Hs Hc Hst Hb.
    destruct (updateSale_customer _ _ _ _ _ _ _ H Hs Hc) as (c' & Hc' & _ & Ho).
    rewrite (hookAmount_fires sale Hst Hb) in Ho.
    exists c'. split; [exact Hc'|]. split; [exact Ho|]. rewrite Ho. lra.
  - intros inv req st sid sale st' c H Hc Hb.
    destruct (createSale_customer _ _ _ _ _ _ _ H Hc) as (c' & Hc' & _ & Ho).
    destruct (createSale_success _ _ _ _ _ _ H) as (items & subtotal & _ & Hsale & _).
    assert (Sale.status sale = Completed) as Hst by (subst sale; reflexivity).
    rewrite (hookAmount_fires sale Hst Hb) in Ho.
    exists c'. split; [exact Hc'|]. split; [exact Ho|]. rewrite Ho. lra.
Qed.

(** The payment of 600 on the sale of 1000: the customer had 2000 stored as
    outstanding, the allocation's own delta is -600, and the save of the
    sale with its new balance 400 adds 400 more. *)
Lemma C10_save_adds_balance_on_top_witness :
  exists c', customers shopWithPayment !! 1%N = Some c'
    /\ Customer.outstandingAmount c' == 2000 + (400 - 1000) + 400
    /\ 2000 + (400 - 1000) < Customer.outstandingAmount c'.
Proof.
  pose (s := Sale.mk "INV-1" 1%N [Item.mk 1%N 2 500 0 1000] 1000 0 0 1000 0 1000
                     Pending Completed).
  destruct (proj1 (proj2 C10_save_adds_balance_on_top)
              (Allocation.mk 10%N 600) shopWithSale (Allocation.mk 10%N 600)
              (storeAfterApply 10%N s 600 shopWithSale) s (Customer.mk 0 2000 1000))
    as (s' & Hs' & Himp).
  - vm_compute. reflexivity.
  - vm_compute. reflexivity.
  - vm_compute. reflexivity.
  - rewrite storeAfterApply_sale in Hs'. injection Hs' as <-.
    destruct Himp as (c' & Hc' & Ho & Hlt).
    + reflexivity.
    + vm_compute. reflexivity.
    + exists c'. cbn in Ho, Hlt. split; [|split; lra].
      rewrite <- Hc'. vm_compute. reflexivity.
Defined.

(** C3 (what the code does).  A turn of the allocation loop of
    [createPayment] moves the applied amount from [balance] to [paid] and
    stores the difference as it is: the gap between [balance] and
    [total - paid] stays what it was, and nothing snaps the new balance to
    0.  So when the sale's balance was exactly [total - paid] and the
    request leaves less than the tolerance unpaid, [total - paid] is within
    the tolerance of zero while the stored balance is not 0. *)
Theorem C3_allocation_does_not_snap a st r st' s :
  allocate a st = (Ok r, st') ->
  sales st !! Allocation.sale a = Some s ->
  exists s', sales st' !! Allocation.sale a = Some s'
    /\ Sale.total s' = Sale.total s
    /\ Sale.paid s' == Sale.paid s + Allocation.amount r
    /\ Sale.balance s' == Sale.balance s - Allocation.amount r
    /\ (Sale.total s' - Sale.paid s') - Sale.balance s'
       == (Sale.total s - Sale.paid s) - Sale.balance s
    /\ (Sale.balance s == Sale.total s - Sale.paid s ->
        Sale.balance s - eps < Allocation.amount a ->
        Allocation.amount a < Sale.balance s ->
        Qabs (Sale.total s' - Sale.paid s') < eps
        /\ Sale.paymentStatus s' = Paid
        /\ ~ Sale.balance s' == 0).
Proof.
  intros H Hs.
  destruct (allocate_success _ _ _ _ H) as (s0 & Hs0 & Hpos & _ & -> & ->).
  rewrite Hs in Hs0. injection Hs0 as <-.
  eexists. split; [apply storeAfterApply_sale|].
  cbn [credited Sale.set_payment Sale.total Sale.paid Sale.balance
       Sale.paymentStatus Allocation.amount].
  repeat split; try lra.
  - apply Qabs_lt_iff.
    rewrite (Q.min_l (Allocation.amount a) (Sale.balance s)) by lra. lra.
  - assert (Qabs (Sale.balance s - Qmin (Allocation.amount a) (Sale.balance s)) < eps) as Hsmall.
    { apply Qabs_lt_iff.
      rewrite (Q.min_l (Allocation.amount a) (Sale.balance s)) by lra. lra. }
    destruct (paymentStatusOf_rule
                (Sale.balance s - Qmin (Allocation.amount a) (Sale.balance s))
                (Sale.paid s + Qmin (Allocation.amount a) (Sale.balance s)))
      as (_ & Hpaid & _).
    exact (Hpaid Hsmall).
  - rewrite (Q.min_l (Allocation.amount a) (Sale.balance s)) by lra. lra.
Qed.

(** The failing input: 999.995 allocated to the unpaid sale of 1000 leaves
    [total - paid = 0.005], status [Paid], and the balance 0.005. *)
Lemma C3_allocation_does_not_snap_witness :
  exists s', sales (snd (allocate (Allocation.mk 10%N (199999 # 200)) shopWithSale)) !! 10%N
             = Some s'
    /\ Sale.total s' = 1000
    /\ Sale.paid s' == 199999 # 200
    /\ Sale.balance s' == 1 # 200
    /\ Qabs (Sale.total s' - Sale.paid s') < eps
    /\ Sale.paymentStatus s' = Paid
    /\ ~ Sale.balance s' == 0.
Proof.
  destruct (C3_allocation_does_not_snap
              (Allocation.mk 10%N (199999 # 200)) shopWithSale
              (Allocation.mk 10%N (199999 # 200))
              (snd (allocate (Allocation.mk 10%N (199999 # 200)) shopWithSale))
              (Sale.mk "INV-1" 1%N [Item.mk 1%N 2 500 0 1000] 1000 0 0 1000 0 1000
                       Pending Completed))
    as (s' & Hs' & Ht & Hp & Hb & _ & Hsmall).
  - vm_compute. reflexivity.
  - vm_compute. reflexivity.
  - cbn in Ht, Hp, Hb, Hsmall.
    destruct Hsmall as (Habs & Hst & Hne); [lra | unfold eps; lra | lra |].
    exists s'. repeat split; try assumption; lra.
Defined.

(** ** Payment update *)

(** C4 (the code at the failing inputs).  The second loop of
    [updatePayment] is not the allocation procedure of [createPayment]: a
    turn never replies [InvalidState] and records the requested amount
    unclamped.  On the payment of 600 for the sale of 1000, an update asking
    1500 records 1500, sets [totalAllocated] to 1500 and leaves the sale
    overpaid by 500, where the procedure of [createPayment], run on the
    same store after the reversal, records 1000.  On the settled sale an
    update asking 50 overpays it by 50, where the procedure of
    [createPayment] stops with [InvalidState]. *)
Theorem C4_update_reapplies_unclamped :
  (forall a st, fst (reallocate a st) <> Respond InvalidState)
  /\ (forall a st r st', reallocate a st = (Ok r, st') ->
                         Allocation.amount r = Allocation.amount a)
  /\ (exists p st' s' st1,
        updatePayment 11%N (PaymentReq.mk 1%N None [Allocation.mk 10%N 1500]) shopWithPayment
        = (Success p, st')
        /\ Payment.sales p = [Allocation.mk 10%N 1500]
        /\ Payment.totalAllocated p == 1500
        /\ sales st' !! 10%N = Some s'
        /\ Sale.paid s' == 1500 /\ Sale.balance s' == - (500)
        /\ Sale.paymentStatus s' = Overpaid
        /\ reverseAll [Allocation.mk 10%N 600] shopWithPayment = (Ok tt, st1)
        /\ fst (allocateAll [Allocation.mk 10%N 1500] [] 0 st1)
           = Ok ([Allocation.mk 10%N 1000], 1000))
  /\ (exists p st' s s',
        updatePayment 11%N (PaymentReq.mk 1%N None [Allocation.mk 10%N 50]) shopSettled
        = (Success p, st')
        /\ sales shopSettled !! 10%N = Some s
        /\ Sale.balance s == 0
        /\ sales st' !! 10%N = Some s'
        /\ Sale.paid s' == 1050 /\ Sale.balance s' == - (50)
        /\ Sale.paymentStatus s' = Overpaid
        /\ fst (allocateAll [Allocation.mk 10%N 50] [] 0 shopSettled)
           = Respond InvalidState).
Proof.
  split; [|split; [|split]].
  - intros a st. rewrite reallocate_run.
    destruct (sales st !! Allocation.sale a) as [sale|]; [|discriminate].
    destruct (Sale.valid _); discriminate.
  - intros a st r st' H.
    destruct (reallocate_success _ _ _ _ H) as (sale & _ & _ & -> & _). reflexivity.
  - eexists _, _, _, _.
    split; [vm_compute; reflexivity|].
    repeat split; vm_compute; reflexivity.
  - eexists _, _, _, _.
    split; [vm_compute; reflexivity|].
    repeat split; vm_compute; reflexivity.
Qed.

(** An update of a payment that holds one allocation, with that same
    allocation as the new list, taken apart: the store it leaves. *)
Lemma updatePayment_same_single pid p0 a cust st p st' s :
  payments st !! pid = Some p0 ->
  Payment.sales p0 = [a] ->
  sales st !! Allocation.sale a = Some s ->
  updatePayment pid (PaymentReq.mk cust None [a]) st = (Success p, st') ->
  let s1 := credited s (- Allocation.amount a) in
  let s2 := credited s1 (Allocation.amount a) in
  p = Payment.mk (Payment.receiptNumber p0) (Payment.customer p0) (Payment.amount p0)
                 [a] (0 + Allocation.amount a)
  /\ st' = with_payments (insert pid p)
             (storeAfterApply (Allocation.sale a) s1 (Allocation.amount a)
                (storeAfterApply (Allocation.sale a) s (- Allocation.amount a) st)).
Proof.
  intros Hp0 Hsales Hs. unfold updatePayment, handle, updatePayment_body.
  destruct (updatePaymentValidation _); cbn [negb]; [|discriminate].
  unfold bind at 1, Payment_findById. rewrite Hp0, Hsales.
  cbn [reverseAll reallocateAll PaymentReq.sales PaymentReq.amount orElse].
  unfold bind at 1. unfold bind at 1. rewrite reverseAllocation_run, Hs.
  destruct (Sale.valid (credited s (- Allocation.amount a))); [|discriminate].
  unfold ret at 1. unfold bind at 1. unfold bind at 1.
  rewrite reallocate_run, storeAfterApply_sale.
  destruct (Sale.valid _); [|discriminate].
  unfold ret at 1. cbn [fst snd app Allocation.amount].
  unfold bind, Payment_save.
  destruct a as [sid amt]. cbn [Allocation.sale Allocation.amount].
  destruct (Payment.valid _); [|discriminate].
  unfold modify, ret. intros H. injection H as <- <-. split; reflexivity.
Qed.

(** C5 (what the code does).  Updating a payment that holds one allocation
    with that same allocation reverses and re-applies it: the sale's [paid]
    and [balance] come back to their values and the status is the one the
    rule gives for them, but each of the two saves runs the post-save hook,
    so the stored outstanding amount of the sale's customer grows by the
    balance of the reversed sale and by the balance of the re-applied sale
    whenever these are positive on a completed sale.  For a completed sale
    with a positive balance it does not stay equal to its value before the
    update. *)
Theorem C5_update_same_list_moves_outstanding pid p0 a cust st p st' s c :
  payments st !! pid = Some p0 ->
  Payment.sales p0 = [a] ->
  sales st !! Allocation.sale a = Some s ->
  customers st !! Sale.customer s = Some c ->
  updatePayment pid (PaymentReq.mk cust None [a]) st = (Success p, st') ->
  exists s' c',
    Payment.sales p = Payment.sales p0
    /\ sales st' !! Allocation.sale a = Some s'
    /\ Sale.paid s' == Sale.paid s
    /\ Sale.balance s' == Sale.balance s
    /\ Sale.paymentStatus s' = paymentStatusOf (Sale.balance s) (Sale.paid s)
    /\ customers st' !! Sale.customer s = Some c'
    /\ Customer.outstandingAmount c' ==
       Customer.outstandingAmount c
       + hookAmount (credited s (- Allocation.amount a))
       + hookAmount (credited (credited s (- Allocation.amount a)) (Allocation.amount a))
    /\ (Sale.status s = Completed -> 0 < Sale.balance s -> 0 <= Allocation.amount a ->
        Customer.outstandingAmount c' ==
        Customer.outstandingAmount c + (Sale.balance s + Allocation.amount a)
        + Sale.balance s
        /\ Customer.outstandingAmount c < Customer.outstandingAmount c').
Proof.
  intros Hp0 Hsales Hs Hc Hrun.
  destruct (updatePayment_same_single _ _ _ _ _ _ _ _ Hp0 Hsales Hs Hrun) as (Hp & Hst).
  set (s1 := credited s (- Allocation.amount a)) in *.
  set (s2 := credited s1 (Allocation.amount a)) in *.
  destruct (storeAfterApply_customer (Allocation.sale a) s (- Allocation.amount a) st c Hc)
    as (c1 & Hc1 & _ & Ho1).
  destruct (storeAfterApply_customer (Allocation.sale a) s1 (Allocation.amount a) _ c1 Hc1)
    as (c2 & Hc2 & _ & Ho2).
  fold s1 in Ho1. fold s2 in Ho2.
  assert (Sale.balance s2 == Sale.balance s) as Hbal
    by (unfold s2, s1; cbn [credited Sale.set_payment Sale.balance]; lra).
  assert (Sale.paid s2 == Sale.paid s) as Hpaid
    by (unfold s2, s1; cbn [credited Sale.set_payment Sale.paid]; lra).
  exists s2, c2.
  split; [rewrite Hp, Hsales; reflexivity|].
  split; [rewrite Hst; apply storeAfterApply_sale|].
  split; [exact Hpaid|]. split; [exact Hbal|].
  split.
  { transitivity (paymentStatusOf (Sale.balance s2) (Sale.paid s2)); [reflexivity|].
    apply paymentStatusOf_proper; assumption. }
  split; [rewrite Hst; exact Hc2|].
  assert (Customer.outstandingAmount c2 ==
          Customer.outstandingAmount c + hookAmount s1 + hookAmount s2) as Ho.
  { rewrite Ho2, Ho1. unfold s2, s1.
    cbn [credited Sale.set_payment Sale.balance]. lra. }
  split; [exact Ho|].
  intros Hcompleted Hpos Hamt.
  assert (hookAmount s1 == Sale.balance s + Allocation.amount a) as H1.
  { rewrite hookAmount_fires; [unfold s1; cbn; lra|exact Hcompleted|unfold s1; cbn; lra]. }
  assert (hookAmount s2 == Sale.balance s) as H2.
  { rewrite hookAmount_fires; [exact Hbal|exact Hcompleted|rewrite Hbal; exact Hpos]. }
  rewrite Ho, H1, H2. split; lra.
Qed.

(** The failing input: the payment of 600 on the sale of 1000, updated with
    the list it already has, leaves the sale with paid 600 and balance 400
    and takes the customer's stored outstanding amount from 1800 to 3200. *)
Lemma C5_update_same_list_moves_outstanding_witness :
  exists s' c',
    sales (snd (updatePayment 11%N (PaymentReq.mk 1%N None [Allocation.mk 10%N 600])
                              shopWithPayment)) !! 10%N = Some s'
    /\ Sale.paid s' == 600 /\ Sale.balance s' == 400
    /\ Sale.paymentStatus s' = Partial
    /\ customers shopWithPayment !! 1%N = Some (Customer.mk 0 1800 1000)
    /\ customers (snd (updatePayment 11%N (PaymentReq.mk 1%N None [Allocation.mk 10%N 600])
                                     shopWithPayment)) !! 1%N = Some c'
    /\ Customer.outstandingAmount c' == 3200.
Proof.
  pose (s := Sale.mk "INV-1" 1%N [Item.mk 1%N 2 500 0 1000] 1000 0 0 1000 600 400
                     Partial Completed).
  pose (p0 := Payment.mk "REC-1" 1%N 600 [Allocation.mk 10%N 600] 600).
  destruct (C5_update_same_list_moves_outstanding
              11%N p0 (Allocation.mk 10%N 600) 1%N shopWithPayment
              (Payment.mk "REC-1" 1%N 600 [Allocation.mk 10%N 600] (0 + 600))
              (snd (updatePayment 11%N (PaymentReq.mk 1%N None [Allocation.mk 10%N 600])
                                  shopWithPayment))
              s (Customer.mk 0 1800 1000))
    as (s' & c' & _ & Hs' & Hpaid & Hbal & Hstatus & Hc' & _ & Hmove).
  - vm_compute. reflexivity.
  - reflexivity.
  - vm_compute. reflexivity.
  - vm_compute. reflexivity.
  - vm_compute. reflexivity.
  - destruct Hmove as (Ho & _); [reflexivity|reflexivity|discriminate|].
    exists s', c'. cbn in Hpaid, Hbal, Ho.
    split; [exact Hs'|]. split; [exact Hpaid|]. split; [exact Hbal|].
    split; [rewrite Hstatus; reflexivity|].
    split; [vm_compute; reflexivity|].
    split; [exact Hc'|]. rewrite Ho. reflexivity.
Defined.

(** ** The allocation loop of [createPayment] *)

(** The loop over a concatenation is the loop over the first part followed,
    on the store and the accumulators it leaves, by the loop over the
    second; a reply or an exception in the first part ends it there. *)
Lemma allocateAll_app l1 l2 recs tot st :
  allocateAll (l1 ++ l2) recs tot st =
  match allocateAll l1 recs tot st with
  | (Ok r, st1) => allocateAll l2 (fst r) (snd r) st1
  | (Respond e, st1) => (Respond e, st1)
  | (Throw e, st1) => (Throw e, st1)
  end.
Proof.
  revert recs tot st. induction l1 as [|a l1 IH]; intros recs tot st.
  - reflexivity.
  - cbn [app allocateAll]. unfold bind.
    destruct (allocate a st) as [[r|e|e] st1]; [apply IH|reflexivity|reflexivity].
Qed.

Lemma sumAmounts_app l1 l2 : sumAmounts (l1 ++ l2) == sumAmounts l1 + sumAmounts l2.
Proof.
  induction l1 as [|a l1 IH]; cbn [app sumAmounts].
  - lra.
  - rewrite IH. lra.
Qed.

(** The accumulators of a loop that ran to its end: one recorded allocation
    per turn, appended in order, and their amounts added to the total. *)
Lemma allocateAll_acc l recs tot st recs' tot' st' :
  allocateAll l recs tot st = (Ok (recs', tot'), st') ->
  exists news, recs' = recs ++ news /\ length news = length l
               /\ tot' == tot + sumAmounts news.
Proof.
  revert recs tot st. induction l as [|a l IH]; intros recs tot st H.
  - injection H as <- <- <-. exists []. rewrite app_nil_r. repeat split. cbn [sumAmounts]. lra.
  - cbn [allocateAll] in H. unfold bind in H.
    destruct (allocate a st) as [[r|e|e] st1]; try discriminate.
    destruct (IH _ _ _ H) as (news & -> & Hlen & Htot).
    exists (r :: news). rewrite <- app_assoc. repeat split.
    + simpl. now rewrite Hlen.
    + rewrite Htot. cbn [sumAmounts]. lra.
Qed.

(** A loop that ran to its end ran every prefix to its end. *)
Lemma allocateAll_prefix l1 l2 recs tot st res st' :
  allocateAll (l1 ++ l2) recs tot st = (Ok res, st') ->
  exists r1 st1, allocateAll l1 recs tot st = (Ok r1, st1)
                 /\ allocateAll l2 (fst r1) (snd r1) st1 = (Ok res, st').
Proof.
  rewrite allocateAll_app.
  destruct (allocateAll l1 recs tot st) as [[r1|e|e] st1]; try discriminate.
  intros H. exists r1, st1. split; [reflexivity|exact H].
Qed.

(** A loop that ended with a reply: some turn, reached after a prefix that
    ran to its end, gave that reply. *)
Lemma allocateAll_respond l recs tot st e :
  fst (allocateAll l recs tot st) = Respond e ->
  exists pre a post r1 st1,
    l = pre ++ a :: post
    /\ allocateAll pre recs tot st = (Ok r1, st1)
    /\ fst (allocate a st1) = Respond e.
Proof.
  revert recs tot st. induction l as [|a l IH]; intros recs tot st H.
  - discriminate.
  - cbn [allocateAll] in H. unfold bind in H.
    destruct (allocate a st) as [[r|e'|e'] st1] eqn:Ha; cbn [fst] in H.
    + destruct (IH _ _ _ H) as (pre & b & post & r1 & st2 & -> & Hpre & Hb).
      exists (a :: pre), b, post, r1, st2. repeat split; [|exact Hb].
      cbn [allocateAll]. unfold bind. rewrite Ha. exact Hpre.
    + exists [], a, l, (recs, tot), st. repeat split. rewrite Ha. injection H as ->. reflexivity.
    + discriminate.
Qed.

(** A successful [createPayment], taken apart. *)
Lemma createPayment_success rn req st pid p st' :
  createPayment rn req st = (Success (pid, p), st') ->
  exists amount recs tot st1,
    PaymentReq.amount req = Some amount
    /\ allocateAll (PaymentReq.sales req) [] 0 st = (Ok (recs, tot), st1)
    /\ p = Payment.mk rn (PaymentReq.customer req) amount recs tot
    /\ pid = nextId st1
    /\ payments st' = <[pid:=p]> (payments st1)
    /\ sales st' = sales st1
    /\ customers st' = customers st1.
Proof.
  unfold createPayment, handle, createPayment_body.
  destruct (createPaymentValidation req) eqn:Hval; cbn [negb]; [|discriminate].
  unfold bind at 1, Customer_findById.
  destruct (customers st !! PaymentReq.customer req); [|discriminate].
  unfold bind at 1.
  destruct (allocateAll (PaymentReq.sales req) [] 0 st) as [[[recs tot]|e|e] st1];
    try discriminate.
  unfold Payment_create. cbn [fst snd].
  destruct (Payment.valid _); [|discriminate].
  unfold bind at 1, get.
  destruct (receiptTaken _ _); [discriminate|].
  unfold bind, modify, ret. cbv beta iota.
  intros H. injection H as <- <- <-.
  unfold createPaymentValidation in Hval.
  destruct (PaymentReq.amount req) as [amount|]; [|discriminate].
  exists amount, recs, tot, st1. repeat split.
Qed.

(** C6.  In a successful [createPayment] the allocation recorded for each
    request is the request clamped to the sale's balance at that turn of
    the loop, [min(requested, balance)]: a request above the balance
    records, and applies to the sale, the balance only.  [totalAllocated]
    is the sum of the recorded amounts and the rest of the payment is its
    [remainingAmount = amount - totalAllocated]. *)
Theorem C6_createPayment_clamps rn req st pid p st' :
  createPayment rn req st = (Success (pid, p), st') ->
  payments st' !! pid = Some p
  /\ PaymentReq.amount req = Some (Payment.amount p)
  /\ length (Payment.sales p) = length (PaymentReq.sales req)
  /\ (forall i a,
        PaymentReq.sales req !! i = Some a ->
        exists acc sti s r stj s',
          allocateAll (take i (PaymentReq.sales req)) [] 0 st = (Ok acc, sti)
          /\ sales sti !! Allocation.sale a = Some s
          /\ Payment.sales p !! i = Some r
          /\ allocate a sti = (Ok r, stj)
          /\ Allocation.sale r = Allocation.sale a
          /\ Allocation.amount r = Qmin (Allocation.amount a) (Sale.balance s)
          /\ (Sale.balance s < Allocation.amount a ->
              Allocation.amount r == Sale.balance s)
          /\ sales stj !! Allocation.sale a = Some s'
          /\ Sale.paid s' == Sale.paid s + Allocation.amount r
          /\ Sale.balance s' == Sale.balance s - Allocation.amount r)
  /\ Payment.totalAllocated p == sumAmounts (Payment.sales p)
  /\ Payment.remainingAmount p == Payment.amount p - sumAmounts (Payment.sales p).
Proof.
  intros H.
  destruct (createPayment_success _ _ _ _ _ _ H)
    as (amount & recs & tot & st1 & Hamt & Hall & -> & -> & Hpay & _ & _).
  destruct (allocateAll_acc _ _ _ _ _ _ _ Hall) as (news & Hrecs & Hlen & Htot).
  cbn [app] in Hrecs. subst recs.
  cbn [Payment.sales Payment.amount Payment.totalAllocated Payment.remainingAmount].
  split; [rewrite Hpay; apply lookup_insert_eq|].
  split; [exact Hamt|].
  split; [exact Hlen|].
  split; [|split; [lra|unfold Payment.remainingAmount; cbn; lra]].
  intros i a Hi.
  rewrite <- (take_drop_middle _ _ _ Hi) in Hall.
  destruct (allocateAll_prefix _ _ _ _ _ _ _ Hall) as ([recs1 tot1] & sti & Hpre & Hrest).
  cbn [allocateAll fst snd] in Hrest. unfold bind in Hrest.
  destruct (allocate a sti) as [[r|e|e] stj] eqn:Ha; try discriminate.
  destruct (allocate_success _ _ _ _ Ha) as (s & Hs & Hpos & _ & Hr & Hstj).
  destruct (allocateAll_acc _ _ _ _ _ _ _ Hpre) as (news1 & Hacc & Hlen1 & _).
  destruct (allocateAll_acc _ _ _ _ _ _ _ Hrest) as (news2 & Hnews & _ & _).
  cbn [app] in Hacc. rewrite Hacc, <- app_assoc in Hnews. cbn [app] in Hnews.
  assert (length news1 = i) as Hi1.
  { rewrite Hlen1, length_take. apply lookup_lt_Some in Hi. lia. }
  exists (recs1, tot1), sti, s, r, stj, (credited s (Allocation.amount r)).
  split; [exact Hpre|]. split; [exact Hs|].
  split; [rewrite Hnews, <- Hi1; apply list_lookup_middle; reflexivity|].
  split; [exact Ha|].
  rewrite Hr. cbn [Allocation.sale Allocation.amount].
  split; [reflexivity|]. split; [reflexivity|].
  split; [intros Hlt; rewrite Q.min_r by lra; reflexivity|].
  split; [rewrite Hstj; apply storeAfterApply_sale|].
  cbn [credited Sale.set_payment Sale.paid Sale.balance]. split; reflexivity.
Qed.

(** The second payment of the shop: 500 asked for the sale that has 400
    left records 400, and 100 of the payment remain. *)
Lemma C6_createPayment_clamps_witness :
  exists p r,
    fst (createPayment "REC-2" (PaymentReq.mk 1%N (Some 500) [Allocation.mk 10%N 500])
                       shopWithPayment) = Success (12%N, p)
    /\ Payment.sales p !! 0%nat = Some r
    /\ Allocation.amount r == 400
    /\ Payment.totalAllocated p == 400
    /\ Payment.remainingAmount p == 100.
Proof.
  pose (req := PaymentReq.mk 1%N (Some 500) [Allocation.mk 10%N 500]).
  pose (p := Payment.mk "REC-2" 1%N 500 [Allocation.mk 10%N 400] 400).
  assert (createPayment "REC-2" req shopWithPayment
          = (Success (12%N, p), snd (createPayment "REC-2" req shopWithPayment))) as Hrun
    by (vm_compute; reflexivity).
  destruct (C6_createPayment_clamps _ _ _ _ _ _ Hrun)
    as (_ & _ & _ & Hturn & Htot & Hrem).
  destruct (Hturn 0%nat (Allocation.mk 10%N 500) eq_refl)
    as (acc & sti & s & r & stj & s' & Hpre & Hs & Hr & _ & _ & Hamt & _).
  injection Hpre as <- <-.
  assert (s = Sale.mk "INV-1" 1%N [Item.mk 1%N 2 500 0 1000] 1000 0 0 1000 600 400
                      Partial Completed) as ->.
  { assert (Some s = Some (Sale.mk "INV-1" 1%N [Item.mk 1%N 2 500 0 1000] 1000 0 0 1000
                                   600 400 Partial Completed)) as E
      by (rewrite <- Hs; vm_compute; reflexivity).
    injection E as ->. reflexivity. }
  exists p, r.
  split; [exact (f_equal fst Hrun)|].
  split; [exact Hr|].
  split; [rewrite Hamt; vm_compute; reflexivity|].
  split; [rewrite Htot; vm_compute; reflexivity|].
  rewrite Hrem. vm_compute. reflexivity.
Defined.

(** ** The balance check of the allocation loop *)

(** A turn replies [InvalidState] exactly when the sale is there with a
    balance that is not positive. *)
Lemma allocate_invalid_iff a st :
  fst (allocate a st) = Respond InvalidState
  <-> exists s, sales st !! Allocation.sale a = Some s /\ Sale.balance s <= 0.
Proof.
  rewrite allocate_run.
  destruct (sales st !! Allocation.sale a) as [s|].
  - destruct (leb (Sale.balance s) 0) eqn:Hb; qbool.
    + split; [intros _; exists s; split; [reflexivity|exact Hb]|reflexivity].
    + cbv zeta. split.
      * destruct (Sale.valid _); discriminate.
      * intros (s0 & Hs0 & Hle). injection Hs0 as <-. lra.
  - split; [discriminate|]. intros (s & Hs & _). discriminate.
Qed.

(** C7.  The allocation loop of [createPayment] takes the requests in the
    caller's order, each on the store the turns before it have left, and
    the request replies [InvalidState] exactly when the balance of its sale
    in that store is not positive, whatever amount it asks.  A list that
    names the same sale twice meets, on the second turn, the balance the
    first turn has reduced: that turn replies [InvalidState] exactly when
    the first request took the whole balance. *)
Theorem C7_balance_checked_at_loop_time :
  (forall pre a post acc st st1,
      allocateAll pre [] 0 st = (Ok acc, st1) ->
      allocateAll (pre ++ a :: post) [] 0 st
      = (let* r := allocate a in
         allocateAll post (fst acc ++ [r]) (snd acc + Allocation.amount r)) st1)
  /\ (forall a st,
      fst (allocate a st) = Respond InvalidState
      <-> exists s, sales st !! Allocation.sale a = Some s /\ Sale.balance s <= 0)
  /\ (forall rn req st,
      fst (createPayment rn req st) = Failure InvalidState
      <-> createPaymentValidation req = true
          /\ is_Some (customers st !! PaymentReq.customer req)
          /\ exists i a acc sti s,
               PaymentReq.sales req !! i = Some a
               /\ allocateAll (take i (PaymentReq.sales req)) [] 0 st = (Ok acc, sti)
               /\ sales sti !! Allocation.sale a = Some s
               /\ Sale.balance s <= 0)
  /\ (forall sid x y st s r st1,
      sales st !! sid = Some s ->
      allocate (Allocation.mk sid x) st = (Ok r, st1) ->
      exists s1, sales st1 !! sid = Some s1
        /\ Sale.balance s1 == Sale.balance s - Qmin x (Sale.balance s)
        /\ (fst (allocate (Allocation.mk sid y) st1) = Respond InvalidState
            <-> Sale.balance s <= x)).
Proof.
  split; [|split; [exact allocate_invalid_iff|split]].
  - intros pre a post acc st st1 Hpre.
    rewrite allocateAll_app, Hpre. reflexivity.
  - intros rn req st. unfold createPayment, handle, createPayment_body.
    destruct (createPaymentValidation req); cbn [negb fst];
      [|split; [discriminate|intros (? & _); discriminate]].
    unfold bind at 1, Customer_findById.
    destruct (customers st !! PaymentReq.customer req) as [c|];
      [|split; [discriminate|intros (_ & [? ?] & _); discriminate]].
    unfold bind at 1.
    destruct (allocateAll (PaymentReq.sales req) [] 0 st) as [[acc0|e|e] st1] eqn:Hall.
    + split.
      * unfold Payment_create. destruct (Payment.valid _); [|discriminate].
        unfold bind, get. destruct (receiptTaken _ _); discriminate.
      * intros (_ & _ & i & a & acc & sti & s & Hi & Hpre & Hs & Hle). exfalso.
        rewrite <- (take_drop_middle _ _ _ Hi) in Hall.
        destruct (allocateAll_prefix _ _ _ _ _ _ _ Hall) as (acc' & sti' & Hpre' & Hrest).
        rewrite Hpre in Hpre'. injection Hpre' as <- <-.
        cbn [allocateAll] in Hrest. unfold bind in Hrest.
        assert (fst (allocate a sti) = Respond InvalidState) as Hbad
          by (apply allocate_invalid_iff; exists s; split; assumption).
        destruct (allocate a sti) as [[r|e|e] stj]; discriminate.
    + cbn [fst]. split.
      * intros He. injection He as ->.
        split; [reflexivity|]. split; [eexists; reflexivity|].
        destruct (allocateAll_respond (PaymentReq.sales req) [] 0 st InvalidState)
          as (pre & a & post & acc & sti & Hl & Hpre & Hbad);
          [rewrite Hall; reflexivity|].
        apply allocate_invalid_iff in Hbad. destruct Hbad as (s & Hs & Hle).
        exists (length pre), a, acc, sti, s.
        rewrite Hl. split; [apply list_lookup_middle; reflexivity|].
        rewrite take_app_length. repeat split; assumption.
      * intros (_ & _ & i & a & acc & sti & s & Hi & Hpre & Hs & Hle).
        rewrite <- (take_drop_middle _ _ _ Hi), allocateAll_app, Hpre in Hall.
        cbn [allocateAll] in Hall. unfold bind in Hall.
        assert (fst (allocate a sti) = Respond InvalidState) as Hbad
          by (apply allocate_invalid_iff; exists s; split; assumption).
        destruct (allocate a sti) as [[r|e'|e'] stj]; try discriminate.
        injection Hbad as ->. injection Hall as <- _. reflexivity.
    + cbn [fst]. split.
      * destruct e; discriminate.
      * intros (_ & _ & i & a & acc & sti & s & Hi & Hpre & Hs & Hle). exfalso.
        rewrite <- (take_drop_middle _ _ _ Hi), allocateAll_app, Hpre in Hall.
        cbn [allocateAll] in Hall. unfold bind in Hall.
        assert (fst (allocate a sti) = Respond InvalidState) as Hbad
          by (apply allocate_invalid_iff; exists s; split; assumption).
        destruct (allocate a sti) as [[r|e'|e'] stj]; discriminate.
  - intros sid x y st s r st1 Hs Ha.
    destruct (allocate_success _ _ _ _ Ha) as (s0 & Hs0 & Hpos & _ & _ & ->).
    cbn [Allocation.sale Allocation.amount] in *.
    rewrite Hs in Hs0. injection Hs0 as <-.
    eexists. split; [apply storeAfterApply_sale|].
    cbn [credited Sale.set_payment Sale.balance]. split; [reflexivity|].
    rewrite allocate_invalid_iff. cbn [Allocation.sale].
    rewrite storeAfterApply_sale. split.
    + intros (s1 & Hs1 & Hle). injection Hs1 as <-.
      cbn [credited Sale.set_payment Sale.balance] in Hle.
      destruct (Qlt_le_dec x (Sale.balance s)) as [Hlt|Hge]; [|exact Hge].
      rewrite Q.min_l in Hle by lra. lra.
    + intros Hle. eexists. split; [reflexivity|].
      cbn [credited Sale.set_payment Sale.balance].
      rewrite Q.min_r by exact Hle. lra.
Qed.

(** The second request on the same sale: after 1000 of the sale of 1000 has
    been taken by the first request, the payment is refused. *)
Lemma C7_balance_checked_at_loop_time_witness :
  fst (createPayment "REC-1"
         (PaymentReq.mk 1%N (Some 1050) [Allocation.mk 10%N 1000; Allocation.mk 10%N 50])
         shopWithSale) = Failure InvalidState.
Proof.
  apply (proj1 (proj2 (proj2 C7_balance_checked_at_loop_time))).
  split; [reflexivity|]. split; [eexists; vm_compute; reflexivity|].
  exists 1%nat, (Allocation.mk 10%N 50).
  eexists _, _, _.
  split; [reflexivity|].
  split; [vm_compute; reflexivity|].
  split; [vm_compute; reflexivity|].
  vm_compute. discriminate.
Defined.

(** ** Cancellation *)

Lemma restock_lookup sign its (m : gmap ID Product.t) pid p :
  m !! pid = Some p ->
  exists p',
    fold_left (fun m it => alter (Product.inc (sign * Item.quantity it)) (Item.product it) m)
              its m !! pid = Some p'
    /\ Product.stock_current p' == Product.stock_current p + sign * quantityOf pid its.
Proof.
  revert m p. induction its as [|it its IH]; intros m p Hp; cbn [fold_left quantityOf].
  - exists p. split; [exact Hp|lra].
  - destruct (N.eqb_spec (Item.product it) pid) as [->|Hne].
    + destruct (IH (alter (Product.inc (sign * Item.quantity it)) pid m)
                   (Product.inc (sign * Item.quantity it) p)) as (p' & Hp' & Hq).
      { rewrite lookup_alter_eq, Hp. reflexivity. }
      exists p'. split; [exact Hp'|]. rewrite Hq. cbn [Product.inc Product.stock_current]. lra.
    + destruct (IH (alter (Product.inc (sign * Item.quantity it)) (Item.product it) m) p)
        as (p' & Hp' & Hq).
      { rewrite lookup_alter_ne by exact Hne. exact Hp. }
      exists p'. split; [exact Hp'|]. rewrite Hq. lra.
Qed.

Lemma deleteSale_run sid st :
  deleteSale sid st =
  match sales st !! sid with
  | None => (Failure NotFound, st)
  | Some sale =>
      if Status_eqb (Sale.status sale) Cancelled then (Failure InvalidState, st)
      else
        let st1 :=
          mkStore
            (fold_left (fun m it => alter (Product.inc (1 * Item.quantity it))
                                          (Item.product it) m)
                       (Sale.items sale) (products st))
            (alter (Customer.inc (- Sale.total sale) (- Sale.balance sale))
                   (Sale.customer sale) (customers st))
            (sales st) (payments st) (nextId st) in
        if Sale.valid sale
        then (Success tt, with_sales (insert sid (Sale.set_status sale Cancelled)) st1)
        else (Failure ServerError, st1)
  end.
Proof.
  unfold deleteSale, handle, deleteSale_body, bind at 1, Sale_findById.
  destruct (sales st !! sid) as [sale|]; [|reflexivity].
  destruct (Status_eqb (Sale.status sale) Cancelled); [reflexivity|].
  unfold bind at 1. rewrite adjustStock_run.
  unfold bind, Customer_findByIdAndUpdate, modify. rewrite Sale_save_run.
  change (Sale.valid (Sale.set_status sale Cancelled)) with (Sale.valid sale).
  cbv zeta. destruct (Sale.valid sale); reflexivity.
Qed.

(** C8.  Cancelling a stored sale that is not cancelled succeeds and gives
    each product back the quantity the sale's items hold of it, takes the
    sale's current total off the customer's total purchase and its current
    balance off the outstanding amount, marks the sale cancelled and leaves
    its amounts, every other sale and every payment as they were.
    Cancelling a cancelled sale is refused with [InvalidState] and the
    store is unchanged. *)
Theorem C8_cancel_reverses_sale :
  (forall sid st s c,
      sales st !! sid = Some s ->
      Sale.status s <> Cancelled ->
      Sale.valid s = true ->
      customers st !! Sale.customer s = Some c ->
      exists st' c',
        deleteSale sid st = (Success tt, st')
        /\ sales st' !! sid = Some (Sale.set_status s Cancelled)
        /\ Sale.status (Sale.set_status s Cancelled) = Cancelled
        /\ (forall sid', sid' <> sid -> sales st' !! sid' = sales st !! sid')
        /\ customers st' !! Sale.customer s = Some c'
        /\ Customer.totalPurchase c' == Customer.totalPurchase c - Sale.total s
        /\ Customer.outstandingAmount c' == Customer.outstandingAmount c - Sale.balance s
        /\ (forall cid, cid <> Sale.customer s -> customers st' !! cid = customers st !! cid)
        /\ payments st' = payments st
        /\ (forall pid p, products st !! pid = Some p ->
              exists p', products st' !! pid = Some p'
                /\ Product.stock_current p' ==
                   Product.stock_current p + quantityOf pid (Sale.items s)))
  /\ (forall sid st s,
      sales st !! sid = Some s ->
      Sale.status s = Cancelled ->
      deleteSale sid st = (Failure InvalidState, st)).
Proof.
  split.
  - intros sid st s c Hs Hst Hv Hc.
    rewrite deleteSale_run, Hs, Hv.
    assert (Status_eqb (Sale.status s) Cancelled = false) as ->
      by (destruct (Sale.status s); [reflexivity|congruence|reflexivity]).
    cbv zeta.
    destruct (inc_lookup (- Sale.total s) (- Sale.balance s) (Sale.customer s) _ _ _ Hc)
      as (c' & Hc' & Hp & Ho).
    rewrite N.eqb_refl in Hp, Ho.
    eexists _, c'. split; [reflexivity|].
    cbn [with_sales sales customers payments products].
    split; [apply lookup_insert_eq|].
    split; [reflexivity|].
    split; [intros sid' Hne; apply lookup_insert_ne; congruence|].
    split; [exact Hc'|].
    split; [rewrite Hp; lra|].
    split; [rewrite Ho; lra|].
    split; [intros cid Hne; apply lookup_alter_ne; congruence|].
    split; [reflexivity|].
    intros pid p Hp0.
    destruct (restock_lookup 1 (Sale.items s) _ _ _ Hp0) as (p' & Hp' & Hq).
    exists p'. split; [exact Hp'|]. rewrite Hq. lra.
  - intros sid st s Hs Hst.
    rewrite deleteSale_run, Hs, Hst. reflexivity.
Qed.

(** The sale with total 1000 and balance 400: cancelling it takes the
    customer's total purchase from 1000 to 0 and the outstanding amount
    from 1800 to 1400, and the two units go back to the stock of 48. *)
Lemma C8_cancel_reverses_sale_witness :
  exists s st' c' p',
    sales shopWithPayment !! 10%N = Some s
    /\ Sale.total s == 1000 /\ Sale.balance s == 400
    /\ deleteSale 10%N shopWithPayment = (Success tt, st')
    /\ customers st' !! 1%N = Some c'
    /\ Customer.totalPurchase c' == 1000 - 1000
    /\ Customer.outstandingAmount c' == 1800 - 400
    /\ payments st' = payments shopWithPayment
    /\ products st' !! 1%N = Some p'
    /\ Product.stock_current p' == 48 + 2.
Proof.
  pose (s := Sale.mk "INV-1" 1%N [Item.mk 1%N 2 500 0 1000] 1000 0 0 1000 600 400
                     Partial Completed).
  destruct (proj1 C8_cancel_reverses_sale 10%N shopWithPayment s (Customer.mk 0 1800 1000))
    as (st' & c' & Hrun & _ & _ & _ & Hc' & Hp & Ho & _ & Hpay & Hstock).
  - vm_compute. reflexivity.
  - discriminate.
  - vm_compute. reflexivity.
  - vm_compute. reflexivity.
  - destruct (Hstock 1%N (Product.mk 48)) as (p' & Hp' & Hq); [vm_compute; reflexivity|].
    exists s, st', c', p'. cbn in Hp, Ho, Hq.
    repeat split; try assumption; try reflexivity; lra.
Defined.

(** ** The customer list *)

(** [reduce] over the sales [find] returns is the sum over the documents of
    the collection that count for the customer. *)
Lemma reduce_filter_sumWhere cid f docs acc :
  fold_left (fun sum sale => sum + f sale)
            (List.filter (countsFor cid) (map snd docs)) acc
  == acc + sumWhere cid f docs.
Proof.
  revert acc. induction docs as [|[k s] docs IH]; intros acc;
    cbn [map List.filter sumWhere snd fold_left].
  - lra.
  - destruct (countsFor cid s); cbn [fold_left]; rewrite IH; lra.
Qed.

Lemma reduceSum_active cid f st :
  reduceSum f (Sale_findActiveOf cid st) == sumOverSales cid f st.
Proof.
  unfold reduceSum, Sale_findActiveOf, sumOverSales.
  change (fun s : Sale.t =>
            N.eqb (Sale.customer s) cid && negb (Status_eqb (Sale.status s) Cancelled))
    with (countsFor cid).
  rewrite reduce_filter_sumWhere. lra.
Qed.

(** C9.  [getCustomers] answers, for every customer the query returns and
    in the same order, an entry whose [outstandingAmount] is the sum of
    [balance] and whose [totalPurchase] is the sum of [total] over the
    non-cancelled sales of that customer, in place of the stored
    aggregates, and it writes nothing: the store after the call is the
    store before it.  The served amount is that sum also when the stored
    one differs: after the unpaid sale of 1000 the shop's customer has 2000
    stored and is served 1000. *)
Theorem C9_list_serves_recomputed_totals :
  (forall find st,
      exists objs,
        getCustomers find st = (Success objs, st)
        /\ length objs = length (find (customers st))
        /\ forall i cid c,
             find (customers st) !! i = Some (cid, c) ->
             exists obj,
               objs !! i = Some obj
               /\ CustomerObj._id obj = cid
               /\ CustomerObj.creditLimit obj = Customer.creditLimit c
               /\ CustomerObj.outstandingAmount obj == sumOverSales cid Sale.balance st
               /\ CustomerObj.calculatedOutstanding obj == sumOverSales cid Sale.balance st
               /\ CustomerObj.totalPurchase obj == sumOverSales cid Sale.total st)
  /\ (exists c obj,
        customers shopWithSale !! 1%N = Some c
        /\ Customer.outstandingAmount c == 2000
        /\ getCustomers map_to_list shopWithSale = (Success [obj], shopWithSale)
        /\ CustomerObj.outstandingAmount obj == 1000
        /\ sumOverSales 1%N Sale.balance shopWithSale == 1000).
Proof.
  split.
  - intros find st.
    exists (map (withCalculatedOutstanding st) (find (customers st))).
    split; [reflexivity|]. split; [apply length_map|].
    intros i cid c Hi.
    exists (withCalculatedOutstanding st (cid, c)).
    split; [rewrite list_lookup_fmap, Hi; reflexivity|].
    cbn [withCalculatedOutstanding fst snd CustomerObj._id CustomerObj.creditLimit
         CustomerObj.outstandingAmount CustomerObj.calculatedOutstanding
         CustomerObj.totalPurchase].
    repeat split; apply reduceSum_active.
  - eexists _, _.
    split; [vm_compute; reflexivity|].
    split; [vm_compute; reflexivity|].
    split; [vm_compute; reflexivity|].
    split; vm_compute; reflexivity.
Qed.

(** ** The payment status *)

Lemma double_eps_spec :
  Prim2SF Double.eps = S754_finite false 5764607523034235 (-59).
Proof. vm_compute. reflexivity. Qed.

Lemma double_neg_eps_spec :
  Prim2SF (PrimFloat.opp Double.eps) = S754_finite true 5764607523034235 (-59).
Proof. vm_compute. reflexivity. Qed.

(** A balance within the tolerance is not below minus the tolerance. *)
Lemma double_within_not_below b :
  PrimFloat.ltb (PrimFloat.abs b) Double.eps = true ->
  PrimFloat.ltb b (PrimFloat.opp Double.eps) = false.
Proof.
  rewrite !ltb_spec, abs_spec, double_neg_eps_spec, double_eps_spec.
  generalize 5764607523034235%positive (-59)%Z. intros mc ec.
  destruct (Prim2SF b) as [s|s| |s m e]; cbv [SFltb SFcompare SFabs];
    try discriminate; try (destruct s; reflexivity).
  destruct s; [|reflexivity].
  destruct (e ?= ec)%Z; try discriminate; try reflexivity.
  destruct (PosDef.Pos.compare_cont Eq m mc); cbv [CompOpp]; try discriminate; reflexivity.
Qed.

(** A balance of at least the tolerance is neither below minus the
    tolerance nor within it. *)
Lemma double_above_not_within b :
  PrimFloat.leb Double.eps b = true ->
  PrimFloat.ltb b (PrimFloat.opp Double.eps) = false
  /\ PrimFloat.ltb (PrimFloat.abs b) Double.eps = false.
Proof.
  rewrite !ltb_spec, leb_spec, abs_spec, double_neg_eps_spec, double_eps_spec.
  generalize 5764607523034235%positive (-59)%Z. intros mc ec.
  destruct (Prim2SF b) as [s|s| |s m e]; cbv [SFltb SFleb SFcompare SFabs];
    try discriminate; try (destruct s; try discriminate; split; reflexivity).
  destruct s; [discriminate|].
  rewrite (Z.compare_antisym e ec).
  destruct (e ?= ec)%Z; cbv [CompOpp]; try discriminate; try (split; reflexivity).
  change (PosDef.Pos.compare_cont Eq mc m) with (Pos.compare mc m).
  change (PosDef.Pos.compare_cont Eq m mc) with (Pos.compare m mc).
  rewrite (Pos.compare_antisym m mc).
  destruct (Pos.compare m mc); cbv [CompOpp]; try discriminate; split; reflexivity.
Qed.

Lemma double_status_rule b p : Double.FollowsRule b p (Double.paymentStatusOf b p).
Proof.
  unfold Double.FollowsRule, Double.paymentStatusOf. repeat apply conj.
  - intros ->. reflexivity.
  - intros H. rewrite (double_within_not_below b H), H. reflexivity.
  - intros H Hp. destruct (double_above_not_within b H) as (-> & ->). rewrite Hp. reflexivity.
  - intros H Hp. destruct (double_above_not_within b H) as (-> & ->). rewrite Hp. reflexivity.
Qed.

(** Deriving the status from the snapped balance or from the difference
    itself is the same. *)
Lemma double_status_snap b p :
  Double.paymentStatusOf (Double.snap b) p = Double.paymentStatusOf b p.
Proof.
  unfold Double.snap.
  destruct (PrimFloat.ltb (PrimFloat.abs b) Double.eps) eqn:E; [|reflexivity].
  unfold Double.paymentStatusOf at 2. rewrite (double_within_not_below b E), E.
  reflexivity.
Qed.

(** C2 as stated fails at the boundary.  A sale with total 0.02 and 0.01
    paid has a computed balance equal to the tolerance, so
    [|balance| <= 0.01] asks for [Paid]; sale creation and sale update
    make it [Partial]. *)
Lemma C2_counterexample :
  PrimFloat.leb (PrimFloat.abs (PrimFloat.sub 0.02 0.01)) Double.eps = true
  /\ Double.closedBandStatus 0.02 0.01 = Paid
  /\ snd (Double.createSale_amounts 0.02 0.01) = Partial
  /\ snd (Double.updateSale_amounts 0.02 0.01) = Partial.
Proof. repeat split; vm_compute; reflexivity. Qed.

(** C2 (amended).  At sale creation and at sale update the status is
    derived, with the tolerance 0.01, from the balance [b] the code
    computes as the double difference [total - paid] and from the paid
    amount: [b < -0.01] gives [Overpaid], [|b| < 0.01] gives [Paid] and a
    stored balance of 0, [b >= 0.01] gives [Partial] when something is paid
    and [Pending] when nothing is.  Update and creation derive the same
    stored balance and the same status from the same (total, paid).  With a
    total of 1000, 999.995 paid gives [Paid] and 999.98 paid gives
    [Partial].  For amounts 0.01 apart the computed difference decides:
    0.02 and 0.01 give [Partial] and 0.01 with nothing paid gives
    [Pending], the stored balance being 0.01, while 1000.01 and 1000 give
    [Paid], either way round.  The payment paths are not part of the
    statement. *)
Theorem C2_status_follows_strict_rule :
  (forall total paid,
      Double.FollowsRule (PrimFloat.sub total paid) paid
                         (snd (Double.createSale_amounts total paid)))
  /\ (forall total paid,
        Double.updateSale_amounts total paid = Double.createSale_amounts total paid)
  /\ (forall total paid,
        PrimFloat.ltb (PrimFloat.abs (PrimFloat.sub total paid)) Double.eps = true ->
        Double.createSale_amounts total paid = (0%float, Paid))
  /\ (forall total paid,
        PrimFloat.ltb (PrimFloat.abs (PrimFloat.sub total paid)) Double.eps = false ->
        fst (Double.createSale_amounts total paid) = PrimFloat.sub total paid)
  /\ Double.createSale_amounts 1000 999.995 = (0%float, Paid)
  /\ snd (Double.createSale_amounts 1000 999.98) = Partial
  /\ Double.createSale_amounts 0.02 0.01 = (0.01%float, Partial)
  /\ Double.createSale_amounts 0.01 0 = (0.01%float, Pending)
  /\ Double.createSale_amounts 1000.01 1000 = (0%float, Paid)
  /\ Double.createSale_amounts 1000 1000.01 = (0%float, Paid).
Proof.
  split; [intros total paid; apply double_status_rule|].
  split.
  { intros total paid. unfold Double.updateSale_amounts, Double.createSale_amounts.
    cbv zeta. rewrite double_status_snap. reflexivity. }
  split.
  { intros total paid H. unfold Double.createSale_amounts, Double.snap. cbv zeta.
    rewrite H. f_equal. apply (double_status_rule _ paid). exact H. }
  split.
  { intros total paid H. unfold Double.createSale_amounts, Double.snap. cbv zeta.
    rewrite H. reflexivity. }
  repeat split; vm_compute; reflexivity.
Qed.

(** 999.995 paid on a total of 1000: the computed balance is within the
    tolerance, the status is [Paid]. *)
Lemma C2_status_follows_strict_rule_witness :
  PrimFloat.ltb (PrimFloat.abs (PrimFloat.sub 1000 999.995)) Double.eps = true
  /\ snd (Double.createSale_amounts 1000 999.995) = Paid.
Proof.
  assert (PrimFloat.ltb (PrimFloat.abs (PrimFloat.sub 1000 999.995)) Double.eps = true)
    as H by (vm_compute; reflexivity).
  split; [exact H|].
  destruct C2_status_follows_strict_rule as (Hrule & _).
  destruct (Hrule 1000%float 999.995%float) as (_ & Hpaid & _).
  exact (Hpaid H).
Defined.

(** * Further properties of the controllers *)

(** ** Credit status: the virtual and the list filter *)

(** X1.  For a customer whose credit limit is not negative, the virtual
    [creditStatus] says [OverLimit] exactly when a positive limit is
    exceeded, while the [over_limit] filter of the customer list matches
    whenever a positive outstanding amount exceeds the limit.  The two
    differ exactly on customers with limit 0 who owe: the filter lists them
    as over the limit, the virtual labels them [WithinLimit], and the
    [within_limit] filter does not find them.  A customer in credit
    (negative outstanding amount) is [CreditClear] for the virtual and is
    matched by none of the three filters.  No customer matches two
    filters. *)
Theorem X1_credit_virtual_and_filter (c : Customer.t) :
  0 <= Customer.creditLimit c ->
  (Customer_creditStatus c = OverLimit -> matchesCreditFilter over_limit c = true)
  /\ (matchesCreditFilter over_limit c = true /\ Customer_creditStatus c <> OverLimit
      <-> Customer.creditLimit c == 0 /\ 0 < Customer.outstandingAmount c)
  /\ (Customer.creditLimit c == 0 -> 0 < Customer.outstandingAmount c ->
      Customer_creditStatus c = WithinLimit
      /\ matchesCreditFilter within_limit c = false)
  /\ (Customer.outstandingAmount c < 0 ->
      Customer_creditStatus c = CreditClear
      /\ forall f, matchesCreditFilter f c = false)
  /\ (forall f g, matchesCreditFilter f c = true -> matchesCreditFilter g c = true -> f = g).
Proof.
  intros Hlim. unfold Customer_creditStatus, matchesCreditFilter.
  set (out := Customer.outstandingAmount c) in *.
  set (lim := Customer.creditLimit c) in *.
  repeat apply conj.
  - destruct (leb out 0) eqn:E1; [discriminate|].
    destruct (ltb 0 lim) eqn:E2, (ltb lim out) eqn:E3; cbn [andb]; try discriminate.
    intros _. qbool.
    assert (ltb 0 out = true) as -> by (apply ltb_lt; lra). reflexivity.
  - intros (Hf & Hv). apply andb_true_iff in Hf. destruct Hf as (H1 & H2). qbool.
    split; [|exact H1].
    destruct (leb out 0) eqn:E1; qbool; [lra|].
    destruct (ltb 0 lim) eqn:E2; qbool; [|lra].
    destruct (ltb lim out) eqn:E3; qbool; [|lra].
    exfalso. apply Hv. reflexivity.
  - intros (H0 & Hpos). split.
    + apply andb_true_iff. split; apply ltb_lt; lra.
    + destruct (leb out 0) eqn:E1; qbool; [lra|].
      destruct (ltb 0 lim) eqn:E2; qbool; [lra|]. cbn [andb]. discriminate.
  - intros H0 Hpos. split.
    + destruct (leb out 0) eqn:E1; qbool; [lra|].
      destruct (ltb 0 lim) eqn:E2; qbool; [lra|]. reflexivity.
    + apply andb_false_iff. right. apply leb_gt. lra.
  - intros Hneg. split.
    + destruct (leb out 0) eqn:E1; qbool; [reflexivity|lra].
    + intros [| |].
      * apply andb_false_iff. left. apply ltb_ge. lra.
      * destruct (Qeq_bool out 0) eqn:E; [|reflexivity].
        apply Qeq_bool_eq in E. lra.
      * apply andb_false_iff. left. apply ltb_ge. lra.
  - intros f g Hf Hg.
    destruct f, g; trivial; exfalso;
      repeat match goal with
      | H : _ && _ = true |- _ => apply andb_true_iff in H; destruct H
      | H : Qeq_bool _ _ = true |- _ => apply Qeq_bool_eq in H
      end; qbool; lra.
Qed.

(** The customer who owes 100 with limit 0 is found by the [over_limit]
    filter and labelled [WithinLimit]. *)
Lemma X1_credit_virtual_and_filter_witness :
  matchesCreditFilter over_limit debtorWithoutLimit = true
  /\ Customer_creditStatus debtorWithoutLimit = WithinLimit
  /\ matchesCreditFilter within_limit debtorWithoutLimit = false.
Proof.
  destruct (X1_credit_virtual_and_filter debtorWithoutLimit) as (_ & Hdiff & Hzero & _).
  - vm_compute. discriminate.
  - destruct Hzero as (Hv & Hw); [reflexivity|reflexivity|].
    destruct (proj2 Hdiff) as (Hf & _); [split; reflexivity|].
    repeat split; assumption.
Defined.

(** ** Deleting a customer *)

(** X2.  [deleteCustomer] looks only at the stored outstanding amount: a
    missing customer gives [NotFound], a customer with a positive stored
    amount is refused and nothing changes, and any other customer, also
    one in credit, is removed.  The removal takes the customer document
    only: every sale, payment and product stays, so the customer's sales
    keep a reference to a customer that is gone, and a later sale or
    payment request for that customer is answered [NotFound]. *)
Theorem X2_deleteCustomer :
  (forall cid st, customers st !! cid = None ->
                  deleteCustomer cid st = (Failure NotFound, st))
  /\ (forall cid st c,
        customers st !! cid = Some c -> 0 < Customer.outstandingAmount c ->
        deleteCustomer cid st = (Failure InvalidState, st))
  /\ (forall cid st c,
        customers st !! cid = Some c -> Customer.outstandingAmount c <= 0 ->
        exists st',
          deleteCustomer cid st = (Success tt, st')
          /\ customers st' !! cid = None
          /\ (forall cid', cid' <> cid -> customers st' !! cid' = customers st !! cid')
          /\ sales st' = sales st /\ payments st' = payments st
          /\ products st' = products st
          /\ (forall inv req, SaleReq.customer req = cid ->
                createSaleValidation req = true ->
                createSale inv req st' = (Failure NotFound, st'))
          /\ (forall rn req, PaymentReq.customer req = cid ->
                createPaymentValidation req = true ->
                createPayment rn req st' = (Failure NotFound, st'))).
Proof.
  unfold deleteCustomer, handle, deleteCustomer_body, bind, Customer_findById.
  repeat apply conj.
  - intros cid st ->. reflexivity.
  - intros cid st c -> Hpos. apply ltb_lt in Hpos. rewrite Hpos. reflexivity.
  - intros cid st c -> Hle. apply ltb_ge in Hle. rewrite Hle.
    eexists. split; [reflexivity|].
    cbn [with_customers customers sales payments products].
    split; [apply lookup_delete_eq|].
    split; [intros cid' Hne; apply lookup_delete_ne; congruence|].
    repeat split.
    + intros inv req Hc Hv.
      unfold createSale, handle, createSale_body. rewrite Hv. cbn [negb].
      unfold bind, Customer_findById, with_customers. cbn [customers].
      rewrite Hc, lookup_delete_eq. reflexivity.
    + intros rn req Hc Hv.
      unfold createPayment, handle, createPayment_body. rewrite Hv. cbn [negb].
      unfold bind, Customer_findById, with_customers. cbn [customers].
      rewrite Hc, lookup_delete_eq. reflexivity.
Qed.

(** ** The customer detail *)

Lemma reduce_sumOf f l acc :
  fold_left (fun sum sale => sum + f sale) l acc == acc + sumOf f l.
Proof.
  revert acc. induction l as [|s l IH]; intros acc; cbn [fold_left sumOf].
  - lra.
  - rewrite IH. lra.
Qed.

Lemma reduceSum_sumOf f l : reduceSum f l == sumOf f l.
Proof. unfold reduceSum. rewrite reduce_sumOf. lra. Qed.

(** A sum over sales does not depend on their order. *)
Lemma sumOf_Permutation f l l' : Permutation l l' -> sumOf f l == sumOf f l'.
Proof.
  induction 1 as [|x l l' _ IH|x y l|l l' l'' _ IH1 _ IH2]; cbn [sumOf].
  - reflexivity.
  - rewrite IH. reflexivity.
  - lra.
  - rewrite IH1. exact IH2.
Qed.

(** The unpaid and the overpaid parts split the outstanding total. *)
Lemma sumOf_split_by_sign l :
  sumOf Sale.balance (List.filter (fun s => ltb 0 (Sale.balance s)) l)
  - sumOf (fun sale => Qabs (Sale.balance sale))
          (List.filter (fun s => ltb (Sale.balance s) 0) l)
  == sumOf Sale.balance l
  /\ 0 <= sumOf Sale.balance (List.filter (fun s => ltb 0 (Sale.balance s)) l)
  /\ 0 <= sumOf (fun sale => Qabs (Sale.balance sale))
                (List.filter (fun s => ltb (Sale.balance s) 0) l).
Proof.
  induction l as [|s l (IH & IHu & IHo)]; cbn [List.filter sumOf].
  - repeat split; lra.
  - destruct (ltb 0 (Sale.balance s)) eqn:Epos, (ltb (Sale.balance s) 0) eqn:Eneg;
      cbn [sumOf]; qbool.
    + lra.
    + repeat split; lra.
    + rewrite (Qabs_neg (Sale.balance s)) by lra. repeat split; lra.
    + repeat split; lra.
Qed.

Lemma settled_or_open l :
  (length (List.filter isSettled l) + length (List.filter isOpen l) = length l)%nat.
Proof.
  induction l as [|s l IH]; cbn [List.filter length]; [reflexivity|].
  unfold isSettled at 1, isOpen at 1.
  destruct (Sale.paymentStatus s); cbn [length]; lia.
Qed.

Lemma getCustomer_run sortSales sortPaymentDocs cid st :
  getCustomer sortSales sortPaymentDocs cid st =
  match customers st !! cid with
  | None => (Failure NotFound, st)
  | Some customer =>
      let allSales := sortSales (Sale_findActiveOf cid st) in
      let allPayments := map snd (sortPaymentDocs (Payment_findOf cid st)) in
      (Success
         (CustomerDetail.mk customer allSales allPayments (salesStatsOf allSales)
            (length allPayments)
            (fold_left (fun sum payment => sum + Payment.amount payment) allPayments 0)
            (overallStatusOf (salesStatsOf allSales))),
       st)
  end.
Proof.
  unfold getCustomer, handle, getCustomer_body, bind, Customer_findById.
  destruct (customers st !! cid); reflexivity.
Qed.

(** X3.  The statistics [getCustomer] answers hang together for every
    customer: each counted sale is either among the paid ones (paid or
    overpaid) or among the pending ones (pending or partial); the unpaid
    amount minus the overpaid amount is the total outstanding, and neither
    is negative; the overall status is [StatusOutstanding] only when the
    total outstanding exceeds 0.01, and then the unpaid amount shown is
    positive, [StatusCredit] only below -0.01, and then the overpaid amount
    shown is positive, and [StatusClear] in between.  The call writes
    nothing. *)
Theorem X3_getCustomer_statistics sortSales sortPaymentDocs cid st d st' :
  getCustomer sortSales sortPaymentDocs cid st = (Success d, st') ->
  st' = st
  /\ SalesStats.totalSales (CustomerDetail.salesStats d) = length (CustomerDetail.sales d)
  /\ (SalesStats.paidSales (CustomerDetail.salesStats d)
      + SalesStats.pendingSales (CustomerDetail.salesStats d)
      = SalesStats.totalSales (CustomerDetail.salesStats d))%nat
  /\ SalesStats.unpaidAmount (CustomerDetail.salesStats d)
     - SalesStats.overpaidAmount (CustomerDetail.salesStats d)
     == SalesStats.totalOutstanding (CustomerDetail.salesStats d)
  /\ 0 <= SalesStats.unpaidAmount (CustomerDetail.salesStats d)
  /\ 0 <= SalesStats.overpaidAmount (CustomerDetail.salesStats d)
  /\ (CustomerDetail.overallStatus d = StatusOutstanding ->
      eps < SalesStats.totalOutstanding (CustomerDetail.salesStats d)
      /\ 0 < SalesStats.unpaidAmount (CustomerDetail.salesStats d))
  /\ (CustomerDetail.overallStatus d = StatusCredit ->
      SalesStats.totalOutstanding (CustomerDetail.salesStats d) < - eps
      /\ 0 < SalesStats.overpaidAmount (CustomerDetail.salesStats d))
  /\ (CustomerDetail.overallStatus d = StatusClear ->
      - eps <= SalesStats.totalOutstanding (CustomerDetail.salesStats d)
      /\ SalesStats.totalOutstanding (CustomerDetail.salesStats d) <= eps).
Proof.
  rewrite getCustomer_run.
  destruct (customers st !! cid) as [c|]; [|discriminate].
  cbv zeta. intros H. injection H as <- <-.
  set (l := sortSales (Sale_findActiveOf cid st)).
  cbn [CustomerDetail.salesStats CustomerDetail.sales CustomerDetail.overallStatus].
  unfold overallStatusOf, salesStatsOf.
  cbn [SalesStats.totalSales SalesStats.paidSales SalesStats.pendingSales
       SalesStats.unpaidAmount SalesStats.overpaidAmount SalesStats.totalOutstanding].
  rewrite !reduceSum_sumOf.
  destruct (sumOf_split_by_sign l) as (Hsplit & Hu & Ho).
  split; [reflexivity|]. split; [reflexivity|].
  split; [apply settled_or_open|].
  split; [exact Hsplit|]. split; [exact Hu|]. split; [exact Ho|].
  destruct (ltb eps (sumOf Sale.balance l)) eqn:E1;
    [|destruct (ltb (sumOf Sale.balance l) (- eps)) eqn:E2];
    qbool; unfold eps in *; repeat split; intros; try discriminate; lra.
Qed.

(** The customer of the shop after the sale of 1000 and the payment of
    600: one pending sale, 400 unpaid, status outstanding. *)
Lemma X3_getCustomer_statistics_witness :
  exists d,
    fst (getCustomer (fun l => l) (fun l => l) 1%N shopWithPayment) = Success d
    /\ (SalesStats.paidSales (CustomerDetail.salesStats d)
        + SalesStats.pendingSales (CustomerDetail.salesStats d) = 1)%nat
    /\ SalesStats.unpaidAmount (CustomerDetail.salesStats d)
       - SalesStats.overpaidAmount (CustomerDetail.salesStats d) == 400
    /\ CustomerDetail.overallStatus d = StatusOutstanding
    /\ 0 < SalesStats.unpaidAmount (CustomerDetail.salesStats d).
Proof.
  pose (sale := Sale.mk "INV-1" 1%N [Item.mk 1%N 2 500 0 1000] 1000 0 0 1000 600 400
                        Partial Completed).
  pose (payment := Payment.mk "REC-1" 1%N 600 [Allocation.mk 10%N 600] 600).
  pose (d := CustomerDetail.mk (Customer.mk 0 1800 1000) [sale] [payment]
               (SalesStats.mk 1 1000 600 400 0 1 0 400) 1 600 StatusOutstanding).
  assert (getCustomer (fun l => l) (fun l => l) 1%N shopWithPayment
          = (Success d, shopWithPayment)) as Hrun by (vm_compute; reflexivity).
  destruct (X3_getCustomer_statistics _ _ _ _ _ _ Hrun)
    as (_ & Hn & Hcount & Hsplit & _ & _ & Hout & _).
  exists d. split; [exact (f_equal fst Hrun)|].
  split; [rewrite Hcount, Hn; reflexivity|].
  split; [rewrite Hsplit; reflexivity|].
  split; [reflexivity|]. exact (proj2 (Hout eq_refl)).
Defined.

(** X4.  [getCustomer] answers [NotFound] for a missing customer and writes
    nothing.  For a stored customer, whatever the order the sort puts the
    sales in, the detail's [totalOutstanding] and [totalAmount] are the sums
    of [balance] and [total] over the customer's non-cancelled sales, the
    same amounts the customer list serves as [outstandingAmount] and
    [totalPurchase]; the [customer] object of the detail is the stored
    document, with the stored aggregates. *)
Theorem X4_detail_agrees_with_list :
  (forall sortSales sortPaymentDocs cid st,
      customers st !! cid = None ->
      getCustomer sortSales sortPaymentDocs cid st = (Failure NotFound, st))
  /\ (forall sortSales sortPaymentDocs cid st c,
        (forall l, Permutation (sortSales l) l) ->
        customers st !! cid = Some c ->
        exists d,
          getCustomer sortSales sortPaymentDocs cid st = (Success d, st)
          /\ CustomerDetail.customer d = c
          /\ SalesStats.totalOutstanding (CustomerDetail.salesStats d)
             == sumOverSales cid Sale.balance st
          /\ SalesStats.totalAmount (CustomerDetail.salesStats d)
             == sumOverSales cid Sale.total st
          /\ forall c',
               CustomerObj.outstandingAmount (withCalculatedOutstanding st (cid, c'))
               == SalesStats.totalOutstanding (CustomerDetail.salesStats d)
               /\ CustomerObj.totalPurchase (withCalculatedOutstanding st (cid, c'))
                  == SalesStats.totalAmount (CustomerDetail.salesStats d)).
Proof.
  split.
  - intros sS sP cid st Hc. rewrite getCustomer_run, Hc. reflexivity.
  - intros sS sP cid st c Hperm Hc. rewrite getCustomer_run, Hc. cbv zeta.
    eexists. split; [reflexivity|].
    cbn [CustomerDetail.customer CustomerDetail.salesStats salesStatsOf
         SalesStats.totalOutstanding SalesStats.totalAmount].
    assert (forall f, reduceSum f (sS (Sale_findActiveOf cid st)) == sumOverSales cid f st)
      as Hsum.
    { intros f. rewrite reduceSum_sumOf, (sumOf_Permutation f _ _ (Hperm _)),
        <- reduceSum_sumOf. apply reduceSum_active. }
    split; [reflexivity|]. split; [apply Hsum|]. split; [apply Hsum|].
    intros c'.
    cbn [withCalculatedOutstanding fst CustomerObj.outstandingAmount
         CustomerObj.totalPurchase].
    rewrite !Hsum, !reduceSum_active. split; reflexivity.
Qed.

(** In the shop after the sale and the payment the stored customer has 1800
    outstanding; detail and list both compute 400. *)
Lemma X4_detail_agrees_with_list_witness :
  exists d,
    getCustomer (fun l => l) (fun l => l) 1%N shopWithPayment = (Success d, shopWithPayment)
    /\ Customer.outstandingAmount (CustomerDetail.customer d) == 1800
    /\ SalesStats.totalOutstanding (CustomerDetail.salesStats d) == 400
    /\ CustomerObj.outstandingAmount
         (withCalculatedOutstanding shopWithPayment (1%N, Customer.mk 0 1800 1000)) == 400.
Proof.
  destruct (proj2 X4_detail_agrees_with_list (fun l => l) (fun l => l) 1%N shopWithPayment
              (Customer.mk 0 1800 1000))
    as (d & Hrun & Hc & Hout & _ & Hlist).
  - intros l. reflexivity.
  - vm_compute. reflexivity.
  - exists d. split; [exact Hrun|].
    split; [rewrite Hc; reflexivity|].
    assert (sumOverSales 1%N Sale.balance shopWithPayment == 400) as E
      by (vm_compute; reflexivity).
    split; [rewrite Hout; exact E|].
    rewrite (proj1 (Hlist _)), Hout. exact E.
Defined.

(** ** The pending and the unallocated lists *)

Lemma In_filter_map_to_list {A} (P : ID * A -> bool) (m : gmap ID A) k v :
  In (k, v) (List.filter P (map_to_list m)) <-> m !! k = Some v /\ P (k, v) = true.
Proof.
  rewrite filter_In, <- list_elem_of_In, elem_of_map_to_list. reflexivity.
Qed.



(** X6.  After a successful [createPayment], the new payment is in the
    unallocated list of its customer exactly when the recorded allocations
    sum to less than the amount received; every document of that list is a
    stored payment of the customer with [totalAllocated] below [amount]. *)
Theorem X6_unallocated_after_payment sortPaymentDocs rn req st pid p st' :
  (forall l, Permutation (sortPaymentDocs l) l) ->
  createPayment rn req st = (Success (pid, p), st') ->
  exists docs,
    getUnallocatedPayments sortPaymentDocs (PaymentReq.customer req) st' = (Success docs, st')
    /\ (In (pid, p) docs <-> sumAmounts (Payment.sales p) < Payment.amount p)
    /\ (forall k q, In (k, q) docs ->
          payments st' !! k = Some q
          /\ Payment.customer q = PaymentReq.customer req
          /\ Payment.totalAllocated q < Payment.amount q).
Proof.
  intros Hperm H.
  destruct (createPayment_success _ _ _ _ _ _ H)
    as (amount & recs & tot & st1 & _ & Hall & Hp & _ & Hpay & _ & _).
  destruct (allocateAll_acc _ _ _ _ _ _ _ Hall) as (news & Hrecs & _ & Htot).
  cbn [app] in Hrecs. subst recs.
  eexists. split; [reflexivity|].
  assert (forall k q,
    In (k, q) (List.filter (fun kv => ltb 0 (Payment.remainingAmount (snd kv)))
                 (sortPaymentDocs (Payment_findOf (PaymentReq.customer req) st')))
    <-> payments st' !! k = Some q
        /\ Payment.customer q = PaymentReq.customer req
        /\ Payment.totalAllocated q < Payment.amount q) as Hin.
  { intros k q. rewrite filter_In. cbn [snd]. rewrite ltb_lt.
    unfold Payment.remainingAmount.
    split.
    - intros (Hi & Hrem). apply (Permutation_in _ (Hperm _)) in Hi.
      apply In_filter_map_to_list in Hi. destruct Hi as (Hk & Hc).
      cbn [snd] in Hc. apply N.eqb_eq in Hc. repeat split; try assumption. lra.
    - intros (Hk & Hc & Hlt). split; [|lra].
      apply (Permutation_in _ (Permutation_sym (Hperm _))).
      apply In_filter_map_to_list. split; [exact Hk|]. cbn [snd].
      apply N.eqb_eq. exact Hc. }
  split; [|intros k q Hi; apply Hin; exact Hi].
  rewrite Hin, Hpay, lookup_insert_eq, Hp.
  cbn [Payment.customer Payment.totalAllocated Payment.amount Payment.sales].
  split.
  - intros (_ & _ & Hlt). lra.
  - intros Hlt. repeat split. lra.
Qed.

(** The second payment of the shop, 500 of which 400 are allocated, is
    listed as unallocated. *)
Lemma X6_unallocated_after_payment_witness :
  exists p docs,
    fst (createPayment "REC-2" (PaymentReq.mk 1%N (Some 500) [Allocation.mk 10%N 500])
           shopWithPayment) = Success (12%N, p)
    /\ fst (getUnallocatedPayments (fun l => l) 1%N
              (snd (createPayment "REC-2"
                      (PaymentReq.mk 1%N (Some 500) [Allocation.mk 10%N 500])
                      shopWithPayment))) = Success docs
    /\ In (12%N, p) docs.
Proof.
  pose (req := PaymentReq.mk 1%N (Some 500) [Allocation.mk 10%N 500]).
  pose (p := Payment.mk "REC-2" 1%N 500 [Allocation.mk 10%N 400] 400).
  assert (createPayment "REC-2" req shopWithPayment
          = (Success (12%N, p), snd (createPayment "REC-2" req shopWithPayment))) as Hrun
    by (vm_compute; reflexivity).
  destruct (X6_unallocated_after_payment (fun l => l) _ _ _ _ _ _
              (fun l => Permutation_refl l) Hrun) as (docs & Hlist & Hin & _).
  exists p, docs.
  split; [exact (f_equal fst Hrun)|]. split; [exact (f_equal fst Hlist)|].
  apply Hin. reflexivity.
Defined.

(** ** Sale creation, case by case *)

Lemma checkItems_ok its acc st :
  forallb (inStock st) its = true ->
  checkItems its acc st
  = (Ok (map ItemReq.priced its,
         fold_left (fun acc i => acc + Item.total (ItemReq.priced i)) its acc), st).
Proof.
  revert acc. induction its as [|i its IH]; intros acc H; [reflexivity|].
  cbn [forallb] in H. apply andb_true_iff in H. destruct H as (Hi & Hrest).
  cbn [checkItems map fold_left]. unfold bind at 1, Product_findById.
  unfold inStock in Hi.
  destruct (products st !! ItemReq.product i) as [p|]; [|discriminate].
  apply negb_true_iff in Hi. rewrite Hi.
  unfold bind. rewrite (IH _ Hrest). reflexivity.
Qed.

Lemma checkItems_fail its acc st :
  forallb (inStock st) its = false ->
  checkItems its acc st = (Respond (stockReply st its), st).
Proof.
  revert acc. induction its as [|i its IH]; intros acc H; [discriminate|].
  cbn [forallb] in H. cbn [checkItems stockReply]. unfold bind at 1, Product_findById.
  unfold inStock in H.
  destruct (products st !! ItemReq.product i) as [p|]; [|reflexivity].
  destruct (ltb (Product.stock_current p) (ItemReq.quantity i)); [reflexivity|].
  cbn [negb andb] in H. unfold bind. rewrite (IH _ H). reflexivity.
Qed.

(** [createSale] on every request and store. *)
Lemma createSale_run inv req st :
  createSale inv req st =
  if negb (createSaleValidation req) then (Failure ValidationFailed, st)
  else match customers st !! SaleReq.customer req with
       | None => (Failure NotFound, st)
       | Some _ =>
           if forallb (inStock st) (SaleReq.items req) then
             if Sale.valid (saleDataOf inv req) then
               if invoiceTaken inv (sales st) then (Failure Conflict, st)
               else (Success (nextId st, saleDataOf inv req), storeAfterSale inv req st)
             else (Failure ValidationFailed, st)
           else (Failure (stockReply st (SaleReq.items req)), st)
       end.
Proof.
  unfold createSale, handle, createSale_body.
  destruct (createSaleValidation req); cbn [negb]; [|reflexivity].
  unfold bind at 1, Customer_findById.
  destruct (customers st !! SaleReq.customer req) as [c|]; [|reflexivity].
  unfold bind at 1.
  destruct (forallb (inStock st) (SaleReq.items req)) eqn:Hstock.
  - rewrite (checkItems_ok _ 0 st Hstock). cbn [fst snd].
    fold (subtotalOf (SaleReq.items req)).
    fold (totalOf req (subtotalOf (SaleReq.items req))). fold (paidOf req).
    change (Sale.mk inv _ _ _ _ _ _ _ _ _ _) with (saleDataOf inv req).
    unfold bind at 1, Sale_create.
    destruct (Sale.valid (saleDataOf inv req)); [|reflexivity].
    unfold bind at 1, get.
    change (Sale.invoiceNumber (saleDataOf inv req)) with inv.
    destruct (invoiceTaken inv (sales st)); [reflexivity|].
    unfold bind at 1, modify. unfold bind at 1, Sale_postSave.
    assert (forall stx,
      (if hookFires (saleDataOf inv req)
       then Customer_findByIdAndUpdate (Sale.customer (saleDataOf inv req)) 0
              (Sale.balance (saleDataOf inv req))
       else ret tt) stx = (Ok tt, with_customers (afterHook (saleDataOf inv req)) stx))
      as Hhook.
    { intros stx. unfold afterHook.
      destruct (hookFires (saleDataOf inv req)); destruct stx; reflexivity. }
    rewrite Hhook. unfold ret at 1. cbn [snd].
    unfold bind. rewrite adjustStock_run.
    unfold Customer_findByIdAndUpdate, modify, ret. reflexivity.
  - rewrite (checkItems_fail _ 0 st Hstock). reflexivity.
Qed.

Lemma Sale_valid_total s : Sale.valid s = true -> 0 <= Sale.total s /\ 0 <= Sale.paid s.
Proof.
  unfold Sale.valid. rewrite !andb_true_iff.
  intros ((((_ & _) & _) & Ht) & Hp). qbool. split; assumption.
Qed.

(** X7.  [createSale] is all or nothing.  A failure reply leaves the store
    as it was and is never a server error.  The sale goes through exactly
    when the request passes the route's validation, the customer exists,
    every line finds its product with at least the line's quantity in stock,
    the document passes the schema validators and the invoice number is
    free.  In particular a request whose discount exceeds subtotal plus tax
    (a negative total) is refused with [ValidationFailed]. *)
Theorem X7_createSale_all_or_nothing :
  (forall inv req st r st',
      createSale inv req st = (Failure r, st') ->
      st' = st /\ r <> ServerError /\ r <> InvalidState)
  /\ (forall inv req st,
        (exists res st', createSale inv req st = (Success res, st'))
        <-> createSaleValidation req = true
            /\ is_Some (customers st !! SaleReq.customer req)
            /\ forallb (inStock st) (SaleReq.items req) = true
            /\ Sale.valid (saleDataOf inv req) = true
            /\ invoiceTaken inv (sales st) = false)
  /\ (forall inv req st,
        createSaleValidation req = true ->
        is_Some (customers st !! SaleReq.customer req) ->
        forallb (inStock st) (SaleReq.items req) = true ->
        totalOf req (subtotalOf (SaleReq.items req)) < 0 ->
        createSale inv req st = (Failure ValidationFailed, st)).
Proof.
  repeat apply conj.
  - intros inv req st r st'. rewrite createSale_run.
    destruct (createSaleValidation req); cbn [negb];
      [|intros H; injection H as <- <-; repeat split; discriminate].
    destruct (customers st !! SaleReq.customer req);
      [|intros H; injection H as <- <-; repeat split; discriminate].
    destruct (forallb (inStock st) (SaleReq.items req)) eqn:Hstock.
    + destruct (Sale.valid _);
        [|intros H; injection H as <- <-; repeat split; discriminate].
      destruct (invoiceTaken _ _); [|discriminate].
      intros H; injection H as <- <-; repeat split; discriminate.
    + intros H. injection H as <- <-. split; [reflexivity|].
      clear Hstock. induction (SaleReq.items req) as [|i its IH]; cbn [stockReply].
      * split; discriminate.
      * destruct (products st !! ItemReq.product i); [|split; discriminate].
        destruct (ltb _ _); [split; discriminate|exact IH].
  - intros inv req st. rewrite createSale_run. split.
    + intros (res & st' & H).
      destruct (createSaleValidation req); cbn [negb] in H; [|discriminate].
      destruct (customers st !! SaleReq.customer req) as [c|]; [|discriminate].
      destruct (forallb (inStock st) (SaleReq.items req)); [|discriminate].
      destruct (Sale.valid _); [|discriminate].
      destruct (invoiceTaken _ _); [discriminate|].
      repeat split. eexists. reflexivity.
    + intros (-> & [c ->] & -> & -> & ->). cbn [negb]. eexists _, _. reflexivity.
  - intros inv req st Hv [c Hc] Hstock Hneg.
    rewrite createSale_run, Hv, Hc, Hstock. cbn [negb].
    destruct (Sale.valid (saleDataOf inv req)) eqn:Hvalid; [|reflexivity].
    apply Sale_valid_total in Hvalid. cbn [saleDataOf Sale.total] in Hvalid. lra.
Qed.

(** The sale of 1000 with a discount of 2000 is refused and the shop is
    unchanged. *)
Lemma X7_createSale_all_or_nothing_witness :
  createSale "INV-1" saleOverDiscounted shop = (Failure ValidationFailed, shop).
Proof.
  apply (proj2 (proj2 X7_createSale_all_or_nothing)).
  - reflexivity.
  - eexists. vm_compute. reflexivity.
  - vm_compute. reflexivity.
  - vm_compute. reflexivity.
Defined.

Lemma forallb_inStock_In st its :
  forallb (inStock st) its = true ->
  forall i, In i its ->
  exists p, products st !! ItemReq.product i = Some p
            /\ ItemReq.quantity i <= Product.stock_current p.
Proof.
  intros H i Hi. rewrite forallb_forall in H. specialize (H i Hi).
  unfold inStock in H.
  destruct (products st !! ItemReq.product i) as [p|]; [|discriminate].
  apply negb_true_iff in H. qbool. exists p. split; [reflexivity|exact H].
Qed.

Lemma restocked_None sign its (m : gmap ID Product.t) pid :
  m !! pid = None -> restocked sign its m !! pid = None.
Proof.
  unfold restocked. revert m. induction its as [|it its IH]; intros m Hnone;
    cbn [fold_left]; [exact Hnone|].
  apply IH. destruct (N.eq_dec (Item.product it) pid) as [->|Hne].
  - rewrite lookup_alter_eq, Hnone. reflexivity.
  - rewrite lookup_alter_ne by exact Hne. exact Hnone.
Qed.

(** X8.  A successful [createSale] has checked every line on its own
    against the stock before the sale, and then takes from each product
    the quantity all the lines hold of it.  The stock of a product is its
    previous stock minus that total, so a product named on several lines
    can be sold below zero. *)
Theorem X8_createSale_stock inv req st sid sale st' :
  createSale inv req st = (Success (sid, sale), st') ->
  (forall i, In i (SaleReq.items req) ->
     exists p, products st !! ItemReq.product i = Some p
               /\ ItemReq.quantity i <= Product.stock_current p)
  /\ (forall pid p, products st !! pid = Some p ->
        exists p', products st' !! pid = Some p'
          /\ Product.stock_current p' ==
             Product.stock_current p - quantityOf pid (Sale.items sale)
          /\ (Product.stock_current p < quantityOf pid (Sale.items sale) ->
              Product.stock_current p' < 0))
  /\ (forall pid, products st !! pid = None -> products st' !! pid = None)
  /\ sales st' !! sid = Some sale
  /\ payments st' = payments st.
Proof.
  rewrite createSale_run.
  destruct (createSaleValidation req); cbn [negb]; [|discriminate].
  destruct (customers st !! SaleReq.customer req); [|discriminate].
  destruct (forallb (inStock st) (SaleReq.items req)) eqn:Hstock; [|discriminate].
  destruct (Sale.valid _); [|discriminate].
  destruct (invoiceTaken _ _); [discriminate|].
  intros H. injection H as <- <- <-.
  split; [exact (forallb_inStock_In _ _ Hstock)|].
  unfold storeAfterSale. cbn [products sales payments].
  split.
  { intros pid p Hp.
    destruct (restock_lookup (-1) (Sale.items (saleDataOf inv req)) _ _ _ Hp)
      as (p' & Hp' & Hq).
    exists p'. split; [exact Hp'|]. split; [rewrite Hq; lra|].
    intros Hlt. rewrite Hq. lra. }
  split; [|split; [apply lookup_insert_eq|reflexivity]].
  intros pid Hnone. apply restocked_None. exact Hnone.
Qed.

(** Two lines of 30 units of the product the shop has 50 of: each line
    passes the check and the stock ends at -10. *)
Lemma X8_createSale_stock_witness :
  exists p',
    products (snd (createSale "INV-1" saleOfTwoLines shop)) !! 1%N = Some p'
    /\ Product.stock_current p' == - (10).
Proof.
  destruct (X8_createSale_stock "INV-1" saleOfTwoLines shop 10%N
              (saleDataOf "INV-1" saleOfTwoLines)
              (snd (createSale "INV-1" saleOfTwoLines shop)))
    as (_ & Hstock & _).
  - vm_compute. reflexivity.
  - destruct (Hstock 1%N (Product.mk 50)) as (p' & Hp' & Hq & _);
      [vm_compute; reflexivity|].
    exists p'. split; [exact Hp'|]. rewrite Hq. vm_compute. reflexivity.
Defined.

(** X9.  Creating a sale and cancelling it: the cancellation goes through,
    every product is back at its stock and the customer's total purchase at
    its value, but the stored outstanding amount keeps what the post-save
    hook added at creation, the sale's balance when that was positive.  A
    second cancellation is refused. *)
Theorem X9_create_then_cancel inv req st sid sale st1 c :
  createSale inv req st = (Success (sid, sale), st1) ->
  customers st !! SaleReq.customer req = Some c ->
  exists st2 c2 s2,
    deleteSale sid st1 = (Success tt, st2)
    /\ (forall pid p, products st !! pid = Some p ->
          exists p2, products st2 !! pid = Some p2
                     /\ Product.stock_current p2 == Product.stock_current p)
    /\ customers st2 !! SaleReq.customer req = Some c2
    /\ Customer.totalPurchase c2 == Customer.totalPurchase c
    /\ (0 < Sale.balance sale ->
        Customer.outstandingAmount c2 == Customer.outstandingAmount c + Sale.balance sale)
    /\ (Sale.balance sale <= 0 ->
        Customer.outstandingAmount c2 == Customer.outstandingAmount c)
    /\ sales st2 !! sid = Some s2
    /\ Sale.status s2 = Cancelled
    /\ deleteSale sid st2 = (Failure InvalidState, st2).
Proof.
  rewrite createSale_run.
  destruct (createSaleValidation req); cbn [negb]; [|discriminate].
  intros H Hc. rewrite Hc in H.
  destruct (forallb (inStock st) (SaleReq.items req)); [|discriminate].
  destruct (Sale.valid (saleDataOf inv req)) eqn:Hvalid; [|discriminate].
  destruct (invoiceTaken _ _); [discriminate|].
  injection H as <- <- <-.
  set (data := saleDataOf inv req) in *.
  assert (sales (storeAfterSale inv req st) !! nextId st = Some data) as Hs
    by apply lookup_insert_eq.
  rewrite deleteSale_run, Hs, Hvalid.
  change (Status_eqb (Sale.status data) Cancelled) with false. cbv zeta.
  destruct (afterHook_lookup data _ _ _ Hc) as (c0 & Hc0 & Hp0 & Ho0).
  change (Sale.customer data) with (SaleReq.customer req) in Ho0.
  rewrite N.eqb_refl in Ho0.
  destruct (inc_lookup (Sale.total data) (Sale.balance data) (SaleReq.customer req)
              _ _ _ Hc0) as (c1 & Hc1 & Hp1 & Ho1).
  destruct (inc_lookup (- Sale.total data) (- Sale.balance data) (SaleReq.customer req)
              _ _ _ Hc1) as (c2 & Hc2 & Hp2 & Ho2).
  rewrite N.eqb_refl in Hp1, Ho1, Hp2, Ho2.
  eexists _, c2, (Sale.set_status data Cancelled).
  split; [reflexivity|].
  cbn [with_sales products customers sales storeAfterSale].
  split.
  { intros pid p Hp.
    destruct (restock_lookup (-1) (Sale.items data) _ _ _ Hp) as (p1 & Hq1 & Hs1).
    destruct (restock_lookup 1 (Sale.items data) _ _ _ Hq1) as (p2 & Hq2 & Hs2).
    exists p2. split; [exact Hq2|]. rewrite Hs2, Hs1. lra. }
  split; [exact Hc2|].
  split; [rewrite Hp2, Hp1, Hp0; lra|].
  split.
  { intros Hpos. rewrite Ho2, Ho1, Ho0.
    rewrite (hookAmount_fires data eq_refl Hpos). lra. }
  split.
  { intros Hle. rewrite Ho2, Ho1, Ho0. unfold hookAmount, hookFires.
    assert (ltb 0 (Sale.balance data) = false) as -> by (apply ltb_ge; exact Hle).
    rewrite andb_false_r. lra. }
  split; [apply lookup_insert_eq|]. split; [reflexivity|].
  rewrite deleteSale_run. unfold with_sales. cbn [sales].
  rewrite lookup_insert_eq. reflexivity.
Qed.

(** The unpaid sale of 1000 created and cancelled in the shop: the stock is
    50 again, the total purchase 0, and 1000 stay outstanding. *)
Lemma X9_create_then_cancel_witness :
  exists st2 c2 p2,
    deleteSale 10%N shopWithSale = (Success tt, st2)
    /\ products st2 !! 1%N = Some p2 /\ Product.stock_current p2 == 50
    /\ customers st2 !! 1%N = Some c2
    /\ Customer.totalPurchase c2 == 0
    /\ Customer.outstandingAmount c2 == 1000.
Proof.
  destruct (X9_create_then_cancel "INV-1" (saleOf1000 None) shop 10%N
              (saleDataOf "INV-1" (saleOf1000 None)) shopWithSale (Customer.mk 0 0 0))
    as (st2 & c2 & s2 & Hrun & Hstock & Hc2 & Hp & Ho & _).
  - vm_compute. reflexivity.
  - vm_compute. reflexivity.
  - destruct (Hstock 1%N (Product.mk 50)) as (p2 & Hp2 & Hq); [vm_compute; reflexivity|].
    exists st2, c2, p2.
    split; [exact Hrun|]. split; [exact Hp2|]. split; [exact Hq|].
    split; [exact Hc2|]. split; [exact Hp|].
    rewrite Ho by (vm_compute; reflexivity). vm_compute. reflexivity.
Defined.

(** ** Sale update, case by case *)







(** ** Collections related key by key *)

Lemma keeps_refl {A} (R : A -> A -> Prop) (m : gmap ID A) :
  (forall x, R x x) -> keeps R m m.
Proof. intros HR k. destruct (m !! k); [apply HR|exact I]. Qed.

Lemma keeps_trans {A} (R : A -> A -> Prop) (m1 m2 m3 : gmap ID A) :
  (forall x y z, R x y -> R y z -> R x z) ->
  keeps R m1 m2 -> keeps R m2 m3 -> keeps R m1 m3.
Proof.
  intros HR H12 H23 k. specialize (H12 k). specialize (H23 k).
  destruct (m1 !! k), (m2 !! k), (m3 !! k); try contradiction; eauto.
Qed.

Lemma keeps_insert {A} (R : A -> A -> Prop) (m : gmap ID A) k x y :
  (forall z, R z z) -> m !! k = Some x -> R x y -> keeps R m (<[k:=y]> m).
Proof.
  intros HR Hk Hxy j. destruct (N.eq_dec k j) as [<-|Hne].
  - rewrite lookup_insert_eq, Hk. exact Hxy.
  - rewrite lookup_insert_ne by exact Hne. destruct (m !! j); [apply HR|exact I].
Qed.

Lemma keeps_alter {A} (R : A -> A -> Prop) (f : A -> A) (m : gmap ID A) k :
  (forall z, R z z) -> (forall z, R z (f z)) -> keeps R m (alter f k m).
Proof.
  intros HR Hf j. destruct (N.eq_dec k j) as [<-|Hne].
  - rewrite lookup_alter_eq. destruct (m !! k); [apply Hf|exact I].
  - rewrite lookup_alter_ne by exact Hne. destruct (m !! j); [apply HR|exact I].
Qed.

Lemma keeps_lookup {A} (R : A -> A -> Prop) (m m' : gmap ID A) k x :
  keeps R m m' -> m !! k = Some x -> exists y, m' !! k = Some y /\ R x y.
Proof.
  intros H Hx. specialize (H k). rewrite Hx in H.
  destruct (m' !! k) as [y|]; [|contradiction]. exists y. split; [reflexivity|exact H].
Qed.

Lemma paidDown_refl s : paidDown s s.
Proof.
  unfold paidDown. repeat apply conj; trivial; try lra. left. reflexivity.
Qed.

Lemma paidDown_trans s1 s2 s3 : paidDown s1 s2 -> paidDown s2 s3 -> paidDown s1 s3.
Proof.
  unfold paidDown.
  intros (? & ? & ? & ? & ? & ? & ? & ? & ? & ? & ? & Hst1)
         (? & ? & ? & ? & ? & ? & ? & ? & ? & ? & ? & Hst2).
  repeat apply conj; try congruence; try lra.
  destruct Hst2 as [E|N]; [|right; exact N].
  destruct Hst1 as [E1|N1]; [left; congruence|right; congruence].
Qed.

(** The if-chain does not answer [Overpaid] for a balance that is not
    negative. *)
Lemma paymentStatusOf_not_overpaid b p : 0 <= b -> paymentStatusOf b p <> Overpaid.
Proof.
  intros Hb. unfold paymentStatusOf.
  assert (ltb b (- eps) = false) as -> by (apply ltb_ge; unfold eps; lra).
  destruct (ltb (Qabs b) eps); [discriminate|]. destruct (ltb 0 p); discriminate.
Qed.

Lemma samePurchases_refl c : samePurchases c c.
Proof. split; reflexivity. Qed.

Lemma samePurchases_trans c1 c2 c3 :
  samePurchases c1 c2 -> samePurchases c2 c3 -> samePurchases c1 c3.
Proof. intros (? & ?) (? & ?). split; [congruence|lra]. Qed.

Lemma samePurchases_inc d c : samePurchases c (Customer.inc 0 d c).
Proof. split; [reflexivity|]. cbn. lra. Qed.

Lemma paysDown_refl st : paysDown st st.
Proof.
  repeat split; try reflexivity.
  - apply keeps_refl, paidDown_refl.
  - apply keeps_refl, samePurchases_refl.
Qed.

Lemma paysDown_trans st1 st2 st3 : paysDown st1 st2 -> paysDown st2 st3 -> paysDown st1 st3.
Proof.
  intros (? & ? & ? & Hs & Hc) (? & ? & ? & Hs' & Hc').
  repeat split; try congruence.
  - exact (keeps_trans _ _ _ _ paidDown_trans Hs Hs').
  - exact (keeps_trans _ _ _ _ samePurchases_trans Hc Hc').
Qed.

(** The customers after [applyToSale]: purchases and limits untouched. *)
Lemma storeAfterApply_customers sid sale d st :
  keeps samePurchases (customers st) (customers (storeAfterApply sid sale d st)).
Proof.
  unfold storeAfterApply. cbn [customers].
  eapply (keeps_trans _ _ (afterHook (credited sale d) (customers st)));
    [exact samePurchases_trans| |].
  - unfold afterHook. destruct (hookFires _).
    + apply keeps_alter; [exact samePurchases_refl|intros z; apply samePurchases_inc].
    + apply keeps_refl, samePurchases_refl.
  - apply keeps_alter; [exact samePurchases_refl|intros z; apply samePurchases_inc].
Qed.

(** A turn of the allocation loop with a non-negative request pays the
    sale down, or leaves the store as it is. *)
Lemma allocate_paysDown a st :
  0 <= Allocation.amount a -> paysDown st (snd (allocate a st)).
Proof.
  intros Ha. rewrite allocate_run.
  destruct (sales st !! Allocation.sale a) as [s|] eqn:Hs; [|apply paysDown_refl].
  destruct (leb (Sale.balance s) 0) eqn:Hb; [apply paysDown_refl|].
  cbv zeta. destruct (Sale.valid _); [|apply paysDown_refl].
  cbn [snd]. qbool.
  repeat split; try reflexivity; [|apply storeAfterApply_customers].
  unfold storeAfterApply. cbn [sales].
  apply (keeps_insert paidDown _ _ s); [exact paidDown_refl|exact Hs|].
  unfold paidDown. cbn [credited Sale.set_payment Sale.invoiceNumber Sale.customer
    Sale.items Sale.subtotal Sale.discount Sale.tax Sale.total Sale.status Sale.paid
    Sale.balance Sale.paymentStatus].
  assert (0 <= Qmin (Allocation.amount a) (Sale.balance s)) by (apply Q.min_glb; lra).
  assert (Qmin (Allocation.amount a) (Sale.balance s) <= Sale.balance s)
    by apply Q.le_min_r.
  repeat apply conj; try reflexivity; try lra.
  right. apply paymentStatusOf_not_overpaid. lra.
Qed.

(** What every turn does, the whole loop does. *)
Lemma allocateAll_rel (R : Store -> Store -> Prop) (P : Allocation.t -> Prop) :
  (forall st, R st st) ->
  (forall st1 st2 st3, R st1 st2 -> R st2 st3 -> R st1 st3) ->
  (forall a st, P a -> R st (snd (allocate a st))) ->
  forall l recs tot st, Forall P l -> R st (snd (allocateAll l recs tot st)).
Proof.
  intros Hrefl Htrans Hstep l. induction l as [|a l IH]; intros recs tot st Hl.
  - apply Hrefl.
  - inversion Hl as [|? ? Ha Hrest]; subst.
    cbn [allocateAll]. unfold bind.
    pose proof (Hstep a st Ha) as H1.
    destruct (allocate a st) as [[r|e|e] st1]; cbn [snd] in *; [|exact H1|exact H1].
    exact (Htrans _ _ _ H1 (IH _ _ _ Hrest)).
Qed.

Lemma reverseAll_rel (R : Store -> Store -> Prop) :
  (forall st, R st st) ->
  (forall st1 st2 st3, R st1 st2 -> R st2 st3 -> R st1 st3) ->
  (forall a st, R st (snd (reverseAllocation a st))) ->
  forall l st, R st (snd (reverseAll l st)).
Proof.
  intros Hrefl Htrans Hstep l. induction l as [|a l IH]; intros st.
  - apply Hrefl.
  - cbn [reverseAll]. unfold bind.
    pose proof (Hstep a st) as H1.
    destruct (reverseAllocation a st) as [[r|e|e] st1]; cbn [snd] in *;
      [|exact H1|exact H1].
    exact (Htrans _ _ _ H1 (IH _)).
Qed.

Lemma reallocateAll_rel (R : Store -> Store -> Prop) :
  (forall st, R st st) ->
  (forall st1 st2 st3, R st1 st2 -> R st2 st3 -> R st1 st3) ->
  (forall a st, R st (snd (reallocate a st))) ->
  forall l recs tot st, R st (snd (reallocateAll l recs tot st)).
Proof.
  intros Hrefl Htrans Hstep l. induction l as [|a l IH]; intros recs tot st.
  - apply Hrefl.
  - cbn [reallocateAll]. unfold bind.
    pose proof (Hstep a st) as H1.
    destruct (reallocate a st) as [[r|e|e] st1]; cbn [snd] in *; [|exact H1|exact H1].
    exact (Htrans _ _ _ H1 (IH _ _ _)).
Qed.

(** ** What a payment may and may not do *)

Lemma createPaymentValidation_amounts req :
  createPaymentValidation req = true ->
  Forall (fun a => 0 <= Allocation.amount a) (PaymentReq.sales req).
Proof.
  unfold createPaymentValidation. rewrite andb_true_iff. intros (_ & H).
  apply Forall_forall. intros a Ha. rewrite forallb_forall in H.
  apply leb_le, H. apply list_elem_of_In. exact Ha.
Qed.

(** [createPayment] on every request and store, up to the loop. *)
Lemma createPayment_run rn req st :
  createPayment rn req st =
  if negb (createPaymentValidation req) then (Failure ValidationFailed, st)
  else match customers st !! PaymentReq.customer req with
       | None => (Failure NotFound, st)
       | Some _ =>
           match allocateAll (PaymentReq.sales req) [] 0 st with
           | (Ok r, st1) =>
               let p := Payment.mk rn (PaymentReq.customer req)
                                   (default 0 (PaymentReq.amount req)) (fst r) (snd r) in
               if Payment.valid p then
                 if receiptTaken rn (payments st1) then (Failure Conflict, st1)
                 else (Success (nextId st1, p),
                       bumpId (with_payments (insert (nextId st1) p) st1))
               else (Failure ServerError, st1)
           | (Respond e, st1) => (Failure e, st1)
           | (Throw e, st1) => (Failure (createPayment_catch e), st1)
           end
       end.
Proof.
  unfold createPayment, handle, createPayment_body.
  destruct (createPaymentValidation req); cbn [negb]; [|reflexivity].
  unfold bind at 1, Customer_findById.
  destruct (customers st !! PaymentReq.customer req); [|reflexivity].
  unfold bind at 1.
  destruct (allocateAll (PaymentReq.sales req) [] 0 st) as [[r|e|e] st1]; try reflexivity.
  unfold Payment_create. cbv zeta.
  destruct (Payment.valid _); [|reflexivity].
  unfold bind at 1, get. cbn [Payment.receiptNumber].
  destruct (receiptTaken rn (payments st1)); reflexivity.
Qed.

(** X12.  Whatever a [createPayment] call answers, it has only paid sales
    down.  Products and the purchases and limits of the customers are as
    before; every sale is still there with the same customer, items, total
    and status, its [paid] has not decreased, its [balance] has not
    increased, a balance that was not negative is not negative, and no
    sale has become [Overpaid].  Of the payments, at most the new one has
    been added. *)
Theorem X12_createPayment_only_pays_down :
  forall rn req st,
    products (snd (createPayment rn req st)) = products st
    /\ keeps paidDown (sales st) (sales (snd (createPayment rn req st)))
    /\ keeps samePurchases (customers st) (customers (snd (createPayment rn req st)))
    /\ (payments (snd (createPayment rn req st)) = payments st
        \/ exists pid p,
             fst (createPayment rn req st) = Success (pid, p)
             /\ payments (snd (createPayment rn req st)) = <[pid:=p]> (payments st)).
Proof.
  intros rn req st.
  assert (paysDown st st) as Hrefl by apply paysDown_refl.
  rewrite createPayment_run.
  destruct (createPaymentValidation req) eqn:Hval; cbn [negb];
    [|destruct Hrefl as (? & ? & ? & ? & ?); repeat split; auto].
  destruct (customers st !! PaymentReq.customer req);
    [|destruct Hrefl as (? & ? & ? & ? & ?); repeat split; auto].
  pose proof (allocateAll_rel paysDown (fun a => 0 <= Allocation.amount a)
                paysDown_refl paysDown_trans allocate_paysDown
                (PaymentReq.sales req) [] 0 st (createPaymentValidation_amounts _ Hval))
    as (Hprod & Hpay & Hid & Hsales & Hcust).
  destruct (allocateAll (PaymentReq.sales req) [] 0 st) as [[r|e|e] st1];
    cbn [snd] in *; try (repeat split; auto; fail).
  cbv zeta. destruct (Payment.valid _); [|repeat split; auto].
  destruct (receiptTaken rn (payments st1)); [repeat split; auto|].
  cbn [snd fst bumpId with_payments products sales customers payments].
  repeat split; auto. right. eexists _, _. split; [reflexivity|]. rewrite Hpay. reflexivity.
Qed.

(** The payment of 600 in the shop: the sale of 1000 has 600 paid and 400
    left, and is not overpaid. *)
Lemma X12_createPayment_only_pays_down_witness :
  exists s s',
    sales shopWithSale !! 10%N = Some s
    /\ sales shopWithPayment !! 10%N = Some s'
    /\ paidDown s s'.
Proof.
  destruct (X12_createPayment_only_pays_down "REC-1"
              (PaymentReq.mk 1%N (Some 600) [Allocation.mk 10%N 600]) shopWithSale)
    as (_ & Hsales & _).
  destruct (sales shopWithSale !! 10%N) as [s|] eqn:Hs;
    [|exfalso; vm_compute in Hs; discriminate].
  destruct (keeps_lookup _ _ _ _ _ Hsales Hs) as (s' & Hs' & Hpaid).
  exists s, s'. split; [reflexivity|]. split; [exact Hs'|exact Hpaid].
Defined.

(** X13.  A [createPayment] that fails records no payment and rolls nothing
    back.  After [InvalidState], or [NotFound] for a sale, the store is the
    one the requests before the failing one have left, with their amounts
    applied to the sales; after [Conflict] (the receipt number is taken)
    every requested allocation has been applied. *)
Theorem X13_createPayment_failure_keeps_writes rn req st r st' :
  createPayment rn req st = (Failure r, st') ->
  payments st' = payments st
  /\ (r = InvalidState \/ (r = NotFound /\ is_Some (customers st !! PaymentReq.customer req)) ->
      exists i a acc,
        PaymentReq.sales req !! i = Some a
        /\ allocateAll (take i (PaymentReq.sales req)) [] 0 st = (Ok acc, st')
        /\ fst (allocate a st') = Respond r)
  /\ (r = Conflict ->
      exists acc,
        allocateAll (PaymentReq.sales req) [] 0 st = (Ok acc, st')
        /\ receiptTaken rn (payments st) = true).
Proof.
  rewrite createPayment_run.
  destruct (createPaymentValidation req) eqn:Hval; cbn [negb].
  2:{ intros H. injection H as <- <-. split; [reflexivity|].
      split; [intros [E|(E & _)]; discriminate|discriminate]. }
  destruct (customers st !! PaymentReq.customer req) as [c|] eqn:Hc.
  2:{ intros H. injection H as <- <-. split; [reflexivity|].
      split; [intros [E|(_ & [x Hx])]; discriminate|discriminate]. }
  pose proof (allocateAll_rel paysDown (fun a => 0 <= Allocation.amount a)
                paysDown_refl paysDown_trans allocate_paysDown
                (PaymentReq.sales req) [] 0 st (createPaymentValidation_amounts _ Hval))
    as (_ & Hpay & _).
  destruct (allocateAll (PaymentReq.sales req) [] 0 st) as [[acc|e|e] st1] eqn:Hall;
    cbn [snd] in Hpay.
  - cbv zeta. destruct (Payment.valid _).
    + destruct (receiptTaken rn (payments st1)) eqn:Htaken; [|discriminate].
      intros H. injection H as <- <-. split; [exact Hpay|].
      split; [intros [E|(E & _)]; discriminate|].
      intros _. exists acc. split; [reflexivity|]. rewrite <- Hpay. exact Htaken.
    + intros H. injection H as <- <-. split; [exact Hpay|].
      split; [intros [E|(E & _)]; discriminate|discriminate].
  - intros H. injection H as <- <-. split; [exact Hpay|].
    destruct (allocateAll_respond (PaymentReq.sales req) [] 0 st e)
      as (pre & a & post & acc & sti & Hl & Hpre & Hbad); [rewrite Hall; reflexivity|].
    assert (sti = st1) as ->.
    { rewrite Hl, allocateAll_app, Hpre in Hall. cbn [allocateAll] in Hall.
      unfold bind in Hall.
      destruct (allocate a sti) as [[x|e'|e'] stj] eqn:Ha; try discriminate.
      injection Hall as _ <-. cbn [fst] in Hbad.
      rewrite allocate_run in Ha.
      destruct (sales sti !! Allocation.sale a) as [s|];
        [|injection Ha as _ ->; reflexivity].
      destruct (leb (Sale.balance s) 0); [injection Ha as _ ->; reflexivity|].
      cbv zeta in Ha. destruct (Sale.valid _); discriminate. }
    split.
    + intros _. exists (length pre), a, acc.
      rewrite Hl. split; [apply list_lookup_middle; reflexivity|].
      rewrite take_app_length. split; assumption.
    + intros ->. exfalso.
      rewrite allocate_run in Hbad.
      destruct (sales st1 !! Allocation.sale a) as [s|]; [|discriminate].
      destruct (leb _ _); [discriminate|]. cbv zeta in Hbad.
      destruct (Sale.valid _); discriminate.
  - intros H. injection H as <- <-. split; [exact Hpay|].
    destruct e; cbn [createPayment_catch].
    + split; [intros [E|(E & _)]; discriminate|discriminate].
    + split; [intros [E|(E & _)]; discriminate|]. intros _. exfalso.
      clear Hpay Hval Hc. revert Hall. generalize (@nil Allocation.t), 0.
      induction (PaymentReq.sales req) as [|a l IH] in st |- *; intros recs tot Hall;
        [discriminate|].
      cbn [allocateAll] in Hall. unfold bind in Hall.
      destruct (allocate a st) as [[x|e'|e'] stj] eqn:Ha; try discriminate.
      * exact (IH _ _ _ Hall).
      * rewrite allocate_run in Ha.
        destruct (sales st !! Allocation.sale a) as [s|]; [|discriminate].
        destruct (leb _ _); [discriminate|]. cbv zeta in Ha.
        destruct (Sale.valid _); [discriminate|].
        injection Ha as <- _. discriminate.
Qed.

(** In the shop, 600 for the sale of 1000 and 5 for a sale that does not
    exist: the answer is [NotFound], no payment is recorded, and the sale of
    1000 has 600 paid. *)
Lemma X13_createPayment_failure_keeps_writes_witness :
  exists st',
    createPayment "REC-2"
      (PaymentReq.mk 1%N (Some 605) [Allocation.mk 10%N 600; Allocation.mk 99%N 5])
      shopWithSale = (Failure NotFound, st')
    /\ payments st' = payments shopWithSale
    /\ exists s', sales st' !! 10%N = Some s' /\ Sale.paid s' == 600.
Proof.
  destruct (createPayment "REC-2"
              (PaymentReq.mk 1%N (Some 605) [Allocation.mk 10%N 600; Allocation.mk 99%N 5])
              shopWithSale) as [r st'] eqn:Hrun.
  assert (r = Failure NotFound) as ->.
  { pose proof (f_equal fst Hrun) as Hr. vm_compute in Hr. symmetry. exact Hr. }
  exists st'. split; [reflexivity|].
  destruct (X13_createPayment_failure_keeps_writes _ _ _ _ _ Hrun) as (Hpay & _).
  split; [exact Hpay|].
  pose proof (f_equal snd Hrun) as Hst. cbn [snd] in Hst. rewrite <- Hst.
  eexists. split; vm_compute; reflexivity.
Defined.

(** ** Payment update, case by case *)

(** [updatePayment] on every request and store, up to its two loops. *)
Lemma updatePayment_run pid req st :
  updatePayment pid req st =
  if negb (updatePaymentValidation req) then (Failure ValidationFailed, st)
  else match payments st !! pid with
       | None => (Failure NotFound, st)
       | Some payment =>
           match reverseAll (Payment.sales payment) st with
           | (Ok _, st1) =>
               match reallocateAll (PaymentReq.sales req) [] 0 st1 with
               | (Ok r, st2) =>
                   let p := Payment.mk (Payment.receiptNumber payment)
                                       (Payment.customer payment)
                                       (orElse (PaymentReq.amount req) (Payment.amount payment))
                                       (fst r) (snd r) in
                   if Payment.valid p
                   then (Success p, with_payments (insert pid p) st2)
                   else (Failure ServerError, st2)
               | (Respond e, st2) => (Failure e, st2)
               | (Throw e, st2) => (Failure ServerError, st2)
               end
           | (Respond e, st1) => (Failure e, st1)
           | (Throw e, st1) => (Failure ServerError, st1)
           end
       end.
Proof.
  unfold updatePayment, handle, updatePayment_body.
  destruct (updatePaymentValidation req); cbn [negb]; [|reflexivity].
  unfold bind at 1, Payment_findById.
  destruct (payments st !! pid) as [payment|]; [|reflexivity].
  unfold bind at 1.
  destruct (reverseAll (Payment.sales payment) st) as [[u|e|e] st1]; try reflexivity.
  unfold bind at 1.
  destruct (reallocateAll (PaymentReq.sales req) [] 0 st1) as [[r|e|e] st2]; try reflexivity.
  unfold bind, Payment_save. cbv zeta.
  destruct (Payment.valid _); reflexivity.
Qed.

(** ** The amount of a payment and its allocations *)

(** X15.  The amount of a payment plays no part in what [createPayment]
    allocates.  If a request succeeds, the same request with any other
    amount of at least 0.01 succeeds with the same recorded allocations
    and the same [totalAllocated], and leaves the same sales, customers and
    products; no step compares the allocations with the amount, so the
    [remainingAmount] of the recorded payment is whatever the difference
    is, negative included. *)
Theorem X15_amount_does_not_bound_allocations rn req st pid p st' amt' :
  createPayment rn req st = (Success (pid, p), st') ->
  (1 # 100) <= amt' ->
  exists p' st'',
    createPayment rn (PaymentReq.mk (PaymentReq.customer req) (Some amt')
                                    (PaymentReq.sales req)) st
    = (Success (pid, p'), st'')
    /\ Payment.amount p' = amt'
    /\ Payment.sales p' = Payment.sales p
    /\ Payment.totalAllocated p' = Payment.totalAllocated p
    /\ Payment.remainingAmount p' == amt' - Payment.totalAllocated p
    /\ sales st'' = sales st'
    /\ customers st'' = customers st'
    /\ products st'' = products st'.
Proof.
  intros H Hamt. rewrite createPayment_run in H. rewrite createPayment_run.
  unfold createPaymentValidation in *.
  cbn [PaymentReq.customer PaymentReq.amount PaymentReq.sales].
  destruct (PaymentReq.amount req) as [amt|]; [|discriminate].
  destruct (leb (1 # 100) amt) eqn:Hmin; [|discriminate].
  assert (leb (1 # 100) amt' = true) as Hmin' by (apply leb_le; exact Hamt).
  rewrite Hmin'. cbn [andb] in *.
  destruct (forallb _ (PaymentReq.sales req)); cbn [negb] in *; [|discriminate].
  destruct (customers st !! PaymentReq.customer req); [|discriminate].
  destruct (allocateAll (PaymentReq.sales req) [] 0 st) as [[[recs tot]|e|e] st1];
    try discriminate.
  cbv zeta in *. cbn [fst snd default from_option id] in *.
  unfold Payment.valid in *.
  cbn [Payment.amount Payment.sales Payment.totalAllocated] in *.
  rewrite Hmin in H. rewrite Hmin'. cbn [andb] in *.
  destruct (forallb _ recs && leb 0 tot); [|discriminate].
  destruct (receiptTaken rn (payments st1)); [discriminate|].
  injection H as <- <- <-.
  eexists _, _. split; [reflexivity|].
  unfold Payment.remainingAmount.
  cbn [Payment.amount Payment.sales Payment.totalAllocated bumpId with_payments
       sales customers products].
  repeat split; reflexivity.
Qed.

(** In the shop, a payment of 10 allocating 600 to the sale of 1000 is
    recorded, with 590 more allocated than was paid. *)
Lemma X15_amount_does_not_bound_allocations_witness :
  exists p' st'',
    createPayment "REC-1" (PaymentReq.mk 1%N (Some 10) [Allocation.mk 10%N 600]) shopWithSale
    = (Success (11%N, p'), st'')
    /\ Payment.totalAllocated p' == 600
    /\ Payment.remainingAmount p' == - (590).
Proof.
  destruct (createPayment "REC-1" (PaymentReq.mk 1%N (Some 600) [Allocation.mk 10%N 600])
              shopWithSale) as [r st1] eqn:Hrun.
  destruct r as [[pid p]|e]; [|exfalso; apply (f_equal fst) in Hrun; vm_compute in Hrun;
                                discriminate].
  assert (pid = 11%N) as ->.
  { pose proof (f_equal fst Hrun) as Hr. vm_compute in Hr. congruence. }
  assert (Payment.totalAllocated p == 600) as Htot.
  { pose proof (f_equal fst Hrun) as Hr. vm_compute in Hr. injection Hr as <-. reflexivity. }
  destruct (X15_amount_does_not_bound_allocations _ _ _ _ _ _ 10 Hrun)
    as (p' & st'' & Hrun' & _ & _ & Htot' & Hrem & _); [lra|].
  exists p', st''. split; [exact Hrun'|]. rewrite Htot'. split; [exact Htot|].
  rewrite Hrem, Htot. reflexivity.
Defined.

(** ** A sale paid in full through a payment *)

Lemma paymentStatusOf_zero b p : b == 0 -> paymentStatusOf b p = Paid.
Proof.
  intros Hb. rewrite (paymentStatusOf_proper b 0 Hb p p (Qeq_refl p)). reflexivity.
Qed.

(** X16.  A sale created with a positive balance B and then paid in full
    by a payment allocating at least B to it: the sale ends with balance 0
    and status [Paid], its [paid] raised by B, while the customer's stored
    total purchase is up by the sale's total and the stored outstanding
    amount is up by B, the amount the post-save hook added at creation. *)
Theorem X16_sale_paid_in_full_leaves_outstanding
        inv req st sid sale st1 c rn cust amt x pid p st2 :
  createSale inv req st = (Success (sid, sale), st1) ->
  customers st !! SaleReq.customer req = Some c ->
  0 < Sale.balance sale ->
  Sale.balance sale <= x ->
  createPayment rn (PaymentReq.mk cust (Some amt) [Allocation.mk sid x]) st1
  = (Success (pid, p), st2) ->
  exists s2 c2,
    sales st2 !! sid = Some s2
    /\ Sale.balance s2 == 0
    /\ Sale.paid s2 == Sale.paid sale + Sale.balance sale
    /\ Sale.paymentStatus s2 = Paid
    /\ Payment.sales p = [Allocation.mk sid (Qmin x (Sale.balance sale))]
    /\ customers st2 !! SaleReq.customer req = Some c2
    /\ Customer.totalPurchase c2 == Customer.totalPurchase c + Sale.total sale
    /\ Customer.outstandingAmount c2 == Customer.outstandingAmount c + Sale.balance sale.
Proof.
  intros Hsale Hc Hpos Hx Hpay.
  destruct (createSale_customer _ _ _ _ _ _ _ Hsale Hc) as (c1 & Hc1 & Hp1 & Ho1).
  destruct (createSale_success _ _ _ _ _ _ Hsale)
    as (items & subtotal & _ & Hdata & _ & _ & Hsales1 & _ & _).
  assert (Sale.customer sale = SaleReq.customer req) as Hcust by (subst sale; reflexivity).
  assert (Sale.status sale = Completed) as Hstat by (subst sale; reflexivity).
  rewrite (hookAmount_fires sale Hstat Hpos) in Ho1.
  destruct (createPayment_success _ _ _ _ _ _ Hpay)
    as (amount & recs & tot & st1' & _ & Hall & Hp & _ & _ & Hsales2 & Hcust2).
  cbn [PaymentReq.sales allocateAll] in Hall. unfold bind in Hall.
  destruct (allocate (Allocation.mk sid x) st1) as [[r|e|e] sta] eqn:Ha; try discriminate.
  injection Hall as <- <- <-.
  destruct (allocate_success _ _ _ _ Ha) as (s0 & Hs0 & _ & _ & -> & ->).
  cbn [Allocation.sale Allocation.amount] in *.
  rewrite Hsales1, lookup_insert_eq in Hs0. injection Hs0 as <-.
  assert (Qmin x (Sale.balance sale) == Sale.balance sale) as Hmin
    by (apply Q.min_r; exact Hx).
  rewrite <- Hcust in Hc1.
  destruct (storeAfterApply_customer sid sale (Qmin x (Sale.balance sale)) st1 c1 Hc1)
    as (c2 & Hc2 & Hp2 & Ho2).
  assert (hookAmount (credited sale (Qmin x (Sale.balance sale))) = 0) as Hhook.
  { unfold hookAmount, hookFires. cbn [credited Sale.set_payment Sale.balance].
    assert (ltb 0 (Sale.balance sale - Qmin x (Sale.balance sale)) = false) as ->
      by (apply ltb_ge; lra).
    rewrite andb_false_r. reflexivity. }
  rewrite Hhook in Ho2. cbn [credited Sale.set_payment Sale.balance] in Ho2.
  exists (credited sale (Qmin x (Sale.balance sale))), c2.
  rewrite Hsales2, Hcust2, <- Hcust.
  split; [apply storeAfterApply_sale|].
  cbn [credited Sale.set_payment Sale.balance Sale.paid Sale.paymentStatus].
  split; [lra|]. split; [lra|].
  split; [apply paymentStatusOf_zero; lra|].
  split; [subst p; reflexivity|].
  split; [exact Hc2|]. split; lra.
Qed.

(** The unpaid sale of 1000 in the shop, then a payment of 1000 allocated
    to it: the sale is paid, 1000 stays outstanding for the customer. *)
Lemma X16_sale_paid_in_full_leaves_outstanding_witness :
  exists s2 c2,
    sales (snd (createPayment "REC-1" (PaymentReq.mk 1%N (Some 1000) [Allocation.mk 10%N 1000])
                  shopWithSale)) !! 10%N = Some s2
    /\ Sale.paymentStatus s2 = Paid
    /\ customers (snd (createPayment "REC-1"
                         (PaymentReq.mk 1%N (Some 1000) [Allocation.mk 10%N 1000])
                         shopWithSale)) !! 1%N = Some c2
    /\ Customer.outstandingAmount c2 == 1000.
Proof.
  destruct (createSale "INV-1" (saleOf1000 None) shop) as [r1 st1] eqn:Hsale.
  assert (st1 = shopWithSale) as Hst1 by (unfold shopWithSale; rewrite Hsale; reflexivity).
  destruct r1 as [[sid sale]|e];
    [|exfalso; apply (f_equal fst) in Hsale; vm_compute in Hsale; discriminate].
  assert (sid = 10%N) as ->.
  { pose proof (f_equal fst Hsale) as Hr. vm_compute in Hr. congruence. }
  assert (Sale.balance sale == 1000 /\ Sale.total sale == 1000) as (Hb & Ht).
  { pose proof (f_equal fst Hsale) as Hr. vm_compute in Hr. injection Hr as <-.
    split; reflexivity. }
  destruct (createPayment "REC-1" (PaymentReq.mk 1%N (Some 1000) [Allocation.mk 10%N 1000])
              st1) as [r2 st2] eqn:Hpay.
  destruct r2 as [[pid p]|e];
    [|exfalso; rewrite Hst1 in Hpay; apply (f_equal fst) in Hpay; vm_compute in Hpay;
      discriminate].
  destruct (X16_sale_paid_in_full_leaves_outstanding
              "INV-1" (saleOf1000 None) shop 10%N sale st1 (Customer.mk 0 0 0)
              "REC-1" 1%N 1000 1000 pid p st2 Hsale)
    as (s2 & c2 & Hs2 & _ & _ & Hpaid & _ & Hc2 & _ & Ho); [reflexivity|lra|lra|exact Hpay|].
  rewrite <- Hst1, Hpay. cbn [snd].
  exists s2, c2. split; [exact Hs2|]. split; [exact Hpaid|]. split; [exact Hc2|].
  rewrite Ho, Hb. reflexivity.
Defined.

(** ** A payment update that fails *)

Lemma reallocateAll_app l1 l2 recs tot st :
  reallocateAll (l1 ++ l2) recs tot st =
  match reallocateAll l1 recs tot st with
  | (Ok r, st1) => reallocateAll l2 (fst r) (snd r) st1
  | (Respond e, st1) => (Respond e, st1)
  | (Throw e, st1) => (Throw e, st1)
  end.
Proof.
  revert recs tot st. induction l1 as [|a l1 IH]; intros recs tot st.
  - reflexivity.
  - cbn [app reallocateAll]. unfold bind.
    destruct (reallocate a st) as [[r|e|e] st1]; [apply IH|reflexivity|reflexivity].
Qed.

(** A second loop that ended with a reply: a turn, reached after a prefix
    that ran to its end, did not find its sale; the store is the one the
    prefix has left. *)
Lemma reallocateAll_respond l recs tot st e st' :
  reallocateAll l recs tot st = (Respond e, st') ->
  exists pre a post r1,
    l = pre ++ a :: post
    /\ reallocateAll pre recs tot st = (Ok r1, st')
    /\ sales st' !! Allocation.sale a = None
    /\ e = NotFound.
Proof.
  revert recs tot st. induction l as [|a l IH]; intros recs tot st H.
  - discriminate.
  - cbn [reallocateAll] in H. unfold bind in H.
    destruct (reallocate a st) as [[r|e'|e'] st1] eqn:Ha.
    + destruct (IH _ _ _ H) as (pre & b & post & r1 & -> & Hpre & Hb & He).
      exists (a :: pre), b, post, r1. repeat split; try assumption.
      cbn [reallocateAll]. unfold bind. rewrite Ha. exact Hpre.
    + injection H as <- <-. rewrite reallocate_run in Ha.
      destruct (sales st !! Allocation.sale a) as [s|] eqn:Hs.
      * destruct (Sale.valid _); discriminate.
      * injection Ha as <- <-. exists [], a, l, (recs, tot). repeat split. exact Hs.
    + discriminate.
Qed.

Lemma reverseAllocation_payments a st : payments (snd (reverseAllocation a st)) = payments st.
Proof.
  rewrite reverseAllocation_run.
  destruct (sales st !! Allocation.sale a); [|reflexivity].
  destruct (Sale.valid _); reflexivity.
Qed.

Lemma reallocate_payments a st : payments (snd (reallocate a st)) = payments st.
Proof.
  rewrite reallocate_run.
  destruct (sales st !! Allocation.sale a); [|reflexivity].
  destruct (Sale.valid _); reflexivity.
Qed.

(** X17.  An [updatePayment] that fails leaves every payment document as it
    was and rolls nothing back.  The only reply of the loops is [NotFound]
    for a sale of the new list, and it comes after the reversal of all the
    old allocations and the re-application of the requests before the
    missing one: the store holds the sales so changed, while the payment
    still lists its old allocations. *)
Theorem X17_updatePayment_failure_keeps_reversal pid req st r st' :
  updatePayment pid req st = (Failure r, st') ->
  payments st' = payments st
  /\ (forall p0, payments st !! pid = Some p0 ->
      r = NotFound ->
      exists st1 i a acc,
        reverseAll (Payment.sales p0) st = (Ok tt, st1)
        /\ PaymentReq.sales req !! i = Some a
        /\ reallocateAll (take i (PaymentReq.sales req)) [] 0 st1 = (Ok acc, st')
        /\ sales st' !! Allocation.sale a = None).
Proof.
  rewrite updatePayment_run.
  destruct (negb _).
  { intros H. injection H as <- <-. split; [reflexivity|]. discriminate. }
  destruct (payments st !! pid) as [payment|] eqn:Hp.
  2:{ intros H. injection H as <- <-. split; [reflexivity|]. discriminate. }
  pose proof (reverseAll_rel (fun s s' => payments s' = payments s)
                (fun _ => eq_refl) (fun s1 s2 s3 H1 H2 => eq_trans H2 H1)
                reverseAllocation_payments (Payment.sales payment) st) as Hpay1.
  destruct (reverseAll (Payment.sales payment) st) as [[[]|e|e] st1] eqn:Hrev;
    cbn [snd] in Hpay1.
  - pose proof (reallocateAll_rel (fun s s' => payments s' = payments s)
                  (fun _ => eq_refl) (fun s1 s2 s3 H1 H2 => eq_trans H2 H1)
                  reallocate_payments (PaymentReq.sales req) [] 0 st1) as Hpay2.
    destruct (reallocateAll (PaymentReq.sales req) [] 0 st1) as [[acc|e|e] st2] eqn:Hre;
      cbn [snd] in Hpay2.
    + cbv zeta. destruct (Payment.valid _); [discriminate|].
      intros H. injection H as <- <-. split; [congruence|]. discriminate.
    + intros H. injection H as <- <-. split; [congruence|].
      intros p0 Hp0 _. injection Hp0 as <-.
      destruct (reallocateAll_respond _ _ _ _ _ _ Hre) as (pre & a & post & r1 & Hl & Hpre & Hs & _).
      exists st1, (length pre), a, r1. split; [exact Hrev|].
      rewrite Hl. split; [apply list_lookup_middle; reflexivity|].
      rewrite take_app_length. split; assumption.
    + intros H. injection H as <- <-. split; [congruence|]. discriminate.
  - intros H. injection H as <- <-. split; [exact Hpay1|].
    intros p0 Hp0 ->. exfalso. clear Hpay1 Hp0 Hp.
    revert st Hrev. induction (Payment.sales payment) as [|a l IH]; intros st Hrev;
      [discriminate|].
    cbn [reverseAll] in Hrev. unfold bind in Hrev.
    destruct (reverseAllocation a st) as [[u|e'|e'] stj] eqn:Ha; try discriminate.
    + exact (IH _ Hrev).
    + rewrite reverseAllocation_run in Ha.
      destruct (sales st !! Allocation.sale a); [|discriminate].
      destruct (Sale.valid _); discriminate.
  - intros H. injection H as <- <-. split; [exact Hpay1|]. discriminate.
Qed.

(** The payment of 600 in the shop, updated with a list naming a sale that
    does not exist: the answer is [NotFound], the payment still lists its
    600, and the sale of 1000 has nothing paid any more. *)
Lemma X17_updatePayment_failure_keeps_reversal_witness :
  exists st' p0 s',
    updatePayment 11%N (PaymentReq.mk 1%N None [Allocation.mk 99%N 5]) shopWithPayment
    = (Failure NotFound, st')
    /\ payments st' !! 11%N = Some p0
    /\ Payment.sales p0 = [Allocation.mk 10%N 600]
    /\ sales st' !! 10%N = Some s'
    /\ Sale.paid s' == 0.
Proof.
  destruct (updatePayment 11%N (PaymentReq.mk 1%N None [Allocation.mk 99%N 5])
              shopWithPayment) as [r st'] eqn:Hrun.
  assert (r = Failure NotFound) as ->.
  { pose proof (f_equal fst Hrun) as Hr. vm_compute in Hr. symmetry. exact Hr. }
  destruct (X17_updatePayment_failure_keeps_reversal _ _ _ _ _ Hrun) as (Hpay & _).
  pose proof (f_equal snd Hrun) as Hst. cbn [snd] in Hst.
  exists st'. eexists. eexists. split; [reflexivity|].
  rewrite Hpay. split; [vm_compute; reflexivity|]. split; [reflexivity|].
  rewrite <- Hst. split; vm_compute; reflexivity.
Defined.

(** ** Allocating and taking the allocations back *)

Lemma movedBy_ext d d' s s' : d == d' -> movedBy d s s' -> movedBy d' s s'.
Proof.
  unfold movedBy. intros Hd (? & ? & ? & ? & ? & ? & ? & ? & Hp & Hb).
  repeat apply conj; trivial; lra.
Qed.

Lemma shifted_ext delta delta' m m' :
  (forall k, delta k == delta' k) -> shifted delta m m' -> shifted delta' m m'.
Proof.
  intros He H k. specialize (H k).
  destruct (m !! k), (m' !! k); trivial. exact (movedBy_ext _ _ _ _ (He k) H).
Qed.

Lemma shifted_lookup delta (m m' : gmap ID Sale.t) k s :
  shifted delta m m' -> m !! k = Some s ->
  exists s', m' !! k = Some s' /\ movedBy (delta k) s s'.
Proof.
  intros H Hs. specialize (H k). rewrite Hs in H.
  destruct (m' !! k) as [s'|]; [|contradiction]. exists s'. split; [reflexivity|exact H].
Qed.

Lemma shifted_refl m : shifted (fun _ => 0) m m.
Proof.
  intros k. destruct (m !! k); [|exact I].
  unfold movedBy. repeat apply conj; trivial; lra.
Qed.

(** The step shared by the loops moves its amount on its sale. *)
Lemma storeAfterApply_shifted (sid : ID) s d st m0 delta :
  sales st !! sid = Some s ->
  shifted delta m0 (sales st) ->
  shifted (fun k => delta k + (if N.eqb sid k then d else 0)) m0
          (sales (storeAfterApply sid s d st)).
Proof.
  intros Hs H k. specialize (H k). unfold storeAfterApply. cbn [sales].
  destruct (N.eqb_spec sid k) as [<-|Hne].
  - rewrite lookup_insert_eq. rewrite Hs in H.
    destruct (m0 !! sid) as [s0|]; [|exact H].
    destruct H as (? & ? & ? & ? & ? & ? & ? & ? & Hp & Hb).
    unfold movedBy.
    cbn [credited Sale.set_payment Sale.invoiceNumber Sale.customer Sale.items
         Sale.subtotal Sale.discount Sale.tax Sale.total Sale.status Sale.paid Sale.balance].
    repeat apply conj; trivial; lra.
  - rewrite lookup_insert_ne by exact Hne.
    destruct (m0 !! k), (sales st !! k); trivial.
    apply (movedBy_ext (delta k)); [lra|exact H].
Qed.

(** The allocation loop, run to its end, has moved onto every sale what
    the recorded allocations hold for it. *)
Lemma allocateAll_shifted l :
  Forall (fun a => 0 <= Allocation.amount a) l ->
  forall recs tot st recs' tot' st' m0 delta,
    allocateAll l recs tot st = (Ok (recs', tot'), st') ->
    shifted delta m0 (sales st) ->
    exists news,
      recs' = recs ++ news
      /\ Forall (fun a => 0 <= Allocation.amount a) news
      /\ shifted (fun k => delta k + allocatedTo k news) m0 (sales st').
Proof.
  induction 1 as [|a l Ha _ IH]; intros recs tot st recs' tot' st' m0 delta Hall Hsh.
  - injection Hall as <- <- <-. exists []. rewrite app_nil_r.
    split; [reflexivity|]. split; [constructor|].
    apply (shifted_ext delta); [intros k; cbn [allocatedTo]; lra|exact Hsh].
  - cbn [allocateAll] in Hall. unfold bind in Hall.
    destruct (allocate a st) as [[r|e|e] sta] eqn:Hal; try discriminate.
    destruct (allocate_success _ _ _ _ Hal) as (s & Hs & Hpos & _ & -> & ->).
    pose proof (storeAfterApply_shifted _ _ (Qmin (Allocation.amount a) (Sale.balance s))
                  _ _ _ Hs Hsh) as Hsh1.
    destruct (IH _ _ _ _ _ _ _ _ Hall Hsh1) as (news & -> & Hnn & Hsh2).
    eexists (_ :: news). rewrite <- app_assoc. split; [reflexivity|].
    split.
    + constructor; [|exact Hnn]. cbn [Allocation.amount]. apply Q.min_glb; lra.
    + eapply shifted_ext; [|exact Hsh2].
      intros k. cbn [allocatedTo Allocation.sale Allocation.amount]. lra.
Qed.

(** ** What the payment handlers move onto the sales *)

Lemma reverseAll_moves l :
  forall st st' m0 delta,
    reverseAll l st = (Ok tt, st') ->
    shifted delta m0 (sales st) ->
    shifted (fun k => delta k - allocatedTo k l) m0 (sales st').
Proof.
  induction l as [|r rest IH]; intros st st' m0 delta Hrun Hsh.
  - injection Hrun as <-. apply (shifted_ext delta); [|exact Hsh].
    intros k. cbn [allocatedTo]. lra.
  - cbn [reverseAll] in Hrun. unfold bind in Hrun.
    destruct (reverseAllocation r st) as [[[]|e|e] sta] eqn:Hr; try discriminate.
    rewrite reverseAllocation_run in Hr.
    destruct (sales st !! Allocation.sale r) as [s1|] eqn:Hs1.
    + destruct (Sale.valid _); [|discriminate]. injection Hr as <-.
      pose proof (storeAfterApply_shifted _ _ (- Allocation.amount r) _ _ _ Hs1 Hsh) as Hsh1.
      eapply shifted_ext; [|exact (IH _ _ _ _ Hrun Hsh1)].
      intros k. cbn [allocatedTo]. destruct (N.eqb _ _); lra.
    + injection Hr as <-. pose proof (IH _ _ _ _ Hrun Hsh) as Hsh'.
      intros k. specialize (Hsh k). specialize (Hsh' k). cbn [allocatedTo].
      destruct (N.eqb_spec (Allocation.sale r) k) as [Heq|Hne].
      * rewrite <- Heq in Hsh, Hsh' |- *. rewrite Hs1 in Hsh.
        destruct (m0 !! Allocation.sale r); [contradiction|].
        destruct (sales st' !! Allocation.sale r); [contradiction|exact I].
      * destruct (m0 !! k), (sales st' !! k); trivial.
        eapply movedBy_ext; [|exact Hsh']. lra.
Qed.

Lemma reallocateAll_moves l :
  forall recs tot st recs' tot' st' m0 delta,
    reallocateAll l recs tot st = (Ok (recs', tot'), st') ->
    shifted delta m0 (sales st) ->
    recs' = recs ++ l
    /\ tot' == tot + sumAmounts l
    /\ shifted (fun k => delta k + allocatedTo k l) m0 (sales st').
Proof.
  induction l as [|a l IH]; intros recs tot st recs' tot' st' m0 delta Hrun Hsh.
  - injection Hrun as <- <- <-. rewrite app_nil_r. split; [reflexivity|].
    split; [cbn [sumAmounts]; lra|].
    apply (shifted_ext delta); [|exact Hsh]. intros k. cbn [allocatedTo]. lra.
  - cbn [reallocateAll] in Hrun. unfold bind in Hrun.
    destruct (reallocate a st) as [[r|e|e] sta] eqn:Ha; try discriminate.
    destruct (reallocate_success _ _ _ _ Ha) as (s & Hs & _ & -> & ->).
    pose proof (storeAfterApply_shifted _ _ (Allocation.amount a) _ _ _ Hs Hsh) as Hsh1.
    destruct (IH _ _ _ _ _ _ _ _ Hrun Hsh1) as (-> & Htot & Hsh2).
    cbn [Allocation.amount] in Htot.
    split; [rewrite <- app_assoc; destruct a; reflexivity|].
    split; [cbn [sumAmounts]; lra|].
    eapply shifted_ext; [|exact Hsh2].
    intros k. cbn [allocatedTo]. destruct (N.eqb _ _); lra.
Qed.

Lemma reverseAllocation_books a st :
  products (snd (reverseAllocation a st)) = products st
  /\ keeps samePurchases (customers st) (customers (snd (reverseAllocation a st))).
Proof.
  rewrite reverseAllocation_run.
  destruct (sales st !! Allocation.sale a);
    [|split; [reflexivity|apply keeps_refl, samePurchases_refl]].
  destruct (Sale.valid _); [|split; [reflexivity|apply keeps_refl, samePurchases_refl]].
  split; [reflexivity|apply storeAfterApply_customers].
Qed.

Lemma reallocate_books a st :
  products (snd (reallocate a st)) = products st
  /\ keeps samePurchases (customers st) (customers (snd (reallocate a st))).
Proof.
  rewrite reallocate_run.
  destruct (sales st !! Allocation.sale a);
    [|split; [reflexivity|apply keeps_refl, samePurchases_refl]].
  destruct (Sale.valid _); [|split; [reflexivity|apply keeps_refl, samePurchases_refl]].
  split; [reflexivity|apply storeAfterApply_customers].
Qed.

Lemma books_trans (st1 st2 st3 : Store) :
  products st2 = products st1
  /\ keeps samePurchases (customers st1) (customers st2) ->
  products st3 = products st2
  /\ keeps samePurchases (customers st2) (customers st3) ->
  products st3 = products st1
  /\ keeps samePurchases (customers st1) (customers st3).
Proof.
  intros (Hp1 & Hc1) (Hp2 & Hc2). split; [congruence|].
  exact (keeps_trans _ _ _ _ samePurchases_trans Hc1 Hc2).
Qed.

(** X19.  A successful [updatePayment] records the requested allocations
    as they are, with their sum as [totalAllocated], and has moved onto
    every sale the difference between what the new list and what the old
    list hold for it, from [balance] to [paid]; nothing else of a sale
    changes but the payment status.  Products are as before, customers keep
    their credit limit and total purchase, and of the payments only the
    updated one has changed. *)
Theorem X19_updatePayment_moves_difference pid req st p0 p st' :
  payments st !! pid = Some p0 ->
  updatePayment pid req st = (Success p, st') ->
  Payment.sales p = PaymentReq.sales req
  /\ Payment.totalAllocated p == sumAmounts (PaymentReq.sales req)
  /\ Payment.amount p = orElse (PaymentReq.amount req) (Payment.amount p0)
  /\ payments st' = <[pid:=p]> (payments st)
  /\ products st' = products st
  /\ keeps samePurchases (customers st) (customers st')
  /\ shifted (fun k => allocatedTo k (PaymentReq.sales req)
                       - allocatedTo k (Payment.sales p0))
             (sales st) (sales st').
Proof.
  intros Hp0. rewrite updatePayment_run, Hp0.
  destruct (negb _); [discriminate|].
  pose proof (reverseAll_rel (fun s s' => payments s' = payments s)
                (fun _ => eq_refl) (fun s1 s2 s3 H1 H2 => eq_trans H2 H1)
                reverseAllocation_payments (Payment.sales p0) st) as Hpay1.
  pose proof (reverseAll_rel
                (fun s s' => products s' = products s
                             /\ keeps samePurchases (customers s) (customers s'))
                (fun s => conj eq_refl (keeps_refl _ _ samePurchases_refl))
                books_trans reverseAllocation_books (Payment.sales p0) st) as Hbooks1.
  destruct (reverseAll (Payment.sales p0) st) as [[[]|e|e] st1] eqn:Hrev; try discriminate.
  pose proof (reallocateAll_rel (fun s s' => payments s' = payments s)
                (fun _ => eq_refl) (fun s1 s2 s3 H1 H2 => eq_trans H2 H1)
                reallocate_payments (PaymentReq.sales req) [] 0 st1) as Hpay2.
  pose proof (reallocateAll_rel
                (fun s s' => products s' = products s
                             /\ keeps samePurchases (customers s) (customers s'))
                (fun s => conj eq_refl (keeps_refl _ _ samePurchases_refl))
                books_trans reallocate_books (PaymentReq.sales req) [] 0 st1) as Hbooks2.
  destruct (reallocateAll (PaymentReq.sales req) [] 0 st1) as [[[recs tot]|e|e] st2] eqn:Hre;
    try discriminate.
  cbn [snd fst] in *. cbv zeta.
  destruct (Payment.valid _); [|discriminate].
  intros H. injection H as <- <-.
  pose proof (reverseAll_moves _ _ _ _ _ Hrev (shifted_refl (sales st))) as Hsh1.
  destruct (reallocateAll_moves _ _ _ _ _ _ _ _ _ Hre Hsh1) as (-> & Htot & Hsh2).
  destruct (books_trans _ _ _ Hbooks1 Hbooks2) as (Hprod & Hcust).
  unfold with_payments.
  cbn [Payment.sales Payment.totalAllocated Payment.amount payments products customers
       sales app].
  split; [reflexivity|]. split; [lra|]. split; [reflexivity|].
  split; [congruence|]. split; [exact Hprod|]. split; [exact Hcust|].
  eapply shifted_ext; [|exact Hsh2]. intros k. cbv beta. lra.
Qed.

(** The payment of 600 in the shop, updated to allocate 1500 to the sale
    of 1000: the sale's [paid] is up by 900. *)
Lemma X19_updatePayment_moves_difference_witness :
  exists p st' s s',
    updatePayment 11%N (PaymentReq.mk 1%N None [Allocation.mk 10%N 1500]) shopWithPayment
    = (Success p, st')
    /\ sales shopWithPayment !! 10%N = Some s
    /\ sales st' !! 10%N = Some s'
    /\ Sale.paid s' == Sale.paid s + 900.
Proof.
  destruct (updatePayment 11%N (PaymentReq.mk 1%N None [Allocation.mk 10%N 1500])
              shopWithPayment) as [r st'] eqn:Hrun.
  destruct r as [p|e];
    [|exfalso; apply (f_equal fst) in Hrun; vm_compute in Hrun; discriminate].
  destruct (payments shopWithPayment !! 11%N) as [p0|] eqn:Hp0;
    [|exfalso; vm_compute in Hp0; discriminate].
  assert (Payment.sales p0 = [Allocation.mk 10%N 600]) as Hold.
  { vm_compute in Hp0. injection Hp0 as <-. reflexivity. }
  destruct (X19_updatePayment_moves_difference _ _ _ _ _ _ Hp0 Hrun)
    as (_ & _ & _ & _ & _ & _ & Hsh).
  destruct (sales shopWithPayment !! 10%N) as [s|] eqn:Hs;
    [|exfalso; vm_compute in Hs; discriminate].
  destruct (shifted_lookup _ _ _ _ _ Hsh Hs)
    as (s' & Hs' & _ & _ & _ & _ & _ & _ & _ & _ & Hp & _).
  exists p, st', s, s'. split; [reflexivity|]. split; [reflexivity|].
  split; [exact Hs'|]. rewrite Hp, Hold. vm_compute. reflexivity.
Defined.

(** X20.  A successful [createPayment] has moved onto every sale exactly
    what the recorded payment lists for it, from [balance] to [paid]:
    nothing is applied to a sale that the payment does not record, and
    nothing recorded that was not applied. *)
Theorem X20_createPayment_moves_recorded rn req st pid p st' :
  createPayment rn req st = (Success (pid, p), st') ->
  shifted (fun k => allocatedTo k (Payment.sales p)) (sales st) (sales st')
  /\ Forall (fun a => 0 <= Allocation.amount a) (Payment.sales p)
  /\ forall k s, sales st !! k = Some s ->
       exists s', sales st' !! k = Some s'
         /\ Sale.paid s' == Sale.paid s + allocatedTo k (Payment.sales p)
         /\ Sale.balance s' == Sale.balance s - allocatedTo k (Payment.sales p)
         /\ Sale.total s' = Sale.total s.
Proof.
  intros Hrun.
  assert (createPaymentValidation req = true) as Hval.
  { destruct (createPaymentValidation req) eqn:E; [reflexivity|].
    rewrite createPayment_run, E in Hrun. discriminate. }
  destruct (createPayment_success _ _ _ _ _ _ Hrun)
    as (amount & recs & tot & st0 & _ & Hall & Hp & _ & _ & Hsales & _).
  destruct (allocateAll_shifted _ (createPaymentValidation_amounts _ Hval)
              _ _ _ _ _ _ (sales st) (fun _ => 0) Hall (shifted_refl _))
    as (news & Hrecs & Hnn & Hsh).
  cbn [app] in Hrecs. subst recs. rewrite <- Hsales in Hsh.
  replace (Payment.sales p) with news by (subst p; reflexivity).
  assert (shifted (fun k => allocatedTo k news) (sales st) (sales st')) as Hsh'.
  { eapply shifted_ext; [|exact Hsh]. intros k. cbv beta. lra. }
  split; [exact Hsh'|]. split; [exact Hnn|].
  intros k s Hs.
  destruct (shifted_lookup _ _ _ _ _ Hsh' Hs)
    as (s' & Hs' & _ & _ & _ & _ & _ & _ & Ht & _ & Hpd & Hb).
  exists s'. repeat split; assumption.
Qed.

(** The payment of 600 in the shop. *)
Lemma X20_createPayment_moves_recorded_witness :
  exists s s',
    sales shopWithSale !! 10%N = Some s
    /\ sales shopWithPayment !! 10%N = Some s'
    /\ Sale.paid s' == Sale.paid s + 600.
Proof.
  destruct (createPayment "REC-1" (PaymentReq.mk 1%N (Some 600) [Allocation.mk 10%N 600])
              shopWithSale) as [r1 st1] eqn:Hpay.
  assert (st1 = shopWithPayment) as Hst1
    by (unfold shopWithPayment; rewrite Hpay; reflexivity).
  destruct r1 as [[pid p]|e];
    [|exfalso; apply (f_equal fst) in Hpay; vm_compute in Hpay; discriminate].
  assert (Payment.sales p = [Allocation.mk 10%N 600]) as Hrec.
  { pose proof (f_equal fst Hpay) as Hr. vm_compute in Hr. injection Hr as _ <-.
    reflexivity. }
  destruct (X20_createPayment_moves_recorded _ _ _ _ _ _ Hpay) as (_ & _ & Hmoved).
  destruct (sales shopWithSale !! 10%N) as [s|] eqn:Hs;
    [|exfalso; vm_compute in Hs; discriminate].
  destruct (Hmoved _ _ Hs) as (s' & Hs' & Hp & _).
  exists s, s'. split; [reflexivity|]. rewrite <- Hst1. split; [exact Hs'|].
  rewrite Hp, Hrec. vm_compute. reflexivity.
Defined.

(** ** Taking the allocations of a payment back *)

(** X18.  Recording a payment and then updating it with an empty list of
    allocations is answered with success or with the server error (a sale
    that does not pass the schema validators once an allocation is taken
    back), never with a validation failure or [NotFound].  On success the
    updated payment holds no allocation, its whole amount remains, and
    every sale has the [paid] and the [balance] it had before the payment,
    the other fields but the payment status never having changed, also
    when the payment named a sale several times. *)
Theorem X18_create_then_clear_restores_sales rn req st pid p st1 :
  createPayment rn req st = (Success (pid, p), st1) ->
  exists r st2,
    updatePayment pid (PaymentReq.mk (PaymentReq.customer req) None []) st1 = (r, st2)
    /\ (r = Failure ServerError
        \/ exists p',
             r = Success p'
             /\ payments st2 !! pid = Some p'
             /\ Payment.sales p' = []
             /\ Payment.remainingAmount p' == Payment.amount p
             /\ shifted (fun _ => 0) (sales st) (sales st2)).
Proof.
  intros Hrun.
  assert (createPaymentValidation req = true) as Hval.
  { destruct (createPaymentValidation req) eqn:E; [reflexivity|].
    rewrite createPayment_run, E in Hrun. discriminate. }
  destruct (createPayment_success _ _ _ _ _ _ Hrun)
    as (amount & recs & tot & st0 & Hamt & Hall & Hp & _ & Hpay & Hsales & _).
  destruct (allocateAll_shifted _ (createPaymentValidation_amounts _ Hval)
              _ _ _ _ _ _ (sales st) (fun _ => 0) Hall (shifted_refl _))
    as (news & Hrecs & Hnn & Hsh).
  cbn [app] in Hrecs. subst recs. rewrite <- Hsales in Hsh.
  assert (leb (1 # 100) amount = true) as Hmin.
  { unfold createPaymentValidation in Hval. rewrite Hamt in Hval.
    apply andb_true_iff in Hval. apply Hval. }
  rewrite updatePayment_run.
  change (updatePaymentValidation _) with true. cbn [negb].
  rewrite Hpay, lookup_insert_eq.
  replace (Payment.sales p) with news by (subst p; reflexivity).
  destruct (reverseAll news st1) as [[[]|e|e] st2] eqn:Hrev.
  - pose proof (reverseAll_moves _ _ _ _ _ Hrev Hsh) as Hsh2.
    cbn [PaymentReq.sales PaymentReq.amount reallocateAll ret fst snd orElse].
    cbv zeta. unfold Payment.valid.
    cbn [Payment.amount Payment.sales Payment.totalAllocated forallb].
    replace (Payment.amount p) with amount by (subst p; reflexivity).
    rewrite Hmin. cbn [andb]. change (leb 0 0) with true. cbv iota.
    eexists _, _. split; [reflexivity|]. right.
    eexists. split; [reflexivity|].
    unfold with_payments. cbn [payments sales].
    split; [apply lookup_insert_eq|]. split; [reflexivity|].
    split; [unfold Payment.remainingAmount;
            cbn [Payment.amount Payment.totalAllocated]; lra|].
    eapply shifted_ext; [|exact Hsh2]. intros k. cbv beta. lra.
  - exfalso. clear - Hrev. revert st1 Hrev.
    induction news as [|a l IH]; intros st1 Hrev; [discriminate|].
    cbn [reverseAll] in Hrev. unfold bind in Hrev.
    destruct (reverseAllocation a st1) as [[u|e'|e'] stj] eqn:Ha; try discriminate.
    + exact (IH _ Hrev).
    + rewrite reverseAllocation_run in Ha.
      destruct (sales st1 !! Allocation.sale a); [|discriminate].
      destruct (Sale.valid _); discriminate.
  - eexists _, _. split; [reflexivity|]. left. reflexivity.
Qed.

(** The payment of 600 in the shop, cleared: the sale of 1000 has nothing
    paid and 1000 left, as before the payment. *)
Lemma X18_create_then_clear_restores_sales_witness :
  exists p' st2 s s2,
    updatePayment 11%N (PaymentReq.mk 1%N None []) shopWithPayment = (Success p', st2)
    /\ Payment.sales p' = []
    /\ sales shopWithSale !! 10%N = Some s
    /\ sales st2 !! 10%N = Some s2
    /\ Sale.paid s2 == Sale.paid s
    /\ Sale.balance s2 == Sale.balance s.
Proof.
  destruct (createPayment "REC-1" (PaymentReq.mk 1%N (Some 600) [Allocation.mk 10%N 600])
              shopWithSale) as [r1 st1] eqn:Hpay.
  assert (st1 = shopWithPayment) as Hst1
    by (unfold shopWithPayment; rewrite Hpay; reflexivity).
  destruct r1 as [[pid p]|e];
    [|exfalso; apply (f_equal fst) in Hpay; vm_compute in Hpay; discriminate].
  assert (pid = 11%N) as ->.
  { pose proof (f_equal fst Hpay) as Hr. vm_compute in Hr. congruence. }
  destruct (X18_create_then_clear_restores_sales _ _ _ _ _ _ Hpay)
    as (r & st2 & Hupd & Hcase).
  cbn [PaymentReq.customer] in Hupd. rewrite Hst1 in Hupd.
  destruct Hcase as [->|(p' & -> & _ & Hnil & _ & Hsh)].
  - exfalso. apply (f_equal fst) in Hupd. vm_compute in Hupd. discriminate.
  - destruct (sales shopWithSale !! 10%N) as [s|] eqn:Hs;
      [|exfalso; vm_compute in Hs; discriminate].
    destruct (shifted_lookup _ _ _ _ _ Hsh Hs)
      as (s2 & Hs2 & _ & _ & _ & _ & _ & _ & _ & _ & Hp & Hb).
    exists p', st2, s, s2. repeat split; trivial; lra.
Defined.
